(* ===== verification/_CoqProject ===== *)
-Q . S2P
Prelude.v
Addr.v
World.v
Net.v
Engine.v
Wiring.v
Options.v
Dumbbell.v
Traffic.v
Run.v
Scenarios.v
Cellular.v
Main.v
Invariant.v
