(* ===== verification/Prelude.v ===== *)
(** * A verification development of [src/ns3/tcp_compare.cc]

    The program is an ns-3 driver that compares TCP congestion-control
    variants.  [main] (lines 577-625) seeds the random streams, resolves
    the TCP variant ([ConfigureTcp], 66-79), and calls one of five
    scenario builders ([BuildScenarioS1] .. [S5], 166-575).  Each builder
    creates a topology (nodes, point-to-point links with the bottleneck
    queue of [SetQueue], stacks, addresses, routes), installs traffic
    ([InstallBulkTransfers], [InstallShortWebTraffic], on/off sources),
    creates the run directory ([CreateOutputDir], 57-64) with its
    [cwnd.csv], schedules the cwnd tracer at 0.1 s ([InstallCwndTracer],
    87-93), in S4 schedules a blockage of the video source
    ([SetOnOffRate], 101-108), and runs the simulator, writing
    [flowmon.xml] when the flow monitor is enabled.

    ** How the files model it

    - [Prelude]: the state-and-error monad [SE] (an abort keeps the state
      reached), its notations in [ns3_scope], [sfor]/[smap] for C++ loops,
      [preserves] and the [ns3] hint database; times ([Seconds]: a
      double rounded to nanoseconds as ns-3 does) with [Qleb]/[Qltb] and
      the [qcases] tactic; string lemmas ([str]).
    - [Addr]: [Ipv4Address]'s string parser with its uint8/uint32 wrap,
      [ipv4] packing, [Ipv4AddressHelper]'s cursor ([SetBase],
      [NewNetwork]).
    - [World]: the ns-3 state the driver touches ([World]: nodes, links,
      devices, stacks, interfaces, allocated addresses, routes,
      applications, scheduled events, Config defaults, directories,
      files) and a log of every call; [Sim] is [SE World Abort], and
      [Abort] lists the fatal errors of ns-3 the driver can reach.
    - [Net], [Engine]: the ns-3 primitives the driver calls (node and
      link creation, [SetQueue] with ns-3's parser of the [MaxSize]
      string, [InternetStackHelper::Install], [Assign], applications,
      [Simulator::Schedule]/[Stop], [Config], directories and file
      streams), modelled from the spec's interface.
    - [Wiring]: executable checkers of a built world (one stack per
      node, one address block per link, every sender wired to a sink
      that is installed and started no later, distinct ports).
    - [Options]: [RuntimeOptions] and its defaults, the run directory and
      its round trip, [ConfigureTcp] against the [TypeIdRegistry] class
      (a registry of [TypeIdRec]: name, ancestors, constructor).
    - [Dumbbell], [Traffic]: the dumbbell helper with the driver's
      [InstallStacks]/[AssignIpv4Addresses], the traffic installers.
    - [Run]: [Simulator::Run]: the queue ordered by (time, uid) kept by
      sorted insertion, the applications' start and stop events, the
      tracer connection, rate changes, the stop, and the window changes
      of the TCP sockets, each of which makes every tracer connected to
      the socket write a [CwndTracer] line (time, old, new window);
      [state_at] is the state when the clock reads [t]; [Run_env] runs
      the queue with a list of window changes standing for the TCP
      machines.  [SimulatorRun] dies ([run_crash]) when a TCP
      application starts while the configured socket type is not a
      congestion-control algorithm ns-3 can create.
    - [Scenarios] (S1, S2, S3, S5, and the lemmas every scenario shares:
      set-up, tracer, an optional middle step, run), [Cellular] (S4 with
      the EPC helper and the blockage), [Main] ([BuildScenario], [main],
      the contract [main_contract]).
    - [Invariant]: the state invariant (no address allocated twice, no
      second stack on a node, tracers scheduled at 0.1 s) shown for each
      primitive and carried through every builder and [main] by the
      [preserves] combinators and the [ns3] hints.

    ** What is proved (claims C1-C22)

    - [Main]: an unknown variant (C1) or scenario (C2) aborts before
      anything is built; a run whose variant is a creatable
      congestion-control type, whose queue size parses and whose times
      are not negative completes with [Destroy] last, [cwnd.csv] in the
      run directory and [flowmon.xml] exactly when enabled (C3).
    - [Scenarios], [Cellular]: each builder's topology, links, routes,
      applications and their wiring ([well_built]), or [SetQueue]'s abort
      on a queue size ns-3 refuses (C4-C8); the S3 UDP source installed
      before its sink (C12).
    - [Options]: [ConfigureTcp]'s error (C9) and defaults (C10), the run
      directory's round trip (C11).
    - S4's blockage: the video source runs at 1bps exactly during
      [30, 30 + d) for [d >= 0] (C13); with [d < 0] it never recovers
      (C14).  S4's tracer watches only the TCP sink's listening socket
      (C15); in S1 (C16) and in S1, S2, S3 and S5 (C22) it watches
      exactly the first flow's bulk sender (not the S2 web client nor
      the S3 UDP source of the same node).
    - [Invariant]: whatever window changes the sockets make, the trace
      lines come in time order with none stamped before 0.1 s (C17).
    - [Main]: [main] refines the driver's contract (C18): for every
      option record and TCP registry, the abort, directories and files a
      run leaves are those of the contract's decision table (unknown
      variant, unknown scenario, unparsable queue size, S4 restoration
      in the past, negative duration, a socket type that is not a
      congestion-control algorithm, completed run).
    - [Traffic]: the loop of [InstallBulkTransfers] is equivalent to
      appending, flow by flow, the sink and the sender of each leaf pair
      ([bulk_apps]), ports wrapped to 16 bits (C19).
    - [Main]: the event loop of every completed run terminates at its
      only stop event, with the clock at the duration and every earlier
      event run (C20); the spec's ordering guarantee: the TCP defaults
      precede every node and endpoint, the tracer is set up after all
      topology and traffic calls, and [Simulator::Run] comes after it
      with no topology or traffic call in between or later (C21).
    - Supporting results: the sorted queue is sorted and a permutation
      of the events, the loop equals the reference loop that removes the
      earliest event (within as many steps as events), the rate of an
      application at [t] is the last rate written before [t] and the
      stop ([state_at_rate]), a socket is traced exactly when a tracer of
      its node runs while it is open ([Run_traced]), the loop as a
      transition relation [loop_step] is deterministic and well founded
      ([Run_loop]), and the crash of the run happens exactly when the
      run lasts beyond 0 ([run_crash_stop]).

    ** Bounds, fuel and rounding

    [NumAddressBits] has fuel 32 (a mask has 32 bits); the run loops
    recurse on the queue; [run_ref] is given as many steps as events.
    Times are [Seconds] of the option's value: the value times 10^9
    rounded half away from zero to an integer count of nanoseconds, as
    [Time (int64x64_t)] does; sums of times add the counts.  An option is
    given as the decimal it is written as; the double the C++ reads
    differs from it by less than half an ulp, which changes the rounded
    count only for a value within that distance of a half nanosecond.
    The count is not bounded to 64 bits: a duration beyond 292 years
    would overflow ns-3's [int64_t].

    ** Not modelled

    Command-line parsing (ns-3's [CommandLine]); packets, TCP machines,
    routing computation, the LTE radio and mobility, and the contents of
    the XML file, which ns-3 produces; the window values in the trace
    lines are those of the window changes the run is given, whatever TCP
    machine would make them.  The socket of a stopped application leaves
    the node's list at once, where ns-3 removes it when its close
    completes.  The number part of the queue size is read into a double
    whose failure ns-3 does not check, so it is not checked here. *)

From Stdlib Require Import ZArith QArith.
From stdpp Require Import base list strings.

Declare Scope ns3_scope.
Delimit Scope ns3_scope with ns3.

(** ** A state and error monad

    Every call the driver makes into ns-3 either changes the simulator's
    state or aborts the process ([NS_ABORT_MSG_IF], [NS_FATAL_ERROR],
    [NS_ASSERT]).  An abort keeps the state reached so far, so that the
    theorems can say what had (not) been created when the process died. *)

Inductive result (S E A : Type) : Type :=
| ROk (a : A) (s : S)
| RErr (e : E) (s : S).
Arguments ROk {S E A} a s.
Arguments RErr {S E A} e s.

Definition SE (S E A : Type) : Type := S -> result S E A.

Section Monad.
Context {S E : Type}.

Definition sret {A} (a : A) : SE S E A := fun s => ROk a s.

Definition sbind {A B} (m : SE S E A) (k : A -> SE S E B) : SE S E B :=
  fun s => match m s with
           | ROk a s' => k a s'
           | RErr e s' => RErr e s'
           end.

Definition sget : SE S E S := fun s => ROk s s.
Definition sput (s : S) : SE S E unit := fun _ => ROk tt s.
Definition smodify (f : S -> S) : SE S E unit := fun s => ROk tt (f s).
Definition sfail {A} (e : E) : SE S E A := fun s => RErr e s.

(** A C++ [for] loop over a list of indices. *)
Fixpoint sfor {A} (l : list A) (body : A -> SE S E unit) : SE S E unit :=
  match l with
  | [] => sret tt
  | x :: l' => sbind (body x) (fun _ => sfor l' body)
  end.

(** [std::transform] with an effectful body: the results in order. *)
Fixpoint smap {A B} (f : A -> SE S E B) (l : list A) : SE S E (list B) :=
  match l with
  | [] => sret []
  | x :: l' => sbind (f x) (fun y => sbind (smap f l') (fun ys => sret (y :: ys)))
  end.

(** The final state of a run, whether it succeeded or aborted. *)
Definition final {A} (r : result S E A) : S :=
  match r with ROk _ s => s | RErr _ s => s end.
End Monad.

Notation "'let!' x ':=' m 'in' k" := (sbind m (fun x => k))
  (at level 10, x name, m at level 100, k at level 200) : ns3_scope.
Notation "'let!' ' p ':=' m 'in' k" := (sbind m (fun x => match x with p => k end))
  (at level 10, p pattern, m at level 100, k at level 200) : ns3_scope.
Notation "m ';;!' k" := (sbind m (fun _ => k))
  (at level 100, right associativity) : ns3_scope.

Open Scope ns3_scope.

(** ** Generic lemmas on the monad *)

Section MonadLemmas.
Context {S E : Type}.

Lemma sbind_ok {A B} (m : SE S E A) (k : A -> SE S E B) s a s' :
  m s = ROk a s' -> sbind m k s = k a s'.
Proof. unfold sbind. intros ->. reflexivity. Qed.

Lemma sbind_err {A B} (m : SE S E A) (k : A -> SE S E B) s e s' :
  m s = RErr e s' -> sbind m k s = RErr e s'.
Proof. unfold sbind. intros ->. reflexivity. Qed.

Lemma sfor_app {A} (l1 l2 : list A) (body : A -> SE S E unit) s :
  sfor (l1 ++ l2) body s = sbind (sfor l1 body) (fun _ => sfor l2 body) s.
Proof.
  revert s. induction l1 as [|x l1 IH]; intros s; simpl; [reflexivity|].
  unfold sbind. destruct (body x s) as [[] s'|e s']; [|reflexivity].
  specialize (IH s'). unfold sbind in IH. exact IH.
Qed.

(** An invariant of the state: whatever the computation returns or
    aborts with, the state it leaves satisfies [P] again. *)
Definition preserves {A} (P : S -> Prop) (m : SE S E A) : Prop :=
  forall s, P s -> P (final (m s)).

Lemma preserves_ret {A} P (a : A) : preserves P (sret a).
Proof. intros s H. exact H. Qed.

Lemma preserves_fail {A} P e : preserves P (@sfail S E A e).
Proof. intros s H. exact H. Qed.

Lemma preserves_modify P f : (forall s, P s -> P (f s)) -> preserves P (smodify f).
Proof. intros Hf s H. apply Hf, H. Qed.

Lemma preserves_bind {A B} P (m : SE S E A) (k : A -> SE S E B) :
  preserves P m -> (forall a, preserves P (k a)) -> preserves P (sbind m k).
Proof.
  intros Hm Hk s H. specialize (Hm s H). unfold sbind.
  destruct (m s) as [a s'|e s']; simpl in *; [apply Hk|]; exact Hm.
Qed.

Lemma preserves_sfor {A} P (l : list A) body :
  (forall x, preserves P (body x)) -> preserves P (sfor l body).
Proof.
  intros Hb. induction l as [|x l IH]; simpl.
  - apply preserves_ret.
  - apply preserves_bind; [apply Hb|intros _; exact IH].
Qed.

Lemma preserves_smap {A B} P (f : A -> SE S E B) (l : list A) :
  (forall x, preserves P (f x)) -> preserves P (smap f l).
Proof.
  intros Hf. induction l as [|x l IH]; simpl.
  - apply preserves_ret.
  - apply preserves_bind; [apply Hf|intros y; apply preserves_bind; [exact IH|intros ?; apply preserves_ret]].
Qed.

Lemma preserves_if {A} P (b : bool) (m1 m2 : SE S E A) :
  preserves P m1 -> preserves P m2 -> preserves P (if b then m1 else m2).
Proof. destruct b; auto. Qed.
End MonadLemmas.

Create HintDb ns3 discriminated.
#[export] Hint Resolve preserves_ret preserves_fail preserves_bind
  preserves_sfor preserves_smap preserves_if : ns3.

(** [preserves_auto] decomposes a computation built from the combinators
    above and leaves the primitive operations to the hint database. *)
Ltac preserves_auto :=
  repeat first
    [ apply preserves_bind; [| intros ?]
    | apply preserves_sfor; intros ?
    | apply preserves_smap; intros ?
    | apply preserves_if
    | apply preserves_ret
    | apply preserves_fail
    | progress eauto with ns3 ].

(** ** Times

    A double of the source is modelled by the rational it denotes.  An
    ns-3 [Time] is an [int64_t] count of nanoseconds (the default
    resolution); it is kept here as its value in seconds, a rational
    with denominator dividing 10^9.  [Seconds (double)] is
    [Time::From (int64x64_t (value), Time::S)]: the value times 10^9,
    rounded to the nearest integer with halfway cases away from zero
    ([int64x64_t::Round], used by [Time (const int64x64_t &)]).  The sum
    of two [Time]s adds their counts, so it is exact. *)

Abbreviation Time := Q (only parsing).

(** Nearest integer to [q], halfway cases away from zero. *)
Definition round_half_away (q : Q) : Z :=
  let n := Qnum q in
  let d := Zpos (Qden q) in
  if (n <? 0)%Z then (- ((- n * 2 + d) / (2 * d)))%Z else ((n * 2 + d) / (2 * d))%Z.

Definition ns_per_s : positive := 1000000000.

(** [Seconds (value)]. *)
Definition Seconds (value : Q) : Time :=
  Qred (Qmake (round_half_away (value * inject_Z (Zpos ns_per_s))) ns_per_s).

(** Symbolic durations stay folded under [simpl] and [cbn]; a literal
    [Seconds] is evaluated by conversion. *)
#[global] Arguments Seconds : simpl never.

Definition Qleb (a b : Q) : bool := Qle_bool a b.
Definition Qltb (a b : Q) : bool := negb (Qle_bool b a).

Lemma Qleb_iff a b : Qleb a b = true <-> (a <= b)%Q.
Proof. apply Qle_bool_iff. Qed.

Lemma Qltb_iff a b : Qltb a b = true <-> (a < b)%Q.
Proof.
  unfold Qltb. rewrite negb_true_iff. split.
  - intros H. apply Qnot_le_lt. intros Hle. apply Qle_bool_iff in Hle. congruence.
  - intros H. destruct (Qle_bool b a) eqn:E; [|reflexivity].
    apply Qle_bool_iff in E. exfalso. apply (Qlt_not_le a b); assumption.
Qed.

Lemma Qleb_false a b : Qle_bool a b = false -> (b < a)%Q.
Proof. intros H. apply Qnot_le_lt. intros H'. apply Qle_bool_iff in H'. congruence. Qed.

Lemma Qltb_false a b : Qltb a b = false -> (b <= a)%Q.
Proof. unfold Qltb. intros H. apply negb_false_iff, Qle_bool_iff in H. exact H. Qed.

Lemma round_half_away_nonneg q : (0 <= q)%Q -> (0 <= round_half_away q)%Z.
Proof.
  unfold Qle, round_half_away. simpl. intros Hq.
  destruct (Z.ltb_spec (Qnum q) 0); [lia|]. apply Z.div_pos; lia.
Qed.

Lemma Seconds_0 : Seconds 0 = 0%Q.
Proof. reflexivity. Qed.

(** A non-negative duration gives a non-negative [Time]. *)
Lemma Seconds_nonneg x : (0 <= x)%Q -> (0 <= Seconds x)%Q.
Proof.
  intros Hx. unfold Seconds. rewrite Qred_correct. unfold Qle. simpl. rewrite Z.mul_1_r.
  apply round_half_away_nonneg, Qmult_le_0_compat; [exact Hx|]. unfold Qle. simpl. lia.
Qed.

(** Split on every comparison of rationals left in the goal, keeping
    what each branch knows as a hypothesis (for [lra] to use). *)
Ltac qcases :=
  unfold Qltb, Qleb in *;
  repeat match goal with
  | |- context [Qle_bool ?a ?b] =>
      let E := fresh "Eq" in destruct (Qle_bool a b) eqn:E;
      [apply (Qle_bool_iff a b) in E | apply (Qleb_false a b) in E]
  | |- context [Qeq_bool ?a ?b] =>
      let E := fresh "Eq" in destruct (Qeq_bool a b) eqn:E;
      [apply (Qeq_bool_iff a b) in E | apply (Qeq_bool_neq a b) in E]
  end.

(** ** Lists *)

Lemma NoDup_seq_app (a n m : nat) :
  NoDup (seq a n ++ seq (a + n) m).
Proof. rewrite <- seq_app. apply NoDup_seq. Qed.

(** ** Strings

    stdpp declares [String.append] [simpl never]: its two equations are
    lemmas here, collected in the rewrite database [str]. *)

Lemma str_app_nil_l (b : string) : ("" ++ b)%string = b.
Proof. reflexivity. Qed.

Lemma str_app_cons c (a b : string) : (String c a ++ b)%string = String c (a ++ b)%string.
Proof. reflexivity. Qed.

Create Rewrite HintDb str.
#[export] Hint Rewrite str_app_nil_l str_app_cons : str.

Lemma str_app_assoc (a b c : string) : ((a ++ b) ++ c)%string = (a ++ (b ++ c))%string.
Proof. induction a as [|x a IH]; autorewrite with str; congruence. Qed.

Lemma str_app_nil_r (a : string) : (a ++ "")%string = a.
Proof. induction a as [|x a IH]; autorewrite with str; congruence. Qed.

Lemma str_app_inv_l (d a b : string) : (d ++ a)%string = (d ++ b)%string -> a = b.
Proof. induction d as [|x d IH]; autorewrite with str; [auto|]. intros [= H]. auto. Qed.
