(* ===== verification/Addr.v ===== *)
(** * IPv4 addresses and the address helper's allocation cursor

    The driver names every address and mask by a dotted-quad string
    literal ("10.1.1.0", "255.255.255.0", "7.0.0.0", ...) handed to
    [Ipv4Address] / [Ipv4Mask], and allocates interface addresses with
    [Ipv4AddressHelper] ([SetBase], [NewNetwork], [Assign]).  This file
    models the string-to-address conversion with its 8-bit and 32-bit
    wrap-around, the printing of an address, and the pure part of the
    helper: its cursor ([m_network], [m_shift], [m_address], [m_max]). *)

From Stdlib Require Import ZArith String Ascii Lia DecimalString.
From stdpp Require Import base list.
From S2P Require Import Prelude.

Local Open Scope Z_scope.

(** ** Machine words *)

Definition u8 (z : Z) : Z := z mod 2 ^ 8.
Definition u32 (z : Z) : Z := z mod 2 ^ 32.

(** ** [Ipv4Address (const char * )]: [AsciiToIpv4Host]

    Digits accumulate into a [uint8_t] ([byte *= 10; byte += c - '0']);
    a '.' or the end of the string shifts the byte into the [uint32_t]
    host value ([host <<= 8; host |= byte]). *)

Definition shift_byte (host byte : Z) : Z := Z.lor (u32 (Z.shiftl host 8)) byte.

Fixpoint ascii_to_ipv4_host_aux (s : string) (host byte : Z) : Z :=
  match s with
  | EmptyString => shift_byte host byte
  | String c rest =>
      if Ascii.eqb c "."%char
      then ascii_to_ipv4_host_aux rest (shift_byte host byte) 0
      else ascii_to_ipv4_host_aux rest host
             (u8 (u8 (byte * 10) + (Z.of_nat (nat_of_ascii c) - Z.of_nat (nat_of_ascii "0"%char))))
  end.

Definition Ipv4Address (s : string) : Z := ascii_to_ipv4_host_aux s 0 0.

(** [Ipv4Mask (const char * )] uses the same conversion. *)
Definition Ipv4Mask (s : string) : Z := Ipv4Address s.

(** [Ipv4Address::GetAny ()] is 0.0.0.0. *)
Definition Ipv4Any : Z := 0.

(** The address with the four given octets. *)
Definition ipv4 (a b c d : Z) : Z :=
  Z.lor (Z.shiftl (Z.lor (Z.shiftl (Z.lor (Z.shiftl a 8) b) 8) c) 8) d.

(** ** Printing an address ([Ipv4Address::Print]) *)

Definition octet (x : Z) (k : Z) : Z := Z.land (Z.shiftr x (8 * k)) 255.

Definition dec_string (z : Z) : string :=
  NilEmpty.string_of_uint (N.to_uint (Z.to_N z)).

Definition ipv4_to_string (x : Z) : string :=
  (dec_string (octet x 3) ++ "." ++ dec_string (octet x 2) ++ "." ++
   dec_string (octet x 1) ++ "." ++ dec_string (octet x 0))%string.

(** ** Masks

    [NumAddressBits] counts the zero bits at the bottom of a mask; a mask
    with no bit set fails the helper's assertion ("Bad Mask"). *)

Fixpoint num_address_bits_aux (fuel : nat) (i : Z) (maskbits : Z) : option Z :=
  match fuel with
  | O => None
  | S fuel' =>
      if Z.testbit maskbits 0 then Some i
      else num_address_bits_aux fuel' (i + 1) (Z.shiftr maskbits 1)
  end.

Definition NumAddressBits (maskbits : Z) : option Z := num_address_bits_aux 32 0 maskbits.

(** ** The cursor of an [Ipv4AddressHelper] *)

Record Ipv4AddressHelper := mkHelper {
  ah_network : Z;   (** [m_network], already shifted down by [m_shift] *)
  ah_mask : Z;      (** [m_mask] *)
  ah_shift : Z;     (** [m_shift] *)
  ah_base : Z;      (** [m_base] *)
  ah_address : Z;   (** [m_address]: the next host number *)
  ah_max : Z        (** [m_max]: the largest host number of a network *)
}.

(** Why [SetBase] refuses its arguments. *)
Inductive HelperError :=
| InconsistentNetworkMask (* (m_network & ~m_mask) != 0 *)
| BadMask                 (* NumAddressBits found no set bit *)
| AddressOverflow.        (* NewAddress past m_max *)

(** [Ipv4AddressHelper::SetBase (network, mask, base = "0.0.0.1")]. *)
Definition SetBase (network mask : string) (base : string) : HelperError + Ipv4AddressHelper :=
  let net := Ipv4Address network in
  let m := Ipv4Mask mask in
  let b := Ipv4Address base in
  if negb (Z.eqb (Z.land net (u32 (Z.lnot m))) 0) then inl InconsistentNetworkMask
  else match NumAddressBits m with
       | None => inl BadMask
       | Some shift =>
           inr (mkHelper (Z.shiftr net shift) m shift b b (Z.shiftl 1 shift - 2))
       end.

(** The helper's constructor [Ipv4AddressHelper (network, mask)]. *)
Definition MakeHelper (network mask : string) : HelperError + Ipv4AddressHelper :=
  SetBase network mask "0.0.0.1".

(** The address [NewAddress] hands out next, and the cursor after it. *)
Definition next_address (h : Ipv4AddressHelper) : Z :=
  Z.lor (u32 (Z.shiftl (ah_network h) (ah_shift h))) (ah_address h).

Definition advance (h : Ipv4AddressHelper) : Ipv4AddressHelper :=
  mkHelper (ah_network h) (ah_mask h) (ah_shift h) (ah_base h) (ah_address h + 1) (ah_max h).

(** [Ipv4AddressHelper::NewNetwork]: the next network number, host
    numbers restart at the base. *)
Definition NewNetwork (h : Ipv4AddressHelper) : Ipv4AddressHelper :=
  mkHelper (u32 (ah_network h + 1)) (ah_mask h) (ah_shift h) (ah_base h) (ah_base h) (ah_max h).

(** ** Lemmas *)

Lemma land_shiftl_small a b n :
  0 <= n -> 0 <= b < 2 ^ n -> Z.land (Z.shiftl a n) b = 0.
Proof.
  intros Hn Hb. apply Z.bits_inj'. intros m Hm.
  rewrite Z.land_spec, Z.shiftl_spec by lia. rewrite Z.bits_0.
  destruct (Z.lt_ge_cases m n) as [Hlt|Hge].
  - rewrite (Z.testbit_neg_r a) by lia. reflexivity.
  - rewrite <- (Z.mod_small b (2 ^ n)) by lia.
    rewrite Z.mod_pow2_bits_high by lia. apply andb_false_r.
Qed.

Lemma lor_shiftl_small a b n :
  0 <= n -> 0 <= b < 2 ^ n -> Z.lor (Z.shiftl a n) b = a * 2 ^ n + b.
Proof.
  intros Hn Hb.
  rewrite <- Z.lxor_lor by (apply land_shiftl_small; lia).
  rewrite <- Z.add_nocarry_lxor by (apply land_shiftl_small; lia).
  rewrite Z.shiftl_mul_pow2 by lia. reflexivity.
Qed.

Lemma ipv4_value a b c d :
  0 <= b < 256 -> 0 <= c < 256 -> 0 <= d < 256 ->
  ipv4 a b c d = ((a * 256 + b) * 256 + c) * 256 + d.
Proof.
  intros Hb Hc Hd. unfold ipv4.
  rewrite !lor_shiftl_small; change (2 ^ 8) with 256; lia.
Qed.

Lemma ipv4_range a b c d :
  0 <= a < 256 -> 0 <= b < 256 -> 0 <= c < 256 -> 0 <= d < 256 ->
  0 <= ipv4 a b c d < 2 ^ 32.
Proof. intros. rewrite ipv4_value by lia. change (2 ^ 32) with 4294967296. lia. Qed.
