(* ===== verification/World.v ===== *)
(** * The ns-3 state the driver builds, and the primitive calls it makes

    The driver never computes anything itself: it calls ns-3 helpers that
    create nodes, links and devices, install protocol stacks, allocate
    addresses, install applications, schedule events and write files.
    [World] is the part of ns-3's (process-wide) state those calls touch,
    kept as a record of lists indexed by the ids ns-3 hands out (a node id
    is its index in [NodeList], a device id its index in [w_devices], an
    application id its index in [w_apps]).  [w_log] records every call in
    the order it was made, so that orderings between calls can be stated. *)

From Stdlib Require Import ZArith QArith String.
From stdpp Require Import base list strings gmap.
From S2P Require Import Prelude Addr.

(** ** Data *)

(** [PointToPointHelper]: the attributes given to the devices and the
    channel it creates ([DataRate], [Delay]) and its queue ([SetQueue]). *)
Record P2PHelper := mkP2P {
  p2p_rate : string;
  p2p_delay : string;
  p2p_queue : option string   (** [MaxSize] of the [DropTailQueue] *)
}.

Record Link := mkLink {
  ln_a : nat;
  ln_b : nat;
  ln_rate : string;
  ln_delay : string;
  ln_queue : option string
}.

Inductive DevKind :=
| DevP2P (link : nat)
| DevLteEnb
| DevLteUe
| DevTunnel.

Record Device := mkDevice {
  dev_node : nat;
  dev_kind : DevKind;
  dev_rx_error : option Q   (** a [RateErrorModel] with this packet error rate *)
}.

(** An IPv4 interface of a node: interface 0 is the loopback, the others
    are created by [Assign] for a device, in order. *)
Record Iface := mkIface {
  if_node : nat;
  if_dev : option nat;
  if_addrs : list (Z * Z)   (** (address, mask) *)
}.

Record Route := mkRoute {
  rt_node : nat;
  rt_dest : Z;
  rt_mask : Z;
  rt_gateway : option Z;
  rt_iface : nat
}.

Inductive Proto := Tcp | Udp.

(** An [InetSocketAddress]: an IPv4 address (0 for [GetAny]) and a port. *)
Record SockAddr := mkSock { sa_ip : Z; sa_port : Z }.

Inductive AppKind :=
| PacketSink (local : SockAddr)
| BulkSend (remote : SockAddr) (maxBytes : N)
| OnOff (remote : SockAddr) (onTime offTime : string) (packetSize : N) (rate : string).

Record App := mkApp {
  app_node : nat;
  app_proto : Proto;
  app_kind : AppKind;
  app_start : Time;
  app_stop : option Time
}.

(** What a [Simulator::Schedule]d callback does when it fires. *)
Inductive Event :=
| EvInstallCwndTracer (node : nat) (file : string)
| EvSetOnOffRate (app : option nat) (rate : string)
| EvStop.

(** A registered [TypeId], as the handle [TypeId::LookupByNameFailSafe]
    returns: its name, the names of its ancestors ([GetParent ()] up to
    the root, nearest first) and whether it has a constructor
    ([HasConstructor]), which is what an [ObjectFactory] needs. *)
Record TypeIdRec := mkTid {
  tid_name : string;
  tid_parents : list string;
  tid_has_constructor : bool
}.

Inductive ConfigValue :=
| CfgTypeId (tid : TypeIdRec)
| CfgUint (n : N)
| CfgBool (b : bool).

(** The calls into ns-3, in the order they are made. *)
Inductive Effect :=
| ESetSeed (n : N)
| ESetRun (n : N)
| ESetDefault (key : string)
| ECreateNode (id : nat)
| EInstallLink (link : nat)
| EInstallLteDevice (dev : nat)
| EInstallStack (node : nat)
| ESetErrorModel (dev : nat)
| EAssign (node : nat) (addr : Z)
| EPopulateRouting
| EAddRoute (node : nat)
| EAttach (ue enb : nat)
| EInstallApp (app : nat)
| ESetStart (app : nat) (t : Time)
| ESetStop (app : nat) (t : Time)
| EMkdirs (path : string)
| ECreateFile (path : string)
| ESchedule (t : Time) (ev : Event)
| EInstallMonitor
| ERun
| ESerialize (path : string)
| EDestroy.

(** Why the process aborts. *)
Inductive Abort :=
| UnknownTcpType (name : string)      (** [NS_ABORT_MSG_IF] in [ConfigureTcp] *)
| UnsupportedScenario (name : string) (** [NS_FATAL_ERROR] in [main] *)
| StackAlreadyInstalled (node : nat)  (** [InternetStackHelper::Install] *)
| NoIpv4Stack (node : nat)            (** [Ipv4AddressHelper::Assign] *)
| AddressHelperError (e : HelperError)
| AddressCollision (addr : Z)         (** [Ipv4AddressGenerator::AddAllocated] *)
| NegativeDelay (t : Time)            (** [Simulator::Schedule] *)
| InvalidQueueSize (value : string)   (** [ObjectFactory::Set] of [MaxSize] *)
| NotCongestionOps (name : string)    (** [TcpL4Protocol::CreateSocket] *)
| CannotOpen (path : string)          (** [AsciiTraceHelper::CreateFileStream] *)
| BadIndex (i : nat).                 (** a container's [Get] out of range *)

Record World := mkWorld {
  w_nodes : nat;
  w_links : list Link;
  w_devices : list Device;
  w_stacks : list nat;
  w_ifaces : list Iface;
  w_allocated : list Z;
  w_routes : list Route;
  w_apps : list App;
  w_events : list (Time * Event);
  w_config : gmap string ConfigValue;
  w_dirs : list string;
  w_files : list string;
  w_log : list Effect
}.

#[export] Instance Proto_eq_dec : EqDecision Proto.
Proof. solve_decision. Defined.
#[export] Instance DevKind_eq_dec : EqDecision DevKind.
Proof. solve_decision. Defined.

(** The state of a fresh process. *)
Definition empty_world : World :=
  mkWorld 0 [] [] [] [] [] [] [] [] ∅ [] [] [].

(** The simulator as the driver sees it: a state and error monad. *)
Abbreviation Sim := (SE World Abort).

(** ** Field updates *)

Section Updates.
Context (w : World).
Definition upd_nodes x := mkWorld x w.(w_links) w.(w_devices) w.(w_stacks) w.(w_ifaces) w.(w_allocated) w.(w_routes) w.(w_apps) w.(w_events) w.(w_config) w.(w_dirs) w.(w_files) w.(w_log).
Definition upd_links x := mkWorld w.(w_nodes) x w.(w_devices) w.(w_stacks) w.(w_ifaces) w.(w_allocated) w.(w_routes) w.(w_apps) w.(w_events) w.(w_config) w.(w_dirs) w.(w_files) w.(w_log).
Definition upd_devices x := mkWorld w.(w_nodes) w.(w_links) x w.(w_stacks) w.(w_ifaces) w.(w_allocated) w.(w_routes) w.(w_apps) w.(w_events) w.(w_config) w.(w_dirs) w.(w_files) w.(w_log).
Definition upd_stacks x := mkWorld w.(w_nodes) w.(w_links) w.(w_devices) x w.(w_ifaces) w.(w_allocated) w.(w_routes) w.(w_apps) w.(w_events) w.(w_config) w.(w_dirs) w.(w_files) w.(w_log).
Definition upd_ifaces x := mkWorld w.(w_nodes) w.(w_links) w.(w_devices) w.(w_stacks) x w.(w_allocated) w.(w_routes) w.(w_apps) w.(w_events) w.(w_config) w.(w_dirs) w.(w_files) w.(w_log).
Definition upd_allocated x := mkWorld w.(w_nodes) w.(w_links) w.(w_devices) w.(w_stacks) w.(w_ifaces) x w.(w_routes) w.(w_apps) w.(w_events) w.(w_config) w.(w_dirs) w.(w_files) w.(w_log).
Definition upd_routes x := mkWorld w.(w_nodes) w.(w_links) w.(w_devices) w.(w_stacks) w.(w_ifaces) w.(w_allocated) x w.(w_apps) w.(w_events) w.(w_config) w.(w_dirs) w.(w_files) w.(w_log).
Definition upd_apps x := mkWorld w.(w_nodes) w.(w_links) w.(w_devices) w.(w_stacks) w.(w_ifaces) w.(w_allocated) w.(w_routes) x w.(w_events) w.(w_config) w.(w_dirs) w.(w_files) w.(w_log).
Definition upd_events x := mkWorld w.(w_nodes) w.(w_links) w.(w_devices) w.(w_stacks) w.(w_ifaces) w.(w_allocated) w.(w_routes) w.(w_apps) x w.(w_config) w.(w_dirs) w.(w_files) w.(w_log).
Definition upd_config x := mkWorld w.(w_nodes) w.(w_links) w.(w_devices) w.(w_stacks) w.(w_ifaces) w.(w_allocated) w.(w_routes) w.(w_apps) w.(w_events) x w.(w_dirs) w.(w_files) w.(w_log).
Definition upd_dirs x := mkWorld w.(w_nodes) w.(w_links) w.(w_devices) w.(w_stacks) w.(w_ifaces) w.(w_allocated) w.(w_routes) w.(w_apps) w.(w_events) w.(w_config) x w.(w_files) w.(w_log).
Definition upd_files x := mkWorld w.(w_nodes) w.(w_links) w.(w_devices) w.(w_stacks) w.(w_ifaces) w.(w_allocated) w.(w_routes) w.(w_apps) w.(w_events) w.(w_config) w.(w_dirs) x w.(w_log).
Definition upd_log x := mkWorld w.(w_nodes) w.(w_links) w.(w_devices) w.(w_stacks) w.(w_ifaces) w.(w_allocated) w.(w_routes) w.(w_apps) w.(w_events) w.(w_config) w.(w_dirs) w.(w_files) x.
End Updates.

(** Record a call in the log. *)
Definition emit (e : Effect) : Sim unit :=
  smodify (fun w => upd_log w (w.(w_log) ++ [e])).
