(* ===== verification/Net.v ===== *)
(** * Topology primitives: nodes, point-to-point links, stacks, addresses

    The ns-3 calls the scenario builders make to construct a topology:
    [NodeContainer::Create], [PointToPointHelper::Install],
    [InternetStackHelper::Install], [Ipv4AddressHelper::Assign] (with
    [NewAddress] and the process-wide [Ipv4AddressGenerator]),
    [Ipv4InterfaceContainer::GetAddress], the receive error model of a
    device, and static and global routing.  Their failure modes are the
    fatal errors ns-3 raises: a second stack on a node, an address
    assigned on a node without a stack, an address handed out twice. *)

From Stdlib Require Import ZArith QArith String Ascii.
From stdpp Require Import base list strings gmap.
From S2P Require Import Prelude Addr World.

(** ** Containers *)

(** [NodeContainer], [NetDeviceContainer], [ApplicationContainer]: ids. *)
Abbreviation Container := (list nat).

(** [c.Get (i)]: the source only indexes inside the container; an index
    outside it is undefined behaviour in C++ and an abort here. *)
Definition Get (c : Container) (i : nat) : Sim nat :=
  match c !! i with
  | Some x => sret x
  | None => sfail (BadIndex i)
  end.

(** ** Nodes *)

(** [NodeContainer::Create (n)]: the next [n] ids of the [NodeList]. *)
Definition CreateNodes (n : nat) : Sim Container :=
  fun w =>
    let ids := seq (w_nodes w) n in
    ROk ids (upd_log (upd_nodes w (w_nodes w + n)) (w_log w ++ map ECreateNode ids)).

(** ** Point-to-point links *)

Definition P2PDefault : P2PHelper := mkP2P "32768bps" "0s" None.
Definition SetDataRate (h : P2PHelper) (r : string) : P2PHelper :=
  mkP2P r (p2p_delay h) (p2p_queue h).
Definition SetDelay (h : P2PHelper) (d : string) : P2PHelper :=
  mkP2P (p2p_rate h) d (p2p_queue h).

(** *** The [MaxSize] string of [SetQueue]

    [QueueSize::DoParse] (ns-3 queue-size.cc): the characters up to the
    first one that is not a digit or '.' are the number, the rest is the
    unit, which must be one of those below; a string with no unit is
    refused.  The number itself is read with [>>] into a double, whose
    failure is not checked. *)
Definition queue_units : list string :=
  ["B"; "kB"; "KB"; "KiB"; "MB"; "MiB"; "p"; "kp"; "Kp"; "Mp"].

Definition is_num_char (c : ascii) : bool :=
  Ascii.eqb c "."%char || (Nat.leb 48 (nat_of_ascii c) && Nat.leb (nat_of_ascii c) 57).

(** [s.substr (s.find_first_not_of ("0123456789."))], if there is one. *)
Fixpoint size_unit (s : string) : option string :=
  match s with
  | EmptyString => None
  | String c s' => if is_num_char c then size_unit s' else Some s
  end.

Definition DoParse (s : string) : bool :=
  match size_unit s with
  | Some u => bool_decide (u ∈ queue_units)
  | None => false
  end.

(** The blanks of [isspace]: space, \t, \n, \v, \f, \r. *)
Definition is_blank (c : ascii) : bool :=
  let n := nat_of_ascii c in Nat.eqb n 32 || (Nat.leb 9 n && Nat.leb n 13).

Fixpoint skip_blanks (s : string) : string :=
  match s with
  | String c s' => if is_blank c then skip_blanks s' else s
  | EmptyString => s
  end.

Fixpoint has_blank (s : string) : bool :=
  match s with
  | String c s' => is_blank c || has_blank s'
  | EmptyString => false
  end.

(** [QueueSizeValue::DeserializeFromString]: [iss >> m_value] skips
    leading blanks and parses the next blank-free token; a string left
    over after it fails the [iss.eof ()] check. *)
Definition QueueSizeValid (s : string) : bool :=
  let t := skip_blanks s in negb (has_blank t) && DoParse t.

(** [SetQueue ("ns3::DropTailQueue<Packet>", "MaxSize", StringValue (s))]:
    the helper's queue factory converts the string at once, and
    [ObjectFactory::DoSet] aborts ("Invalid value for attribute set")
    when it does not parse. *)
Definition SetQueue (h : P2PHelper) (maxSize : string) : Sim P2PHelper :=
  fun w =>
    if QueueSizeValid maxSize then ROk (mkP2P (p2p_rate h) (p2p_delay h) (Some maxSize)) w
    else RErr (InvalidQueueSize maxSize) w.

(** [PointToPointHelper::Install (a, b)]: one channel, a device on [a]
    then a device on [b]; the container holds them in that order. *)
Definition P2PInstall (h : P2PHelper) (a b : nat) : Sim Container :=
  fun w =>
    let l := length (w_links w) in
    let d := length (w_devices w) in
    let w1 := upd_links w (w_links w ++ [mkLink a b (p2p_rate h) (p2p_delay h) (p2p_queue h)]) in
    let w2 := upd_devices w1 (w_devices w ++ [mkDevice a (DevP2P l) None; mkDevice b (DevP2P l) None]) in
    ROk [d; S d] (upd_log w2 (w_log w ++ [EInstallLink l])).

(** [d12.Get (1)->SetAttribute ("ReceiveErrorModel", em)]. *)
Definition SetReceiveErrorModel (dev : nat) (rate : Q) : Sim unit :=
  fun w =>
    match w_devices w !! dev with
    | None => RErr (BadIndex dev) w
    | Some d =>
        let d' := mkDevice (dev_node d) (dev_kind d) (Some rate) in
        ROk tt (upd_log (upd_devices w (<[dev := d']> (w_devices w))) (w_log w ++ [ESetErrorModel dev]))
    end.

(** ** Internet stacks *)

Definition has_stack (w : World) (n : nat) : bool := bool_decide (n ∈ w_stacks w).

(** [InternetStackHelper::Install (node)]: aggregates IPv4 with its
    loopback interface 0; a node that already has IPv4 is a fatal error. *)
Definition InstallStack (n : nat) : Sim unit :=
  fun w =>
    if has_stack w n then RErr (StackAlreadyInstalled n) w
    else
      let lo := mkIface n None [(ipv4 127 0 0 1, ipv4 255 0 0 0)] in
      ROk tt (upd_log (upd_ifaces (upd_stacks w (w_stacks w ++ [n])) (w_ifaces w ++ [lo]))
                      (w_log w ++ [EInstallStack n])).

(** [InternetStackHelper::Install (NodeContainer)]. *)
Definition InstallStacksOn (c : Container) : Sim unit := sfor c InstallStack.

(** ** Interfaces and addresses *)

Definition node_ifaces (w : World) (n : nat) : list Iface :=
  filter (fun i => if_node i = n) (w_ifaces w).

(** [Ipv4::GetInterfaceForDevice]. *)
Definition iface_for_device (w : World) (n dev : nat) : option nat :=
  list_find (fun i => if_dev i = Some dev) (node_ifaces w n) ≫= fun p => Some p.1.

(** Add an address to interface [k] of node [n]. *)
Fixpoint add_addr_aux (l : list Iface) (n k : nat) (a : Z * Z) : list Iface :=
  match l with
  | [] => []
  | i :: l' =>
      if decide (if_node i = n) then
        match k with
        | O => mkIface (if_node i) (if_dev i) (if_addrs i ++ [a]) :: l'
        | S k' => i :: add_addr_aux l' n k' a
        end
      else i :: add_addr_aux l' n k a
  end.

(** [Ipv4AddressHelper::NewAddress]: past [m_max] the helper's assertion
    fails; an address already handed out by any helper of the process is
    a collision in the [Ipv4AddressGenerator]. *)
Definition NewAddress (h : Ipv4AddressHelper) : Sim (Z * Ipv4AddressHelper) :=
  fun w =>
    if negb (Z.leb (ah_address h) (ah_max h)) then RErr (AddressHelperError AddressOverflow) w
    else
      let a := next_address h in
      if bool_decide (a ∈ w_allocated w) then RErr (AddressCollision a) w
      else ROk (a, advance h) (upd_allocated w (w_allocated w ++ [a])).

(** One device of [Ipv4AddressHelper::Assign]. *)
Definition AssignOne (h : Ipv4AddressHelper) (dev : nat) : Sim ((nat * nat) * Ipv4AddressHelper) :=
  fun w =>
    match w_devices w !! dev with
    | None => RErr (BadIndex dev) w
    | Some d =>
        let n := dev_node d in
        if negb (has_stack w n) then RErr (NoIpv4Stack n) w
        else
          let '(k, w1) :=
            match iface_for_device w n dev with
            | Some k => (k, w)
            | None => (length (node_ifaces w n),
                       upd_ifaces w (w_ifaces w ++ [mkIface n (Some dev) []]))
            end in
          match NewAddress h w1 with
          | RErr e w2 => RErr e w2
          | ROk (a, h') w2 =>
              let w3 := upd_ifaces w2 (add_addr_aux (w_ifaces w2) n k (a, ah_mask h)) in
              ROk ((n, k), h') (upd_log w3 (w_log w3 ++ [EAssign n a]))
          end
    end.

(** [Ipv4AddressHelper::Assign (devices)]: an [Ipv4InterfaceContainer]
    of (node, interface) pairs, and the helper's cursor after it. *)
Fixpoint Assign (h : Ipv4AddressHelper) (devs : Container)
  : Sim (list (nat * nat) * Ipv4AddressHelper) :=
  match devs with
  | [] => sret ([], h)
  | d :: devs' =>
      let! '(i, h1) := AssignOne h d in
      let! '(rest, h2) := Assign h1 devs' in
      sret (i :: rest, h2)
  end.

(** [Ipv4InterfaceContainer::GetAddress (i)]: the first address of the
    i-th interface of the container. *)
Definition GetAddress (c : list (nat * nat)) (i : nat) : Sim Z :=
  fun w =>
    match c !! i with
    | None => RErr (BadIndex i) w
    | Some (n, k) =>
        match node_ifaces w n !! k ≫= fun f => head (if_addrs f) with
        | Some (a, _) => ROk a w
        | None => RErr (BadIndex k) w
        end
    end.

(** ** Routing *)

(** [Ipv4GlobalRoutingHelper::PopulateRoutingTables]. *)
Definition PopulateRoutingTables : Sim unit := emit EPopulateRouting.

(** [Ipv4StaticRouting::AddNetworkRouteTo] and [SetDefaultRoute]. *)
Definition AddRoute (r : Route) : Sim unit :=
  fun w => ROk tt (upd_log (upd_routes w (w_routes w ++ [r])) (w_log w ++ [EAddRoute (rt_node r)])).
