(* ===== verification/Engine.v ===== *)
(** * Application, scheduling, configuration and file primitives

    The remaining ns-3 calls of the driver: the application helpers
    ([PacketSinkHelper], [BulkSendHelper], [OnOffHelper]) with their
    [Install], [ApplicationContainer::Start]/[Stop] (which change the
    applications in place, through the ids the container shares with the
    node), [Simulator::Schedule]/[Stop]/[Destroy] ([Run] is in [Run]),
    [Config::SetDefault], [RngSeedManager], [SystemPath::MakeDirectories],
    [AsciiTraceHelper::CreateFileStream] and the flow monitor. *)

From Stdlib Require Import ZArith QArith String Ascii.
From stdpp Require Import base list strings gmap.
From S2P Require Import Prelude Addr World Net.

(** ** Application helpers *)

(** The [TypeId] names of the socket factories the driver uses. *)
Definition proto_of_factory (factory : string) : Proto :=
  if String.eqb factory "ns3::UdpSocketFactory" then Udp else Tcp.

Record PacketSinkHelper := mkSinkHelper { psh_factory : string; psh_local : SockAddr }.

Record BulkSendHelper := mkBulkHelper {
  bsh_factory : string; bsh_remote : SockAddr; bsh_maxBytes : N }.

(** [MaxBytes] defaults to 0 (no limit). *)
Definition MakeBulkSendHelper (factory : string) (remote : SockAddr) : BulkSendHelper :=
  mkBulkHelper factory remote 0.
Definition SetMaxBytes (h : BulkSendHelper) (n : N) : BulkSendHelper :=
  mkBulkHelper (bsh_factory h) (bsh_remote h) n.

Record OnOffHelper := mkOnOffHelper {
  ooh_factory : string; ooh_remote : SockAddr; ooh_on : string; ooh_off : string;
  ooh_packetSize : N; ooh_rate : string }.

(** ns-3's defaults for [OnTime], [OffTime], [PacketSize], [DataRate]. *)
Definition MakeOnOffHelper (factory : string) (remote : SockAddr) : OnOffHelper :=
  mkOnOffHelper factory remote "ns3::ConstantRandomVariable[Constant=1.0]"
    "ns3::ConstantRandomVariable[Constant=1.0]" 512 "500kb/s".
Definition SetOnTime (h : OnOffHelper) (v : string) : OnOffHelper :=
  mkOnOffHelper (ooh_factory h) (ooh_remote h) v (ooh_off h) (ooh_packetSize h) (ooh_rate h).
Definition SetOffTime (h : OnOffHelper) (v : string) : OnOffHelper :=
  mkOnOffHelper (ooh_factory h) (ooh_remote h) (ooh_on h) v (ooh_packetSize h) (ooh_rate h).
Definition SetPacketSize (h : OnOffHelper) (n : N) : OnOffHelper :=
  mkOnOffHelper (ooh_factory h) (ooh_remote h) (ooh_on h) (ooh_off h) n (ooh_rate h).
Definition SetRate (h : OnOffHelper) (r : string) : OnOffHelper :=
  mkOnOffHelper (ooh_factory h) (ooh_remote h) (ooh_on h) (ooh_off h) (ooh_packetSize h) r.

(** An application starts at 0 s and has no stop time until told. *)
Definition InstallApp (n : nat) (p : Proto) (k : AppKind) : Sim Container :=
  fun w =>
    let id := length (w_apps w) in
    ROk [id] (upd_log (upd_apps w (w_apps w ++ [mkApp n p k 0 None])) (w_log w ++ [EInstallApp id])).

Definition SinkInstall (h : PacketSinkHelper) (n : nat) : Sim Container :=
  InstallApp n (proto_of_factory (psh_factory h)) (PacketSink (psh_local h)).
Definition BulkInstall (h : BulkSendHelper) (n : nat) : Sim Container :=
  InstallApp n (proto_of_factory (bsh_factory h)) (BulkSend (bsh_remote h) (bsh_maxBytes h)).
Definition OnOffInstall (h : OnOffHelper) (n : nat) : Sim Container :=
  InstallApp n (proto_of_factory (ooh_factory h))
    (OnOff (ooh_remote h) (ooh_on h) (ooh_off h) (ooh_packetSize h) (ooh_rate h)).

Definition set_start (t : Time) (a : App) : App :=
  mkApp (app_node a) (app_proto a) (app_kind a) t (app_stop a).
Definition set_stop (t : Time) (a : App) : App :=
  mkApp (app_node a) (app_proto a) (app_kind a) (app_start a) (Some t).

(** [ApplicationContainer::Start (t)] and [Stop (t)]: every application
    of the container, through its id. *)
Definition AppsStart (c : Container) (t : Time) : Sim unit :=
  sfor c (fun id w =>
    ROk tt (upd_log (upd_apps w (alter (set_start t) id (w_apps w))) (w_log w ++ [ESetStart id t]))).
Definition AppsStop (c : Container) (t : Time) : Sim unit :=
  sfor c (fun id w =>
    ROk tt (upd_log (upd_apps w (alter (set_stop t) id (w_apps w))) (w_log w ++ [ESetStop id t]))).

(** ** The scheduler *)

(** [Simulator::Schedule (delay, ...)] during set-up, when the clock is
    at 0: a negative delay fails the simulator's assertion. *)
Definition Schedule (delay : Time) (ev : Event) : Sim unit :=
  fun w =>
    if Qltb delay 0 then RErr (NegativeDelay delay) w
    else ROk tt (upd_log (upd_events w (w_events w ++ [(delay, ev)])) (w_log w ++ [ESchedule delay ev])).

(** [Simulator::Stop (delay)] schedules the stop event. *)
Definition SimulatorStop (delay : Time) : Sim unit := Schedule delay EvStop.
Definition SimulatorDestroy : Sim unit := emit EDestroy.

(** ** Configuration and random numbers *)

Definition SetDefault (key : string) (v : ConfigValue) : Sim unit :=
  fun w => ROk tt (upd_log (upd_config w (<[key := v]> (w_config w))) (w_log w ++ [ESetDefault key])).

Definition SetSeed (n : N) : Sim unit := emit (ESetSeed n).
Definition SetRun (n : N) : Sim unit := emit (ESetRun n).

(** ** Files

    [SystemPath::MakeDirectories (p)] creates every directory on the way
    to [p]; a directory exists when it is one of those prefixes.  A file
    can be opened when its directory exists (or it has none). *)

Definition slash : ascii := "/"%char.

(** The characters of a reversed path before its last '/'. *)
Fixpoint drop_to_slash (r : list ascii) : option (list ascii) :=
  match r with
  | [] => None
  | c :: r' => if Ascii.eqb c slash then Some r' else drop_to_slash r'
  end.

(** The directory part of a path, if it has one. *)
Definition dirname (p : string) : option string :=
  match drop_to_slash (rev (list_ascii_of_string p)) with
  | None => None
  | Some d => Some (string_of_list_ascii (rev d))
  end.

Definition dir_within (d p : string) : bool :=
  String.eqb d p || String.prefix (d ++ "/") p.

Definition dir_exists (w : World) (d : string) : bool :=
  existsb (dir_within d) (w_dirs w).

Definition openable (w : World) (p : string) : bool :=
  match dirname p with
  | None => true
  | Some d => dir_exists w d
  end.

Definition MakeDirectories (p : string) : Sim unit :=
  fun w => ROk tt (upd_log (upd_dirs w (w_dirs w ++ [p])) (w_log w ++ [EMkdirs p])).

(** [AsciiTraceHelper::CreateFileStream]: aborts when the file cannot be
    opened; otherwise the (truncated) file exists from now on. *)
Definition CreateFileStream (p : string) : Sim string :=
  fun w =>
    if openable w p
    then ROk p (upd_log (upd_files w (w_files w ++ [p])) (w_log w ++ [ECreateFile p]))
    else RErr (CannotOpen p) w.

(** ** Flow monitor *)

(** [FlowMonitorHelper::InstallAll]: returns the (non-null) monitor. *)
Definition InstallAll : Sim bool := emit EInstallMonitor;;! sret true.

(** [FlowMonitor::SerializeToXmlFile]: a file that cannot be opened is
    logged and skipped, not fatal. *)
Definition SerializeToXmlFile (p : string) : Sim unit :=
  fun w =>
    if openable w p
    then ROk tt (upd_log (upd_files w (w_files w ++ [p])) (w_log w ++ [ESerialize p]))
    else ROk tt w.

(** ** Lemmas *)

Lemma list_ascii_of_string_app (a b : string) :
  list_ascii_of_string (a ++ b) = list_ascii_of_string a ++ list_ascii_of_string b.
Proof. induction a as [|c a IH]; [reflexivity|]. rewrite str_app_cons. simpl. f_equal. exact IH. Qed.

Lemma drop_to_slash_app (l r : list ascii) :
  Forall (fun c => Ascii.eqb c slash = false) l -> drop_to_slash (l ++ r) = drop_to_slash r.
Proof. induction 1 as [|c l Hc _ IH]; simpl; [reflexivity|]. rewrite Hc. exact IH. Qed.

Lemma dirname_app (d b : string) :
  Forall (fun c => Ascii.eqb c slash = false) (list_ascii_of_string b) ->
  dirname (d ++ String "/" b) = Some d.
Proof.
  intros Hb. unfold dirname.
  rewrite list_ascii_of_string_app. simpl. rewrite rev_app_distr. simpl.
  rewrite <- app_assoc. rewrite drop_to_slash_app by (apply Forall_rev; exact Hb).
  simpl. rewrite rev_involutive, string_of_list_ascii_of_string. reflexivity.
Qed.

Lemma dir_exists_made w d : d ∈ w_dirs w -> dir_exists w d = true.
Proof.
  intros Hd. apply existsb_exists. exists d. split; [by apply list_elem_of_In|].
  unfold dir_within. rewrite String.eqb_refl. reflexivity.
Qed.

Lemma openable_in_dir w d b :
  d ∈ w_dirs w -> Forall (fun c => Ascii.eqb c slash = false) (list_ascii_of_string b) ->
  openable w (d ++ String "/" b) = true.
Proof. intros Hd Hb. unfold openable. rewrite dirname_app by exact Hb. by apply dir_exists_made. Qed.
