(* ===== verification/Wiring.v ===== *)
(** * What a well-built experiment looks like

    Executable predicates on the state the builders leave behind, one per
    invariant the spec states for the topology and the traffic:
    - [stacks_once]: every node has exactly one IPv4 stack;
    - [blocks_ok]: both ends of every point-to-point link are addressed in
      the same network, and no two links share a network;
    - [flows_wired]: every sender targets an address of a node on which
      a sink of the same protocol listens on that port, and that sink
      starts no later than the sender;
    - [sinks_installed_first]: that sink was also installed before the
      sender;
    - [ports_distinct]: no two sinks of one node listen on the same
      protocol and port. *)

From Stdlib Require Import ZArith QArith String.
From stdpp Require Import base list strings gmap.
From S2P Require Import Prelude Addr World Net Engine.

Definition stacks_once (w : World) : bool :=
  bool_decide (NoDup (w_stacks w)) && forallb (has_stack w) (seq 0 (w_nodes w)).

(** The addresses of the interface bound to device [dev]. *)
Definition dev_addrs (w : World) (dev : nat) : list (Z * Z) :=
  concat (map if_addrs (filter (fun i => if_dev i = Some dev) (w_ifaces w))).

Definition network (am : Z * Z) : Z := Z.land am.1 am.2.

(** The devices of link [l], in creation order. *)
Definition link_devs (w : World) (l : nat) : list nat :=
  map fst (filter (fun p => dev_kind p.2 = DevP2P l) (zip (seq 0 (length (w_devices w))) (w_devices w))).

(** The network of a link whose two devices have one address each, in
    the same network. *)
Definition link_network (w : World) (l : nat) : option Z :=
  match link_devs w l with
  | [d1; d2] =>
      match dev_addrs w d1, dev_addrs w d2 with
      | [a1], [a2] => if Z.eqb (network a1) (network a2) then Some (network a1) else None
      | _, _ => None
      end
  | _ => None
  end.

Definition blocks_ok (w : World) : bool :=
  let nets := map (link_network w) (seq 0 (length (w_links w))) in
  forallb (fun o => bool_decide (is_Some o)) nets && bool_decide (NoDup nets).

(** ** Flows *)

Definition owns (w : World) (n : nat) (ip : Z) : bool :=
  existsb (fun i => bool_decide (if_node i = n) && existsb (fun am => Z.eqb am.1 ip) (if_addrs i))
          (w_ifaces w).

Definition remote_of (k : AppKind) : option SockAddr :=
  match k with
  | BulkSend r _ => Some r
  | OnOff r _ _ _ _ => Some r
  | PacketSink _ => None
  end.

(** Sink [a] receives what sender [s] sends. *)
Definition listens (w : World) (s a : App) : bool :=
  match remote_of (app_kind s), app_kind a with
  | Some r, PacketSink l =>
      bool_decide (app_proto a = app_proto s) && Z.eqb (sa_port l) (sa_port r) &&
      (Z.eqb (sa_ip l) (sa_ip r) || Z.eqb (sa_ip l) Ipv4Any) && owns w (app_node a) (sa_ip r)
  | _, _ => false
  end.

Definition flows_wired (w : World) : bool :=
  forallb (fun s =>
    match remote_of (app_kind s) with
    | None => true
    | Some _ => existsb (fun a => listens w s a && Qleb (app_start a) (app_start s)) (w_apps w)
    end) (w_apps w).

Definition indexed {A} (l : list A) : list (nat * A) := zip (seq 0 (length l)) l.

Definition sinks_installed_first (w : World) : bool :=
  forallb (fun '(i, s) =>
    match remote_of (app_kind s) with
    | None => true
    | Some _ => existsb (fun '(j, a) => Nat.ltb j i && listens w s a) (indexed (w_apps w))
    end) (indexed (w_apps w)).

Definition sink_key (a : App) : option (nat * Proto * Z) :=
  match app_kind a with
  | PacketSink l => Some (app_node a, app_proto a, sa_port l)
  | _ => None
  end.

Definition ports_distinct (w : World) : bool :=
  bool_decide (NoDup (omap sink_key (w_apps w))).

(** Everything at once. *)
Definition well_built (w : World) : bool :=
  stacks_once w && blocks_ok w && flows_wired w && ports_distinct w.

(** A state in which no topology has been built yet. *)
Definition fresh_topology (w : World) : Prop :=
  w_nodes w = 0 /\ w_links w = [] /\ w_devices w = [] /\ w_stacks w = [] /\
  w_ifaces w = [] /\ w_allocated w = [] /\ w_routes w = [] /\ w_apps w = [] /\
  w_events w = [].

(** Take a state satisfying [fresh_topology] apart into its fields. *)
Ltac intro_fresh w :=
  destruct w as [?n ?l ?d ?s ?i ?a ?r ?ap ?e ?c ?di ?f ?lg];
  let H := fresh "Hfresh" in
  intros H; unfold fresh_topology in H; simpl in H; destruct_and! H; subst.
