(* ===== verification/Options.v ===== *)
(** * Run-time options, the output directory and the TCP variant

    [struct RuntimeOptions] and its constructor (tcp_compare.cc 29-55),
    [CreateOutputDir] (57-64) and [ConfigureTcp] (66-79).  The TCP
    variant is resolved through ns-3's [TypeId] registry, which the
    driver only calls: it is the interface [TypeIdRegistry] here, and
    every theorem on [ConfigureTcp] holds for any registry. *)

From Stdlib Require Import ZArith QArith String Ascii DecimalString DecimalN.
From stdpp Require Import base list strings gmap.
From S2P Require Import Prelude Addr World Net Engine.

(** ** [RuntimeOptions] *)

Record RuntimeOptions := mkOptions {
  scenario : string;
  tcpType : string;
  queueSize : string;
  simulationTime : Time;   (** seconds *)
  warmupTime : Time;       (** seconds to discard in analysis *)
  seed : N;                (** [uint32_t]: ns-3 RNG run *)
  lossRate : Q;            (** used in the wireless scenario *)
  blockageDuration : Time; (** S4 blockage duration (seconds) *)
  enableFlowMonitor : bool
}.

(** [RuntimeOptions::RuntimeOptions ()]. *)
Definition RuntimeOptions_default : RuntimeOptions :=
  mkOptions "S1" "TcpCubic" "150p" 120 20 1 0 (2 # 10) true.

(** ** [CreateOutputDir] *)

(** [std::to_string (uint32_t)]. *)
Definition to_string (n : N) : string := NilEmpty.string_of_uint (N.to_uint n).

Definition output_dir (opts : RuntimeOptions) : string :=
  "results/" ++ scenario opts ++ "/" ++ tcpType opts ++ "/run-" ++ to_string (seed opts).

Definition CreateOutputDir (opts : RuntimeOptions) : Sim string :=
  let dir := output_dir opts in
  MakeDirectories dir;;! sret dir.

(** A path component: a string with no '/'. *)
Fixpoint no_slash (s : string) : bool :=
  match s with
  | EmptyString => true
  | String c s' => negb (Ascii.eqb c slash) && no_slash s'
  end.

(** Reading a run directory back: its '/'-separated components. *)
Fixpoint split_slash_aux (s : string) (cur : string) : list string :=
  match s with
  | EmptyString => [cur]
  | String c s' =>
      if Ascii.eqb c slash then cur :: split_slash_aux s' ""
      else split_slash_aux s' (cur ++ String c "")
  end.

Definition split_slash (s : string) : list string := split_slash_aux s "".

Definition parse_output_dir (p : string) : option (string * string * N) :=
  match split_slash p with
  | [r; sc; tcp; run] =>
      if String.eqb r "results" then
        match run with
        | String "r" (String "u" (String "n" (String "-" digits))) =>
            NilEmpty.uint_of_string digits ≫= fun d => Some (sc, tcp, N.of_uint d)
        | _ => None
        end
      else None
  | _ => None
  end.

(** ** The TCP variant *)

(** What the driver needs of ns-3's [TypeId] registry. *)
Class TypeIdRegistry := {
  LookupByNameFailSafe : string -> option TypeIdRec;
  lookup_name : forall n t, LookupByNameFailSafe n = Some t -> tid_name t = n
}.

(** The five defaults [ConfigureTcp] sets, in order. *)
Definition tcp_defaults (tid : TypeIdRec) : list (string * ConfigValue) :=
  [("ns3::TcpL4Protocol::SocketType", CfgTypeId tid);
   ("ns3::TcpSocket::SndBufSize", CfgUint (4 * 1024 * 1024));
   ("ns3::TcpSocket::RcvBufSize", CfgUint (4 * 1024 * 1024));
   ("ns3::TcpSocketBase::WindowScaling", CfgBool true);
   ("ns3::TcpSocketBase::Timestamp", CfgBool true)].

Definition ConfigureTcp `{TypeIdRegistry} (tcpType : string) : Sim unit :=
  let fullName := ("ns3::" ++ tcpType)%string in
  match LookupByNameFailSafe fullName with
  | None => sfail (UnknownTcpType tcpType)
  | Some tid => sfor (tcp_defaults tid) (fun kv => SetDefault kv.1 kv.2)
  end.

(** A registry with some of the [TypeId]s ns-3 registers, for concrete
    runs: the congestion-control variants and a few unrelated objects. *)
Definition obj : list string := ["ns3::Object"; "ns3::ObjectBase"].
Definition cc : list string := "ns3::TcpCongestionOps" :: obj.

Definition sample_type_ids : list TypeIdRec :=
  [mkTid "ns3::Object" ["ns3::ObjectBase"] true; mkTid "ns3::Node" obj true;
   mkTid "ns3::TcpSocketBase" ("ns3::TcpSocket" :: "ns3::Socket" :: obj) true;
   mkTid "ns3::TcpCongestionOps" obj false;
   mkTid "ns3::TcpNewReno" cc true; mkTid "ns3::TcpLinuxReno" cc true;
   mkTid "ns3::TcpCubic" cc true; mkTid "ns3::TcpBbr" cc true;
   mkTid "ns3::TcpVegas" ("ns3::TcpNewReno" :: cc) true;
   mkTid "ns3::TcpWestwoodPlus" ("ns3::TcpNewReno" :: cc) true].

Definition sample_lookup (n : string) : option TypeIdRec :=
  find (fun t => String.eqb (tid_name t) n) sample_type_ids.

#[export] Instance sample_registry : TypeIdRegistry.
Proof.
  refine {| LookupByNameFailSafe := sample_lookup |}.
  intros n t Hf. apply find_some in Hf as [_ Hf]. by apply String.eqb_eq.
Defined.

(** ** Trace sources and callbacks *)

(** The [Config] path [InstallCwndTracer] connects to. *)
Definition cwnd_trace_path (node : nat) : string :=
  "/NodeList/" ++ to_string (N.of_nat node) ++ "/$ns3::TcpL4Protocol/SocketList/*/CongestionWindow".

(** [SerializeFlowMonitor (monitor, path)]. *)
Definition SerializeFlowMonitor (monitor : bool) (path : string) : Sim unit :=
  SerializeToXmlFile path.

(** ** Lemmas *)

Lemma split_slash_aux_app a b cur :
  no_slash a = true ->
  split_slash_aux (a ++ String "/" b) cur = (cur ++ a)%string :: split_slash_aux b "".
Proof.
  revert cur. induction a as [|c a IH]; intros cur Ha; autorewrite with str; cbn [split_slash_aux no_slash] in *.
  - simpl. rewrite str_app_nil_r. reflexivity.
  - apply andb_prop in Ha as [Hc Ha]. apply negb_true_iff in Hc.
    rewrite Hc, IH by exact Ha.
    rewrite str_app_assoc. reflexivity.
Qed.

Lemma split_slash_aux_last b cur :
  no_slash b = true -> split_slash_aux b cur = [(cur ++ b)%string].
Proof.
  revert cur. induction b as [|c b IH]; intros cur Hb; autorewrite with str; cbn [split_slash_aux no_slash] in *.
  - rewrite str_app_nil_r. reflexivity.
  - apply andb_prop in Hb as [Hc Hb]. apply negb_true_iff in Hc.
    rewrite Hc, IH by exact Hb.
    rewrite str_app_assoc. reflexivity.
Qed.

Lemma no_slash_to_string n : no_slash (to_string n) = true.
Proof. unfold to_string. induction (N.to_uint n); simpl; auto. Qed.

(** C11: the output directory of a run names its scenario, TCP variant
    and seed, and they can be read back from it: [CreateOutputDir] is
    a deterministic, invertible naming of runs whenever the scenario and
    variant names are path components. *)
Theorem output_dir_roundtrip (opts : RuntimeOptions) :
  no_slash (scenario opts) = true -> no_slash (tcpType opts) = true ->
  parse_output_dir (output_dir opts) = Some (scenario opts, tcpType opts, seed opts).
Proof.
  intros Hs Ht. unfold parse_output_dir, output_dir, split_slash.
  change ("results/" ++ ?x)%string with ("results" ++ String "/" x)%string.
  rewrite split_slash_aux_app by reflexivity.
  change ("/" ++ ?x)%string with (String "/" x).
  rewrite split_slash_aux_app by exact Hs.
  change ("/run-" ++ ?x)%string with (String "/" ("run-" ++ x)).
  rewrite split_slash_aux_app by exact Ht.
  rewrite split_slash_aux_last by (autorewrite with str; apply no_slash_to_string).
  autorewrite with str. simpl.
  unfold to_string. rewrite NilEmpty.usu. simpl.
  rewrite Unsigned.of_to. reflexivity.
Qed.

Lemma sfor_SetDefault (kvs : list (string * ConfigValue)) w :
  sfor kvs (fun kv => SetDefault kv.1 kv.2) w =
  ROk tt (upd_log (upd_config w (fold_left (fun m kv => <[kv.1 := kv.2]> m) kvs (w_config w)))
                  (w_log w ++ map (fun kv => ESetDefault kv.1) kvs)).
Proof.
  revert w. induction kvs as [|[k v] kvs IH]; intros w; simpl.
  - destruct w; unfold upd_log, upd_config; simpl. rewrite app_nil_r. reflexivity.
  - unfold sbind, SetDefault. rewrite IH. destruct w; unfold upd_log, upd_config; simpl.
    rewrite <- app_assoc. reflexivity.
Qed.

Lemma ConfigureTcp_unknown_eq `{TypeIdRegistry} t w :
  LookupByNameFailSafe ("ns3::" ++ t) = None -> ConfigureTcp t w = RErr (UnknownTcpType t) w.
Proof. intros Hl. unfold ConfigureTcp. rewrite Hl. reflexivity. Qed.

Lemma ConfigureTcp_ok_eq `{TypeIdRegistry} t tid w :
  LookupByNameFailSafe ("ns3::" ++ t) = Some tid ->
  ConfigureTcp t w =
  ROk tt (upd_log (upd_config w (fold_left (fun m kv => <[kv.1 := kv.2]> m)
                                           (tcp_defaults tid) (w_config w)))
                  (w_log w ++ map (fun kv => ESetDefault kv.1) (tcp_defaults tid))).
Proof. intros Hl. unfold ConfigureTcp. rewrite Hl. apply sfor_SetDefault. Qed.

(** C9: [ConfigureTcp] aborts exactly when ["ns3::" ++ tcpType] is not a
    registered [TypeId], with [UnknownTcpType], and it aborts before it
    has changed anything. *)
Theorem ConfigureTcp_error `{TypeIdRegistry} t w e w' :
  ConfigureTcp t w = RErr e w' <->
  LookupByNameFailSafe ("ns3::" ++ t) = None /\ e = UnknownTcpType t /\ w' = w.
Proof.
  destruct (LookupByNameFailSafe ("ns3::" ++ t)) as [tid|] eqn:Hl.
  - rewrite (ConfigureTcp_ok_eq t tid w Hl). split; [discriminate|intros [? _]; discriminate].
  - rewrite (ConfigureTcp_unknown_eq t w Hl).
    split; [intros [= <- <-]|intros (_ & -> & ->)]; auto.
Qed.

(** C10: after a successful [ConfigureTcp], the socket type is the
    [TypeId] registered under the requested variant's name
    ([TypeIdValue (tid)]), both buffers are 4 MiB, window scaling and
    timestamps are on; every other default, the topology, the
    applications and the directories are as before. *)
Theorem ConfigureTcp_defaults `{TypeIdRegistry} t w w' :
  ConfigureTcp t w = ROk tt w' ->
  exists tid, LookupByNameFailSafe ("ns3::" ++ t) = Some tid /\ tid_name tid = ("ns3::" ++ t)%string /\
  w_config w' !! "ns3::TcpL4Protocol::SocketType" = Some (CfgTypeId tid) /\
  w_config w' !! "ns3::TcpSocket::SndBufSize" = Some (CfgUint 4194304) /\
  w_config w' !! "ns3::TcpSocket::RcvBufSize" = Some (CfgUint 4194304) /\
  w_config w' !! "ns3::TcpSocketBase::WindowScaling" = Some (CfgBool true) /\
  w_config w' !! "ns3::TcpSocketBase::Timestamp" = Some (CfgBool true) /\
  (forall k, k ∉ ["ns3::TcpL4Protocol::SocketType"; "ns3::TcpSocket::SndBufSize";
                  "ns3::TcpSocket::RcvBufSize"; "ns3::TcpSocketBase::WindowScaling";
                  "ns3::TcpSocketBase::Timestamp"] ->
        w_config w' !! k = w_config w !! k) /\
  w_nodes w' = w_nodes w /\ w_dirs w' = w_dirs w /\ w_apps w' = w_apps w.
Proof.
  destruct (LookupByNameFailSafe ("ns3::" ++ t)) as [tid|] eqn:Hl.
  - rewrite (ConfigureTcp_ok_eq t tid w Hl). intros [= <-]. exists tid.
    split; [reflexivity|]. apply lookup_name in Hl. destruct w; simpl.
    split_and!; try by simplify_map_eq.
    intros k Hk. rewrite !lookup_insert_ne; [reflexivity|..]; set_solver.
  - unfold ConfigureTcp. rewrite Hl. discriminate.
Qed.

(** ** Witnesses *)

Lemma output_dir_roundtrip_witness :
  no_slash "S1" = true /\ no_slash "TcpCubic" = true /\
  parse_output_dir (output_dir RuntimeOptions_default) = Some ("S1"%string, "TcpCubic"%string, 1%N).
Proof.
  split; [reflexivity|split; [reflexivity|]].
  apply (output_dir_roundtrip RuntimeOptions_default); reflexivity.
Defined.

Lemma ConfigureTcp_defaults_witness :
  exists w', ConfigureTcp "TcpCubic" empty_world = ROk tt w' /\
    w_config w' !! "ns3::TcpL4Protocol::SocketType" = Some (CfgTypeId (mkTid "ns3::TcpCubic" cc true)).
Proof.
  eexists. split; [reflexivity|].
  destruct (@ConfigureTcp_defaults sample_registry "TcpCubic" empty_world _ eq_refl)
    as (tid & Hl & _ & Hs & _). injection Hl as <-. exact Hs.
Defined.
