(* ===== verification/Dumbbell.v ===== *)
(** * The dumbbell topology of S1 and S5

    [PointToPointDumbbellHelper] builds two routers joined by a
    bottleneck link, with left leaves attached to router 0 and right
    leaves attached to router 1.  The driver wraps it with
    [InstallStacks] (tcp_compare.cc 120-125) and [AssignIpv4Addresses]
    (110-118), which addresses the left leaves from 10.1.1.0/24, the
    right leaves from 10.2.1.0/24 and the bottleneck from 10.3.1.0/24,
    one /24 per link. *)

From Stdlib Require Import ZArith QArith String.
From stdpp Require Import base list strings gmap.
From S2P Require Import Prelude Addr World Net Engine.

(** The helper object: its node and device containers, and the
    interface containers [AssignIpv4Addresses] fills in. *)
Record Dumbbell := mkDumbbell {
  db_routers : Container;
  db_left : Container;
  db_right : Container;
  db_routerDevices : Container;
  db_leftRouterDevices : Container;
  db_leftLeafDevices : Container;
  db_rightRouterDevices : Container;
  db_rightLeafDevices : Container;
  db_leftLeafIfs : list (nat * nat);
  db_rightLeafIfs : list (nat * nat);
  db_routerIfs : list (nat * nat)
}.

(** One leaf link: [helper.Install (router, leaf)]; the router's device
    comes first. *)
Definition leaf_link (h : P2PHelper) (router : nat) (leaf : nat) : Sim (nat * nat) :=
  let! c := P2PInstall h router leaf in
  let! rd := Get c 0 in
  let! ld := Get c 1 in
  sret (rd, ld).

(** [PointToPointDumbbellHelper (nLeftLeaf, leftHelper, nRightLeaf,
    rightHelper, bottleneckHelper)]. *)
Definition MakeDumbbell (nLeft : nat) (leftHelper : P2PHelper) (nRight : nat)
    (rightHelper bottleneckHelper : P2PHelper) : Sim Dumbbell :=
  let! routers := CreateNodes 2 in
  let! left := CreateNodes nLeft in
  let! right := CreateNodes nRight in
  let! r0 := Get routers 0 in
  let! r1 := Get routers 1 in
  let! routerDevices := P2PInstall bottleneckHelper r0 r1 in
  let! ls := smap (leaf_link leftHelper r0) left in
  let! rs := smap (leaf_link rightHelper r1) right in
  sret (mkDumbbell routers left right routerDevices (map fst ls) (map snd ls)
          (map fst rs) (map snd rs) [] [] []).

Definition LeftCount (d : Dumbbell) : nat := length (db_left d).
Definition GetLeft (d : Dumbbell) (i : nat) : Sim nat := Get (db_left d) i.
Definition GetRight (d : Dumbbell) (i : nat) : Sim nat := Get (db_right d) i.
Definition GetRightIpv4Address (d : Dumbbell) (i : nat) : Sim Z :=
  GetAddress (db_rightLeafIfs d) i.

(** [PointToPointDumbbellHelper::InstallStack]: routers, then left
    leaves, then right leaves. *)
Definition DumbbellInstallStack (d : Dumbbell) : Sim unit :=
  InstallStacksOn (db_routers d);;!
  InstallStacksOn (db_left d);;!
  InstallStacksOn (db_right d).

(** One side of [PointToPointDumbbellHelper::AssignIpv4Addresses]: each
    leaf link gets its own network, leaf address first, then
    [NewNetwork]. *)
Fixpoint assign_side (h : Ipv4AddressHelper) (leafDevs routerDevs : Container)
  : Sim (list (nat * nat)) :=
  match leafDevs, routerDevs with
  | ld :: lds, rd :: rds =>
      let! '(ifc, h1) := Assign h [ld; rd] in
      let! i0 := match ifc !! 0 with Some i => sret i | None => sfail (BadIndex 0) end in
      let! rest := assign_side (NewNetwork h1) lds rds in
      sret (i0 :: rest)
  | _, _ => sret []
  end.

Definition DumbbellAssign (d : Dumbbell) (leftIp rightIp routerIp : Ipv4AddressHelper) : Sim Dumbbell :=
  let! '(routerIfs, _) := Assign routerIp (db_routerDevices d) in
  let! leftIfs := assign_side leftIp (db_leftLeafDevices d) (db_leftRouterDevices d) in
  let! rightIfs := assign_side rightIp (db_rightLeafDevices d) (db_rightRouterDevices d) in
  sret (mkDumbbell (db_routers d) (db_left d) (db_right d) (db_routerDevices d)
          (db_leftRouterDevices d) (db_leftLeafDevices d) (db_rightRouterDevices d)
          (db_rightLeafDevices d) leftIfs rightIfs routerIfs).

(** ** The driver's wrappers *)

Definition helper_or_abort (r : HelperError + Ipv4AddressHelper) : Sim Ipv4AddressHelper :=
  match r with
  | inl e => sfail (AddressHelperError e)
  | inr h => sret h
  end.

(** [AssignIpv4Addresses (dumbbell)] (tcp_compare.cc 110-118). *)
Definition AssignIpv4Addresses (d : Dumbbell) : Sim Dumbbell :=
  let! leftIp := helper_or_abort (MakeHelper "10.1.1.0" "255.255.255.0") in
  let! rightIp := helper_or_abort (MakeHelper "10.2.1.0" "255.255.255.0") in
  let! routerIp := helper_or_abort (MakeHelper "10.3.1.0" "255.255.255.0") in
  DumbbellAssign d leftIp rightIp routerIp.

(** [InstallStacks (dumbbell)] (tcp_compare.cc 120-125). *)
Definition InstallStacks (d : Dumbbell) : Sim unit := DumbbellInstallStack d.
