(* ===== verification/Traffic.v ===== *)
(** * The traffic installer

    [InstallBulkTransfers] (tcp_compare.cc 127-145): one unlimited TCP
    bulk flow per dumbbell leaf pair, the sink on right leaf [i] bound to
    its address and port [5000 + i], the sender on left leaf [i].
    [InstallShortWebTraffic] (147-164): a TCP sink on port 9000 of the
    server and an on/off client that starts one second after it.
    [SetOnOffRate] (101-108): the callback the blockage events run.
    [bulk_apps] lists the applications the bulk loop adds, flow by flow,
    and the loop is shown equivalent to appending it. *)

From Stdlib Require Import ZArith QArith String.
From stdpp Require Import base list strings gmap.
From S2P Require Import Prelude Addr World Net Engine Dumbbell.

Local Open Scope Z_scope.

(** [InetSocketAddress] takes a [uint16_t] port. *)
Definition u16 (z : Z) : Z := z mod 2 ^ 16.

(** The port of the [i]-th bulk flow: [port + i] with [port = 5000]. *)
Definition bulk_port (i : nat) : Z := u16 (5000 + Z.of_nat i).

(** The body of the loop of [InstallBulkTransfers] for leaf pair [i]. *)
Definition bulk_transfer (d : Dumbbell) (start stop : Q) (i : nat) : Sim unit :=
  let! rightAddr := GetRightIpv4Address d i in
  let sinkAddress := mkSock rightAddr (bulk_port i) in
  let sinkHelper := mkSinkHelper "ns3::TcpSocketFactory" sinkAddress in
  let! rightNode := GetRight d i in
  let! sinkApp := SinkInstall sinkHelper rightNode in
  AppsStart sinkApp (Seconds start);;!
  AppsStop sinkApp (Seconds stop);;!
  let bulkSender := SetMaxBytes (MakeBulkSendHelper "ns3::TcpSocketFactory" sinkAddress) 0 in
  let! leftNode := GetLeft d i in
  let! senderApp := BulkInstall bulkSender leftNode in
  AppsStart senderApp (Seconds start);;!
  AppsStop senderApp (Seconds stop).

(** [for (uint32_t i = 0; i < dumbbell.LeftCount (); ++i)]. *)
Definition InstallBulkTransfers (d : Dumbbell) (start stop : Q) : Sim unit :=
  sfor (seq 0 (LeftCount d)) (bulk_transfer d start stop).

(** [InstallShortWebTraffic (client, server, serverAddress, start, stop)]. *)
Definition InstallShortWebTraffic (client server : nat) (serverAddress : Z) (start stop : Q)
  : Sim unit :=
  let port := 9000 in
  let sinkHelper := mkSinkHelper "ns3::TcpSocketFactory" (mkSock Ipv4Any port) in
  let! sinkApp := SinkInstall sinkHelper server in
  AppsStart sinkApp (Seconds start);;!
  AppsStop sinkApp (Seconds stop);;!
  let httpHelper :=
    SetRate (SetPacketSize (SetOffTime (SetOnTime
      (MakeOnOffHelper "ns3::TcpSocketFactory" (mkSock serverAddress port))
      "ns3::ConstantRandomVariable[Constant=0.2]")
      "ns3::ExponentialRandomVariable[Mean=0.8]") 1200) "10Mbps" in
  let! clientApp := OnOffInstall httpHelper client in
  AppsStart clientApp (Seconds (start + 1));;!
  AppsStop clientApp (Seconds stop).

(** ** [SetOnOffRate] *)

Definition set_rate (r : string) (a : App) : App :=
  match app_kind a with
  | OnOff remote on off ps _ =>
      mkApp (app_node a) (app_proto a) (OnOff remote on off ps r) (app_start a) (app_stop a)
  | _ => a
  end.

(** [if (app) app->SetAttribute ("DataRate", DataRateValue (DataRate (rate)))]. *)
Definition SetOnOffRate (app : option nat) (rate : string) : Sim unit :=
  match app with
  | Some id => smodify (fun w => upd_apps w (alter (set_rate rate) id (w_apps w)))
  | None => sret tt
  end.

(** [DynamicCast<OnOffApplication> (c.Get (0))]: null unless the
    application is an on/off application. *)
Definition AsOnOff (w : World) (id : nat) : option nat :=
  match w_apps w !! id with
  | Some {| app_kind := OnOff _ _ _ _ _ |} => Some id
  | _ => None
  end.

(** The rate an on/off application currently sends at. *)
Definition onoff_rate (w : World) (id : nat) : option string :=
  match w_apps w !! id with
  | Some {| app_kind := OnOff _ _ _ _ r |} => Some r
  | _ => None
  end.

(** The applications [InstallBulkTransfers] adds, read off the loop as
    a list: for each leaf pair [i], the sink on right leaf [i] bound to
    the [i]-th address and port [bulk_port i], then the unlimited sender
    on left leaf [i] towards it, both running from [Seconds start] to
    [Seconds stop]. *)
Definition bulk_pair (lefts rights : list nat) (addrs : list Z) (start stop : Q) (i : nat) : list App :=
  match lefts !! i, rights !! i, addrs !! i with
  | Some l, Some r, Some a =>
      [mkApp r Tcp (PacketSink (mkSock a (bulk_port i))) (Seconds start) (Some (Seconds stop));
       mkApp l Tcp (BulkSend (mkSock a (bulk_port i)) 0) (Seconds start) (Some (Seconds stop))]
  | _, _, _ => []
  end.

Definition bulk_apps (lefts rights : list nat) (addrs : list Z) (start stop : Q) : list App :=
  flat_map (bulk_pair lefts rights addrs start stop) (seq 0 (length lefts)).

(** ** Lemmas *)

(** A loop whose every iteration appends applications appends them all,
    in order, as long as the iterations keep [P]. *)
Lemma sfor_apps {A} (P : World -> Prop) (f : A -> list App) (body : A -> Sim unit) l w :
  (forall x w0, x ∈ l -> P w0 -> exists w1, body x w0 = ROk tt w1 /\ P w1 /\ w_apps w1 = w_apps w0 ++ f x) ->
  P w -> exists w', sfor l body w = ROk tt w' /\ P w' /\ w_apps w' = w_apps w ++ flat_map f l.
Proof.
  revert w. induction l as [|x l IH]; intros w Hb Hw; simpl.
  - exists w. rewrite app_nil_r. auto.
  - destruct (Hb x w ltac:(left) Hw) as (w1 & E1 & P1 & A1). unfold sbind. rewrite E1.
    destruct (IH w1) as (w' & E & P' & A'); [intros y w0 Hy; apply Hb; right; exact Hy|exact P1|].
    exists w'. rewrite A', A1, <- app_assoc. auto.
Qed.

Lemma alter_length {A} (f : A -> A) (l k : list A) x :
  alter f (length l) (l ++ x :: k) = l ++ f x :: k.
Proof. induction l as [|y l IH]; simpl; [reflexivity|]. f_equal. exact IH. Qed.

Lemma alter_last {A} (f : A -> A) (l : list A) x : alter f (length l) (l ++ [x]) = l ++ [f x].
Proof. apply alter_length. Qed.

(** An address lookup only reads the interfaces. *)
Lemma GetAddress_ifaces c i w w0 a :
  GetAddress c i w = ROk a w -> w_ifaces w0 = w_ifaces w -> GetAddress c i w0 = ROk a w0.
Proof.
  unfold GetAddress, node_ifaces. intros E Hi. rewrite Hi.
  destruct (c !! i) as [[n k]|]; [|discriminate].
  destruct (_ ≫= _) as [[b m]|]; [|discriminate]. injection E as ->. reflexivity.
Qed.

(** One iteration of the loop of [InstallBulkTransfers]. *)
Lemma bulk_transfer_eq d start stop i w l r a :
  db_left d !! i = Some l -> db_right d !! i = Some r -> GetRightIpv4Address d i w = ROk a w ->
  exists w1, bulk_transfer d start stop i w = ROk tt w1 /\ w_ifaces w1 = w_ifaces w /\
    w_apps w1 = w_apps w ++ [mkApp r Tcp (PacketSink (mkSock a (bulk_port i))) (Seconds start) (Some (Seconds stop));
                             mkApp l Tcp (BulkSend (mkSock a (bulk_port i)) 0) (Seconds start) (Some (Seconds stop))].
Proof.
  intros Hl Hr Ha. unfold bulk_transfer, sbind at 1. rewrite Ha.
  unfold GetRight, GetLeft, Get. rewrite Hr, Hl.
  eexists. split; [reflexivity|]. split; [reflexivity|].
  unfold SinkInstall, BulkInstall, InstallApp, AppsStart, AppsStop, sbind, sret; simpl.
  rewrite !alter_last, <- app_assoc. reflexivity.
Qed.

(** C19: the loop of [InstallBulkTransfers] is equivalent to appending
    [bulk_apps]: when the right side has a leaf for every left leaf and
    the [i]-th right leaf interface has address [addrs !! i], the loop
    completes and adds, in order, the sink and the sender of every leaf
    pair, with their ports, addresses and start and stop times. *)
Theorem InstallBulkTransfers_apps d start stop w addrs :
  length addrs = LeftCount d -> (LeftCount d <= length (db_right d))%nat ->
  (forall i a, addrs !! i = Some a -> GetRightIpv4Address d i w = ROk a w) ->
  exists w', InstallBulkTransfers d start stop w = ROk tt w' /\
    w_apps w' = w_apps w ++ bulk_apps (db_left d) (db_right d) addrs start stop.
Proof.
  intros Hn Hr Ha. unfold InstallBulkTransfers, bulk_apps.
  destruct (sfor_apps (fun w0 => w_ifaces w0 = w_ifaces w) (bulk_pair (db_left d) (db_right d) addrs start stop)
              (bulk_transfer d start stop)
              (seq 0 (LeftCount d)) w) as (w' & E & _ & A); [|reflexivity|exists w'; split; assumption].
  intros i w0 Hi Hw0. apply list_elem_of_In, in_seq in Hi. unfold LeftCount in *.
  destruct (lookup_lt_is_Some_2 (db_left d) i) as [l Hl]; [lia|].
  destruct (lookup_lt_is_Some_2 (db_right d) i) as [r Hr']; [lia|].
  destruct (lookup_lt_is_Some_2 addrs i) as [a Ha']; [lia|].
  destruct (bulk_transfer_eq d start stop i w0 l r a Hl Hr' (GetAddress_ifaces _ _ _ _ _ (Ha i a Ha') Hw0))
    as (w1 & E1 & I1 & A1).
  exists w1. unfold bulk_pair. rewrite Hl, Hr', Ha', I1, Hw0. auto.
Qed.

Lemma InstallBulkTransfers_apps_witness :
  let d := mkDumbbell [] [3%nat] [7%nat] [] [] [] [] [] [] [(7%nat, 0%nat)] [] in
  let w := upd_ifaces empty_world [mkIface 7 (Some 0%nat) [(ipv4 10 2 1 1, ipv4 255 255 255 0)]] in
  length [ipv4 10 2 1 1] = LeftCount d /\ (LeftCount d <= length (db_right d))%nat /\
  (forall i a, [ipv4 10 2 1 1] !! i = Some a -> GetRightIpv4Address d i w = ROk a w) /\
  exists w', InstallBulkTransfers d 1 (100000000001 # 10000000000) w = ROk tt w' /\
    w_apps w' = [mkApp 7 Tcp (PacketSink (mkSock (ipv4 10 2 1 1) 5000)) 1 (Some 10%Q);
                 mkApp 3 Tcp (BulkSend (mkSock (ipv4 10 2 1 1) 5000) 0) 1 (Some 10%Q)].
Proof.
  intros d w.
  assert (H1 : length [ipv4 10 2 1 1] = LeftCount d) by reflexivity.
  assert (H2 : (LeftCount d <= length (db_right d))%nat) by exact (le_n 1).
  assert (H3 : forall i a, [ipv4 10 2 1 1] !! i = Some a -> GetRightIpv4Address d i w = ROk a w).
  { intros [|i] a H; simpl in H; [injection H as <-; vm_compute; reflexivity|discriminate]. }
  split_and!; [exact H1|exact H2|exact H3|].
  destruct (InstallBulkTransfers_apps d 1 (100000000001 # 10000000000) w [ipv4 10 2 1 1] H1 H2 H3)
    as (w' & E & A).
  exists w'. split; [exact E|]. rewrite A. vm_compute. reflexivity.
Defined.
