(* ===== verification/Run.v ===== *)
(** * The run loop: [Simulator::Run] on the state the driver built

    The driver hands control to ns-3's event loop once ([Simulator::Run]
    in every scenario) and never interacts with it afterwards.  What it
    relies on is the loop's contract (spec section 6): events run in
    order of their time stamp, ties in the order they were scheduled (ns-3
    keys its queue by [(ts, uid)]), until the event of [Simulator::Stop].

    The pending events are those of [w_events] (the [Simulator::Schedule]
    and [Simulator::Stop] calls, in order) and those the applications add
    when their node is initialised at time 0 ([Application::DoInitialize]:
    the start at [m_startTime], the stop at [m_stopTime] unless it is 0),
    which get the later uids.  The queue is kept sorted by insertion
    ([q_insert], the ordered map of [MapScheduler]).  An event changes the
    run state: starting a TCP application opens its socket on its node,
    stopping it removes it, [InstallCwndTracer] connects the tracer to the
    TCP sockets its node has at that instant (the [SocketList/*] wildcard
    of the config path), [SetOnOffRate] changes an application's rate,
    the stop event ends the loop, and a window change of a TCP socket
    makes each tracer connected to it write a [CwndTracer] line.  Packets
    and the TCP machines are not modelled (they are ns-3's): [Run_env]
    takes the window changes as an arbitrary list of timed events, and
    the trace lines are shown time-ordered whatever that list is.  The
    socket of a stopped application is dropped at once, where ns-3 drops
    it when its close completes.  [SimulatorRun] is the call as the
    driver sees it: it returns, or the process dies at the first TCP
    socket when the configured socket type is not a congestion-control
    algorithm ([run_crash]); [run_crash_stop] says when that happens on
    the queues the scenarios build. *)

From Stdlib Require Import QArith Lqa String Sorting.
From stdpp Require Import base list strings gmap.
From S2P Require Import Prelude World Engine Traffic.

(** ** The queue *)

Inductive Action :=
| Fire (ev : Event)      (** a [Simulator::Schedule]d callback, or the stop *)
| StartApp (id : nat)    (** [Application::StartApplication] *)
| StopApp (id : nat)     (** [Application::StopApplication] *)
| CwndChange (id : nat) (oldCwnd newCwnd : Z).
    (** the congestion window of application [id]'s socket changes: an
        event of the TCP machine, which the model takes as an input *)

Record Pending := mkPending {
  p_time : Time;
  p_uid : nat;
  p_act : Action
}.

(** The order of [EventKey]: time stamp, then uid. *)
Definition key_lt (a b : Pending) : Prop :=
  (p_time a < p_time b)%Q \/ (p_time a == p_time b /\ (p_uid a < p_uid b)%nat)%Q.

Definition key_ltb (a b : Pending) : bool :=
  Qltb (p_time a) (p_time b) || (Qeq_bool (p_time a) (p_time b) && Nat.ltb (p_uid a) (p_uid b)).

(** [MapScheduler::Insert]: the event goes before the first one with a
    larger key. *)
Fixpoint q_insert (p : Pending) (q : list Pending) : list Pending :=
  match q with
  | [] => [p]
  | x :: q' => if key_ltb p x then p :: q else x :: q_insert p q'
  end.

Definition sort_pendings (l : list Pending) : list Pending :=
  fold_left (fun q p => q_insert p q) l [].

(** Uids in scheduling order from [uid]. *)
Fixpoint number (uid : nat) (l : list (Time * Action)) : list Pending :=
  match l with
  | [] => []
  | (t, a) :: l' => mkPending t uid a :: number (S uid) l'
  end.

(** [Application::DoInitialize]. *)
Definition app_schedule (id : nat) (a : App) : list (Time * Action) :=
  (app_start a, StartApp id) ::
  match app_stop a with
  | Some t => if Qeq_bool t 0 then [] else [(t, StopApp id)]
  | None => []
  end.

(** [Node::DoInitialize]: the node's applications, in the order they
    were added. *)
Fixpoint apps_on (n id : nat) (apps : list App) : list (Time * Action) :=
  match apps with
  | [] => []
  | a :: rest => (if Nat.eqb (app_node a) n then app_schedule id a else []) ++ apps_on n (S id) rest
  end.

(** The nodes are initialised in creation order. *)
Definition app_actions (w : World) : list (Time * Action) :=
  flat_map (fun n => apps_on n 0 (w_apps w)) (seq 0 (w_nodes w)).

Definition initial_pendings (w : World) : list Pending :=
  number 0 (((fun te => (te.1, Fire te.2)) <$> w_events w) ++ app_actions w).

Definition build_queue (w : World) : list Pending := sort_pendings (initial_pendings w).

(** ** The loop *)

Record RunState := mkRun {
  rs_now : Time;
  rs_world : World;                  (** the applications' attributes *)
  rs_sockets : list nat;             (** applications whose socket is open *)
  rs_traced : list (string * nat);   (** (trace file, application) connected *)
  rs_records : list (string * (Time * Z * Z));  (** lines written, per trace file *)
  rs_stopped : bool
}.

Definition is_tcp_on (w : World) (n id : nat) : bool :=
  match w_apps w !! id with
  | Some a => Nat.eqb (app_node a) n && bool_decide (app_proto a = Tcp)
  | None => false
  end.

(** [CwndTracer (stream, oldCwnd, newCwnd)] (lines 81-85): one line
    [Now ().GetSeconds (), oldCwnd, newCwnd] on the stream. *)
Definition CwndTracer (stream : string) (now : Time) (oldCwnd newCwnd : Z) : string * (Time * Z * Z) :=
  (stream, (now, oldCwnd, newCwnd)).

Definition sim_world (m : Sim unit) (w : World) : World :=
  match m w with ROk _ w' => w' | RErr _ w' => w' end.

Definition exec (p : Pending) (s : RunState) : RunState :=
  let '(mkRun _ w socks traced records stopped) := s in
  let now := p_time p in
  match p_act p with
  | Fire EvStop => mkRun now w socks traced records true
  | Fire (EvSetOnOffRate app r) =>
      mkRun now (sim_world (SetOnOffRate app r) w) socks traced records stopped
  | Fire (EvInstallCwndTracer n f) =>
      mkRun now w socks (traced ++ map (pair f) (List.filter (is_tcp_on w n) socks)) records stopped
  | StartApp id => mkRun now w (socks ++ [id]) traced records stopped
  | StopApp id => mkRun now w (List.filter (fun j => negb (Nat.eqb j id)) socks) traced records stopped
  | CwndChange id o n =>
      mkRun now w socks traced
        (records ++ map (fun fj => CwndTracer fj.1 now o n) (List.filter (fun fj => Nat.eqb fj.2 id) traced))
        stopped
  end.

(** [while (!m_events->IsEmpty () && !m_stop) ProcessOneEvent ()]. *)
Fixpoint run_queue (q : list Pending) (s : RunState) : RunState :=
  match q with
  | [] => s
  | p :: q' => if rs_stopped s then s else run_queue q' (exec p s)
  end.

Definition init_run (w : World) : RunState := mkRun 0 w [] [] [] false.

(** [Simulator::Run]. *)
Definition Run (w : World) : RunState := run_queue (build_queue w) (init_run w).

(** The state when the clock has reached [t]: every event stamped no
    later than [t] that comes before the stop has run. *)
Definition state_at (w : World) (t : Time) : RunState :=
  run_queue (List.filter (fun p => Qleb (p_time p) t) (build_queue w)) (init_run w).

(** The reference loop: [Scheduler::RemoveNext] read literally, taking
    the earliest pending event out of an unsorted set each time
    ([fuel] bounds the number of events). *)
Fixpoint min_pending (p : Pending) (l : list Pending) : Pending :=
  match l with
  | [] => p
  | x :: l' => min_pending (if key_ltb x p then x else p) l'
  end.

Definition remove_uid (u : nat) (l : list Pending) : list Pending :=
  List.filter (fun x => negb (Nat.eqb (p_uid x) u)) l.

Fixpoint run_ref (fuel : nat) (l : list Pending) (s : RunState) : RunState :=
  match fuel, l with
  | O, _ | _, [] => s
  | S fuel', p :: l' =>
      if rs_stopped s then s
      else let m := min_pending p l' in run_ref fuel' (remove_uid (p_uid m) l) (exec m s)
  end.

(** The run together with the window changes the TCP machines make:
    [env] lists them (time, application, old and new window), and they
    are queued after the events the driver scheduled. *)
Definition env_pendings (w : World) (env : list (Time * nat * Z * Z)) : list Pending :=
  initial_pendings w ++
  number (length (initial_pendings w))
    (map (fun c => (c.1.1.1, CwndChange c.1.1.2 c.1.2 c.2)) env).

Definition Run_env (w : World) (env : list (Time * nat * Z * Z)) : RunState :=
  run_queue (sort_pendings (env_pendings w env)) (init_run w).

(** The time stamp of a trace line. *)
Definition rec_time (r : string * (Time * Z * Z)) : Time := r.2.1.1.

(** ** Projections of the run state *)

(** The stop event. *)
Definition is_stop (p : Pending) : bool :=
  match p_act p with Fire EvStop => true | _ => false end.

(** The events that run from a queue: up to and including the first
    stop. *)
Fixpoint executed (q : list Pending) : list Pending :=
  match q with
  | [] => []
  | p :: q' => p :: (if is_stop p then [] else executed q')
  end.

(** ** The socket type

    [TcpL4Protocol::CreateSocket] builds the congestion-control object
    of every TCP socket from the [SocketType] the stack was created with
    (the [Config] default, [ns3::TcpNewReno] when none was set) by
    [ObjectFactory::Create<TcpCongestionOps> ()]: for a type with no
    constructor, or whose objects are not [TcpCongestionOps], the process
    dies there (a failed assertion, or a call through the null pointer
    [DynamicCast] returns).  Every TCP application creates its socket
    when it starts. *)
Definition creates_congestion_ops (t : TypeIdRec) : bool :=
  tid_has_constructor t && bool_decide ("ns3::TcpCongestionOps" ∈ tid_parents t).

Definition socket_type_ok (w : World) : bool :=
  match w_config w !! "ns3::TcpL4Protocol::SocketType" with
  | Some (CfgTypeId t) => creates_congestion_ops t
  | _ => true
  end.

(** The event starts a TCP application, which opens its socket. *)
Definition tcp_start (w : World) (p : Pending) : bool :=
  match p_act p with
  | StartApp id => match w_apps w !! id with Some a => bool_decide (app_proto a = Tcp) | None => false end
  | _ => false
  end.

(** How the run dies, if it does: at its first TCP socket, when the
    socket type is not a congestion-control algorithm. *)
Definition run_crash (w : World) : option Abort :=
  match w_config w !! "ns3::TcpL4Protocol::SocketType" with
  | Some (CfgTypeId t) =>
      if creates_congestion_ops t || negb (existsb (tcp_start w) (executed (build_queue w))) then None
      else Some (NotCongestionOps (tid_name t))
  | _ => None
  end.

(** [Simulator::Run]. *)
Definition SimulatorRun : Sim unit :=
  fun w =>
    let w' := upd_log w (w_log w ++ [ERun]) in
    match run_crash w with Some e => RErr e w' | None => ROk tt w' end.

#[global] Arguments run_crash : simpl never.

(** The crash of a run whose only stop is at [T] and whose first
    application is a TCP one starting at 0: it happens when the socket
    type is not a congestion-control algorithm and the run lasts. *)
Definition crash_of (c : gmap string ConfigValue) (T : Time) : option Abort :=
  match c !! "ns3::TcpL4Protocol::SocketType" with
  | Some (CfgTypeId t) =>
      if creates_congestion_ops t || negb (Qltb 0 T) then None else Some (NotCongestionOps (tid_name t))
  | _ => None
  end.

(** The first application is a TCP one on an existing node, starting at
    0, and no application starts before 0. *)
Definition run_ready (w : World) : bool :=
  match w_apps w with
  | a :: _ => bool_decide (app_proto a = Tcp) && Qeq_bool (app_start a) 0 && Nat.ltb (app_node a) (w_nodes w)
  | [] => false
  end && forallb (fun a => Qleb 0 (app_start a)) (w_apps w).

(** The value of a register the events overwrite: the last value an
    event of [l] writes, [d] if none does. *)
Definition last_of {A} (f : Pending -> option A) (l : list Pending) (d : A) : A :=
  fold_left (fun r p => default r (f p)) l d.

(** The rate an event gives application [v]. *)
Definition rate_write (v : nat) (p : Pending) : option string :=
  match p_act p with
  | Fire (EvSetOnOffRate (Some v') r) => if Nat.eqb v v' then Some r else None
  | _ => None
  end.

(** Whether an event opens ([true]) or closes ([false]) the socket of
    application [id]. *)
Definition socket_write (id : nat) (p : Pending) : option bool :=
  match p_act p with
  | StartApp j => if Nat.eqb id j then Some true else None
  | StopApp j => if Nat.eqb id j then Some false else None
  | _ => None
  end.

(** ** Lemmas: the order *)

Lemma key_ltb_iff a b : key_ltb a b = true <-> key_lt a b.
Proof.
  unfold key_ltb, key_lt. rewrite orb_true_iff, andb_true_iff, Qltb_iff, Qeq_bool_iff, Nat.ltb_lt.
  reflexivity.
Qed.

Lemma key_lt_irrefl a : ~ key_lt a a.
Proof. unfold key_lt. intros [H|[_ H]]; [lra|lia]. Qed.

Lemma key_lt_trans a b c : key_lt a b -> key_lt b c -> key_lt a c.
Proof.
  unfold key_lt. intros [H1|[H1 H1']] [H2|[H2 H2']];
    first [left; lra | right; split; [lra|lia]].
Qed.

Lemma key_lt_asym a b : key_lt a b -> ~ key_lt b a.
Proof. intros H1 H2. exact (key_lt_irrefl a (key_lt_trans _ _ _ H1 H2)). Qed.

Lemma key_lt_total a b : p_uid a <> p_uid b -> key_lt a b \/ key_lt b a.
Proof.
  unfold key_lt. intros Hu.
  destruct (Qlt_le_dec (p_time a) (p_time b)); [left; left; assumption|].
  destruct (Qlt_le_dec (p_time b) (p_time a)); [right; left; assumption|].
  destruct (Nat.lt_ge_cases (p_uid a) (p_uid b)); [left|right]; right; split; (lra || lia).
Qed.

Lemma key_ltb_false a b : p_uid a <> p_uid b -> key_ltb a b = false -> key_lt b a.
Proof.
  intros Hu H. destruct (key_lt_total a b Hu) as [H'|H']; [|exact H'].
  apply key_ltb_iff in H'. congruence.
Qed.

Lemma key_ltb_irrefl a : key_ltb a a = false.
Proof. apply not_true_iff_false. rewrite key_ltb_iff. apply key_lt_irrefl. Qed.

Lemma key_ltb_lt_false a b : key_lt a b -> key_ltb b a = false.
Proof. intros H. apply not_true_iff_false. rewrite key_ltb_iff. exact (key_lt_asym _ _ H). Qed.

Lemma key_lt_time a b : key_lt a b -> (p_time a <= p_time b)%Q.
Proof. unfold key_lt. intros [H|[H _]]; lra. Qed.

(** ** Lemmas: sorted queues *)

Lemma q_insert_perm p q : q_insert p q ≡ₚ p :: q.
Proof.
  induction q as [|x q IH]; simpl; [reflexivity|].
  destruct (key_ltb p x); [reflexivity|]. rewrite IH. apply Permutation_swap.
Qed.

Lemma q_insert_sorted p q :
  StronglySorted key_lt q -> Forall (fun x => p_uid x <> p_uid p) q ->
  StronglySorted key_lt (q_insert p q).
Proof.
  induction q as [|x q IH]; simpl; intros Hs Hu.
  - repeat constructor.
  - inversion Hs as [|? ? Hs' Hx]; subst. inversion Hu as [|? ? Hxu Hu']; subst.
    destruct (key_ltb p x) eqn:E.
    + apply key_ltb_iff in E. constructor; [exact Hs|]. constructor; [exact E|].
      eapply Forall_impl; [exact Hx|]. intros y Hy. exact (key_lt_trans _ _ _ E Hy).
    + constructor; [exact (IH Hs' Hu')|].
      rewrite (q_insert_perm p q). constructor; [|exact Hx].
      apply key_ltb_false; [congruence|exact E].
Qed.

Lemma sort_pendings_aux_perm l acc :
  fold_left (fun q p => q_insert p q) l acc ≡ₚ l ++ acc.
Proof.
  revert acc. induction l as [|p l IH]; intros acc; simpl; [reflexivity|].
  rewrite IH, q_insert_perm. symmetry. apply Permutation_middle.
Qed.

Lemma sort_pendings_perm l : sort_pendings l ≡ₚ l.
Proof. unfold sort_pendings. rewrite sort_pendings_aux_perm, app_nil_r. reflexivity. Qed.

Lemma sort_pendings_aux_sorted l acc :
  NoDup (map p_uid (l ++ acc)) -> StronglySorted key_lt acc ->
  StronglySorted key_lt (fold_left (fun q p => q_insert p q) l acc).
Proof.
  revert acc. induction l as [|p l IH]; intros acc Hn Hs; simpl; [exact Hs|].
  apply IH.
  - rewrite q_insert_perm, <- Permutation_middle. exact Hn.
  - apply q_insert_sorted; [exact Hs|].
    apply Forall_forall. intros x Hx E. simpl in Hn. apply NoDup_cons in Hn as [Hn _].
    apply Hn. rewrite map_app, elem_of_app. right. rewrite <- E.
    apply list_elem_of_In, in_map, list_elem_of_In. exact Hx.
Qed.

Lemma sort_pendings_sorted l : NoDup (map p_uid l) -> StronglySorted key_lt (sort_pendings l).
Proof.
  intros Hn. apply sort_pendings_aux_sorted; [rewrite app_nil_r; exact Hn|constructor].
Qed.

(** Two sorted arrangements of the same events are the same list. *)
Lemma sorted_perm_eq l1 l2 :
  StronglySorted key_lt l1 -> StronglySorted key_lt l2 -> l1 ≡ₚ l2 -> l1 = l2.
Proof.
  revert l2. induction l1 as [|x l1 IH]; intros l2 H1 H2 Hp.
  - symmetry. apply Permutation_nil. exact Hp.
  - destruct l2 as [|y l2]; [symmetry in Hp; apply Permutation_nil in Hp; discriminate|].
    inversion H1 as [|? ? H1' Hx]; subst. inversion H2 as [|? ? H2' Hy]; subst.
    assert (Hxin : x ∈ y :: l2) by (rewrite <- Hp; left).
    apply elem_of_cons in Hxin as [->|Hxin].
    + f_equal. apply IH; [exact H1'|exact H2'|]. exact (Permutation_cons_inv Hp).
    + exfalso. assert (Hyx : key_lt y x) by (rewrite Forall_forall in Hy; apply Hy, Hxin).
      assert (Hyin : y ∈ x :: l1) by (rewrite Hp; left).
      apply elem_of_cons in Hyin as [->|Hyin]; [exact (key_lt_irrefl _ Hyx)|].
      rewrite Forall_forall in Hx. apply (key_lt_asym _ _ Hyx), Hx, Hyin.
Qed.

Lemma sorted_filter (f : Pending -> bool) l :
  StronglySorted key_lt l -> StronglySorted key_lt (List.filter f l).
Proof.
  induction l as [|x l IH]; intros Hs; simpl; [constructor|].
  inversion Hs as [|? ? Hs' Hx]; subst.
  destruct (f x); [constructor; [exact (IH Hs')|]|exact (IH Hs')].
  rewrite Forall_forall in *. intros y Hy. apply Hx.
  apply list_elem_of_In in Hy. apply filter_In in Hy as [Hy _]. apply list_elem_of_In, Hy.
Qed.

Lemma filter_perm (f : Pending -> bool) l1 l2 : l1 ≡ₚ l2 -> List.filter f l1 ≡ₚ List.filter f l2.
Proof.
  induction 1; simpl; try reflexivity.
  - destruct (f x); [constructor|]; assumption.
  - destruct (f x), (f y); try constructor; reflexivity.
  - etrans; eassumption.
Qed.

#[export] Instance filter_Permutation_proper (f : Pending -> bool) :
  Proper ((≡ₚ) ==> (≡ₚ)) (List.filter f).
Proof. intros l1 l2. apply filter_perm. Qed.

Lemma NoDup_map_filter (f : Pending -> bool) l :
  NoDup (map p_uid l) -> NoDup (map p_uid (List.filter f l)).
Proof.
  induction l as [|x l IH]; simpl; intros Hn; [constructor|].
  apply NoDup_cons in Hn as [Hx Hn]. destruct (f x); [|exact (IH Hn)].
  simpl. apply NoDup_cons. split; [|exact (IH Hn)].
  intros Hin. apply Hx. apply list_elem_of_In in Hin. apply in_map_iff in Hin as (y & E & Hy).
  apply filter_In in Hy as [Hy _]. apply list_elem_of_In, in_map_iff. eauto.
Qed.

(** Filtering the sorted queue is sorting the filtered events. *)
Lemma filter_sort_pendings (f : Pending -> bool) l :
  NoDup (map p_uid l) -> List.filter f (sort_pendings l) = sort_pendings (List.filter f l).
Proof.
  intros Hn. apply sorted_perm_eq.
  - apply sorted_filter, sort_pendings_sorted, Hn.
  - apply sort_pendings_sorted, NoDup_map_filter, Hn.
  - rewrite !sort_pendings_perm. reflexivity.
Qed.

Lemma filter_filter_andb (f g : Pending -> bool) l :
  List.filter f (List.filter g l) = List.filter (fun p => g p && f p) l.
Proof. induction l as [|x l IH]; simpl; [reflexivity|]. destruct (g x), (f x) eqn:E; simpl; rewrite ?E; congruence. Qed.

Lemma number_uids u l : map p_uid (number u l) = seq u (length l).
Proof.
  revert u. induction l as [|[t a] l IH]; intros u; simpl; [reflexivity|]. f_equal. apply IH.
Qed.

Lemma initial_pendings_NoDup w : NoDup (map p_uid (initial_pendings w)).
Proof. unfold initial_pendings. rewrite number_uids. apply NoDup_seq. Qed.

Lemma build_queue_sorted w : StronglySorted key_lt (build_queue w).
Proof. apply sort_pendings_sorted, initial_pendings_NoDup. Qed.

(** ** Lemmas: the loop *)

Lemma exec_stopped p s : rs_stopped (exec p s) = rs_stopped s || is_stop p.
Proof.
  destruct s as [n w so tr re st]. unfold exec, is_stop.
  destruct (p_act p) as [[]| | |]; simpl; rewrite ?orb_false_r, ?orb_true_r; reflexivity.
Qed.

Lemma run_queue_stopped q s : rs_stopped s = true -> run_queue q s = s.
Proof. destruct q; simpl; [reflexivity|]. intros ->. reflexivity. Qed.

Lemma run_queue_executed q s :
  rs_stopped s = false -> run_queue q s = fold_left (fun s p => exec p s) (executed q) s.
Proof.
  revert s. induction q as [|p q IH]; intros s Hs; simpl; [reflexivity|].
  rewrite Hs. pose proof (exec_stopped p s) as E. rewrite Hs in E. simpl in E.
  destruct (is_stop p); simpl.
  - apply run_queue_stopped, E.
  - apply IH, E.
Qed.

Lemma filter_none (f : Pending -> bool) l : Forall (fun p => f p = false) l -> List.filter f l = [].
Proof. induction 1 as [|x l Hx _ IH]; simpl; [reflexivity|]. rewrite Hx. exact IH. Qed.

(** On a sorted queue whose only stop is [S], the events that run out of
    those [P] selects are the ones before or at [S], when [P] is closed
    under going earlier. *)
Lemma executed_filter (P : Pending -> bool) q S :
  StronglySorted key_lt q -> S ∈ q -> is_stop S = true ->
  (forall p, p ∈ q -> is_stop p = true -> p = S) ->
  (forall x y, key_lt x y -> P y = true -> P x = true) ->
  executed (List.filter P q) = List.filter (fun p => P p && negb (key_ltb S p)) q.
Proof.
  intros Hs HS HSs Hu HP. induction q as [|x q IH]; [inversion HS|].
  inversion Hs as [|? ? Hs' Hx]; subst. rewrite Forall_forall in Hx.
  assert (Hafter : S = x -> List.filter (fun p => P p && negb (key_ltb S p)) q = []).
  { intros ->. apply filter_none, Forall_forall. intros y Hy.
    assert (key_ltb x y = true) as -> by (apply key_ltb_iff, Hx, Hy). apply andb_false_r. }
  assert (HIH : S ∈ q -> executed (List.filter P q) = List.filter (fun p => P p && negb (key_ltb S p)) q).
  { intros HSq. apply IH; [exact Hs'|exact HSq|]. intros p Hp. apply Hu. right. exact Hp. }
  assert (Hnx : S <> x -> S ∈ q) by (intros Hne; apply elem_of_cons in HS as [?|?]; [congruence|assumption]).
  simpl. destruct (P x) eqn:Px; simpl.
  - destruct (is_stop x) eqn:Sx.
    + assert (S = x) as Ex by (symmetry; apply Hu; [left|exact Sx]).
      rewrite Ex, key_ltb_irrefl. simpl. f_equal. rewrite <- Ex. symmetry. apply Hafter, Ex.
    + assert (S <> x) as Ne by congruence.
      rewrite (key_ltb_lt_false _ _ (Hx S (Hnx Ne))). simpl. f_equal. apply HIH, Hnx, Ne.
  - apply elem_of_cons in HS as [Ex|HSq]; [|apply HIH, HSq].
    rewrite (Hafter Ex). assert (List.filter P q = []) as ->; [|reflexivity].
    apply filter_none, Forall_forall. intros y Hy.
    apply not_true_iff_false. intros Py. subst. rewrite (HP x y (Hx y Hy) Py) in Px. discriminate.
Qed.

Lemma executed_sorted q : StronglySorted key_lt q -> StronglySorted key_lt (executed q).
Proof.
  induction 1 as [|p q Hq IH Hp]; simpl; [constructor|].
  destruct (is_stop p); constructor; try constructor; [exact IH|].
  rewrite Forall_forall in *. intros x Hx. apply Hp.
  clear -Hx. induction q as [|y q IHq]; simpl in Hx; [apply elem_of_nil in Hx; contradiction|].
  apply elem_of_cons in Hx as [->|Hx]; [left|]. right.
  destruct (is_stop y); [apply elem_of_nil in Hx; contradiction|exact (IHq Hx)].
Qed.

Lemma StronglySorted_impl (R S : Pending -> Pending -> Prop) l :
  (forall a b, R a b -> S a b) -> StronglySorted R l -> StronglySorted S l.
Proof.
  intros HRS. induction 1 as [|x l _ IH Hx]; constructor; [exact IH|].
  eapply Forall_impl; [exact Hx|]. exact (HRS x).
Qed.

(** ** Lemmas: the registers *)

Lemma last_of_app {A} (f : Pending -> option A) l1 l2 d :
  last_of f (l1 ++ l2) d = last_of f l2 (last_of f l1 d).
Proof. unfold last_of. apply fold_left_app. Qed.

(** Only the events that write the register matter. *)
Lemma last_of_filter {A} (f : Pending -> option A) l d :
  last_of f (List.filter (fun p => bool_decide (is_Some (f p))) l) d = last_of f l d.
Proof.
  revert d. induction l as [|x l IH]; intros d; simpl; [reflexivity|].
  destruct (f x) eqn:E; simpl; rewrite <- IH; unfold last_of; simpl; rewrite ?E; reflexivity.
Qed.

Lemma onoff_rate_set_rate w v v' r r' :
  onoff_rate w v = Some r ->
  onoff_rate (upd_apps w (alter (set_rate r') v' (w_apps w))) v =
  Some (if Nat.eqb v v' then r' else r).
Proof.
  unfold onoff_rate, upd_apps. cbn [w_apps]. destruct (Nat.eqb_spec v v') as [<-|Ne].
  - rewrite list_lookup_alter. destruct (w_apps w !! v) as [[n pr [] st sp]|]; cbn;
      intros H; try discriminate; case_decide; congruence.
  - rewrite list_lookup_alter_ne by congruence. auto.
Qed.

Lemma exec_rate p s v r :
  onoff_rate (rs_world s) v = Some r ->
  onoff_rate (rs_world (exec p s)) v = Some (default r (rate_write v p)).
Proof.
  destruct s as [n w so tr re st]. unfold exec, rate_write. simpl. intros H.
  destruct (p_act p) as [[|[v'|] r'|]| | |]; simpl; try exact H.
  unfold sim_world, SetOnOffRate, smodify. rewrite (onoff_rate_set_rate _ _ _ _ _ H).
  destruct (Nat.eqb v v'); reflexivity.
Qed.

Lemma fold_exec_rate l s v r :
  onoff_rate (rs_world s) v = Some r ->
  onoff_rate (rs_world (fold_left (fun s p => exec p s) l s)) v = Some (last_of (rate_write v) l r).
Proof.
  revert s r. induction l as [|p l IH]; intros s r H; simpl; [exact H|].
  apply IH, exec_rate, H.
Qed.

Lemma build_queue_elem w p : p ∈ build_queue w <-> p ∈ initial_pendings w.
Proof. unfold build_queue. rewrite sort_pendings_perm. reflexivity. Qed.

Lemma time_filter_closed t x y :
  key_lt x y -> Qleb (p_time y) t = true -> Qleb (p_time x) t = true.
Proof.
  intros H. rewrite !Qleb_iff. intros Hy. exact (Qle_trans _ _ _ (key_lt_time _ _ H) Hy).
Qed.

(** The events that run up to [t], as a filter of the sorted queue. *)
Lemma state_at_fold w t S :
  S ∈ initial_pendings w -> is_stop S = true ->
  (forall p, p ∈ initial_pendings w -> is_stop p = true -> p = S) ->
  state_at w t = fold_left (fun s p => exec p s)
    (List.filter (fun p => Qleb (p_time p) t && negb (key_ltb S p)) (build_queue w)) (init_run w).
Proof.
  intros HS HSs Hu. unfold state_at. rewrite run_queue_executed by reflexivity.
  rewrite (executed_filter _ _ S (build_queue_sorted w)).
  - reflexivity.
  - apply build_queue_elem, HS.
  - exact HSs.
  - intros p Hp. apply Hu, build_queue_elem, Hp.
  - intros x y. apply time_filter_closed.
Qed.

(** The rate of an on/off application [v] when the clock reads [t] is
    the last rate written to it, in the order of the queue, by the
    events stamped no later than [t] that come before the stop; or the
    rate it was installed with. *)
Theorem state_at_rate w t v r0 S :
  onoff_rate w v = Some r0 ->
  S ∈ initial_pendings w -> is_stop S = true ->
  (forall p, p ∈ initial_pendings w -> is_stop p = true -> p = S) ->
  onoff_rate (rs_world (state_at w t)) v =
  Some (last_of (rate_write v)
          (sort_pendings (List.filter (fun p => bool_decide (is_Some (rate_write v p)) &&
                                              (Qleb (p_time p) t && negb (key_ltb S p)))
                                      (initial_pendings w))) r0).
Proof.
  intros Hr HS HSs Hu. rewrite (state_at_fold w t S HS HSs Hu), (fold_exec_rate _ (init_run w) _ _ Hr).
  f_equal. rewrite <- last_of_filter, filter_filter_andb.
  unfold build_queue. rewrite filter_sort_pendings by apply initial_pendings_NoDup.
  f_equal. f_equal. apply filter_ext. intros p. apply andb_comm.
Qed.

(** ** Lemmas: sockets and the tracer *)

Lemma elem_of_filter_bool {A} (f : A -> bool) (x : A) l :
  x ∈ List.filter f l <-> x ∈ l /\ f x = true.
Proof. rewrite !list_elem_of_In. apply filter_In. Qed.

Lemma exec_sockets p s id :
  bool_decide (id ∈ rs_sockets (exec p s)) = default (bool_decide (id ∈ rs_sockets s)) (socket_write id p).
Proof.
  destruct s as [n w so tr re st]. unfold exec, socket_write. simpl.
  destruct (p_act p) as [[]|j|j|]; simpl; try reflexivity;
    destruct (Nat.eqb_spec id j) as [->|Ne]; simpl.
  - apply bool_decide_eq_true_2. rewrite elem_of_app, list_elem_of_singleton. tauto.
  - apply bool_decide_ext. rewrite elem_of_app, list_elem_of_singleton. intuition congruence.
  - apply bool_decide_eq_false_2. rewrite elem_of_filter_bool, Nat.eqb_refl. intros [_ H]. discriminate.
  - apply bool_decide_ext. rewrite elem_of_filter_bool. apply Nat.eqb_neq in Ne. rewrite Ne. tauto.
Qed.

Lemma fold_exec_sockets l s id :
  bool_decide (id ∈ rs_sockets (fold_left (fun s p => exec p s) l s)) =
  last_of (socket_write id) l (bool_decide (id ∈ rs_sockets s)).
Proof.
  revert s. induction l as [|p l IH]; intros s; simpl; [reflexivity|].
  rewrite IH, exec_sockets. reflexivity.
Qed.

Lemma fold_exec_sockets_init w l id :
  bool_decide (id ∈ rs_sockets (fold_left (fun s p => exec p s) l (init_run w))) =
  last_of (socket_write id) l false.
Proof. rewrite fold_exec_sockets. reflexivity. Qed.

Lemma is_tcp_on_set_rate w v r n id :
  is_tcp_on (upd_apps w (alter (set_rate r) v (w_apps w))) n id = is_tcp_on w n id.
Proof.
  unfold is_tcp_on, upd_apps. cbn [w_apps]. destruct (decide (v = id)) as [->|Ne].
  - rewrite list_lookup_alter. case_decide; [|congruence].
    destruct (w_apps w !! id) as [[? ? [] ? ?]|]; reflexivity.
  - rewrite list_lookup_alter_ne by exact Ne. reflexivity.
Qed.

Lemma exec_world_tcp p s n id : is_tcp_on (rs_world (exec p s)) n id = is_tcp_on (rs_world s) n id.
Proof.
  destruct s as [t w so tr re st]. unfold exec. simpl.
  destruct (p_act p) as [[|[v|] r|]| | |]; simpl; try reflexivity. apply is_tcp_on_set_rate.
Qed.

Lemma fold_exec_world_tcp l s n id :
  is_tcp_on (rs_world (fold_left (fun s p => exec p s) l s)) n id = is_tcp_on (rs_world s) n id.
Proof.
  revert s. induction l as [|p l IH]; intros s; simpl; [reflexivity|]. rewrite IH. apply exec_world_tcp.
Qed.

Lemma exec_traced p s f id :
  (f, id) ∈ rs_traced (exec p s) <->
  (f, id) ∈ rs_traced s \/
  exists n, p_act p = Fire (EvInstallCwndTracer n f) /\ is_tcp_on (rs_world s) n id = true /\ id ∈ rs_sockets s.
Proof.
  destruct s as [t w so tr re st]. unfold exec. simpl.
  destruct (p_act p) as [[n f'| |]| | |]; simpl;
    try (split; [tauto|intros [H|(? & H & _)]; [exact H|discriminate]]).
  rewrite elem_of_app, (list_elem_of_In (map _ _)), in_map_iff. split.
  - intros [H|(id0 & E & H)]; [left; exact H|right].
    injection E as -> ->. apply filter_In in H as [H1 H2].
    exists n. split_and!; [reflexivity|exact H2|apply list_elem_of_In, H1].
  - intros [H|(n0 & E & H1 & H2)]; [left; exact H|right]. injection E as -> ->.
    exists id. split; [reflexivity|]. apply filter_In. split; [apply list_elem_of_In, H2|exact H1].
Qed.

Lemma fold_exec_traced l s f id :
  (f, id) ∈ rs_traced (fold_left (fun s p => exec p s) l s) <->
  (f, id) ∈ rs_traced s \/
  exists l1 P l2 n, l = l1 ++ P :: l2 /\ p_act P = Fire (EvInstallCwndTracer n f) /\
    is_tcp_on (rs_world s) n id = true /\ id ∈ rs_sockets (fold_left (fun s p => exec p s) l1 s).
Proof.
  revert s. induction l as [|p l IH]; intros s; simpl.
  - split; [tauto|]. intros [H|(l1 & P & l2 & n & E & _)]; [exact H|].
    destruct l1; discriminate.
  - rewrite IH, exec_traced. setoid_rewrite exec_world_tcp. split.
    + intros [[H|(n & E & H1 & H2)]|(l1 & P & l2 & n & -> & E & H1 & H2)]; [left; exact H| |].
      * right. exists [], p, l, n. auto.
      * right. exists (p :: l1), P, l2, n. auto.
    + intros [H|(l1 & P & l2 & n & E & HP & H1 & H2)]; [left; left; exact H|].
      destruct l1 as [|x l1]; simpl in E; injection E as <- E.
      * left. right. exists n. auto.
      * right. exists l1, P, l2, n. auto.
Qed.

(** In a sorted queue, the events before [P] are those with a smaller
    key. *)
Lemma sorted_prefix l1 P l2 :
  StronglySorted key_lt (l1 ++ P :: l2) -> l1 = List.filter (fun p => key_ltb p P) (l1 ++ P :: l2).
Proof.
  induction l1 as [|x l1 IH]; simpl; intros Hs.
  - inversion Hs as [|? ? _ HP]; subst. rewrite key_ltb_irrefl. symmetry. apply filter_none.
    eapply Forall_impl; [exact HP|]. intros y Hy. exact (key_ltb_lt_false _ _ Hy).
  - inversion Hs as [|? ? Hs' Hx]; subst.
    assert (key_ltb x P = true) as ->.
    { apply key_ltb_iff. rewrite Forall_forall in Hx. apply Hx. set_solver. }
    f_equal. exact (IH Hs').
Qed.

Lemma filter_true_id {A} (l : list A) : List.filter (fun _ => true) l = l.
Proof. induction l; simpl; congruence. Qed.

(** The events that run: those of the sorted queue up to the stop. *)
Lemma Run_fold w S :
  S ∈ initial_pendings w -> is_stop S = true ->
  (forall p, p ∈ initial_pendings w -> is_stop p = true -> p = S) ->
  Run w = fold_left (fun s p => exec p s) (List.filter (fun p => negb (key_ltb S p)) (build_queue w)) (init_run w).
Proof.
  intros HS HSs Hu. unfold Run. rewrite run_queue_executed by reflexivity.
  rewrite <- (filter_true_id (build_queue w)) at 1.
  rewrite (executed_filter _ _ S (build_queue_sorted w)); [reflexivity| | exact HSs | |reflexivity].
  - apply build_queue_elem, HS.
  - intros p Hp. apply Hu, build_queue_elem, Hp.
Qed.

(** The socket state just before an event [P] that runs. *)
Lemma prefix_sockets w S l1 P l2 id d :
  List.filter (fun p => negb (key_ltb S p)) (build_queue w) = l1 ++ P :: l2 ->
  last_of (socket_write id) l1 d =
  last_of (socket_write id)
    (sort_pendings (List.filter (fun p => bool_decide (is_Some (socket_write id p)) && key_ltb p P)
                                (initial_pendings w))) d.
Proof.
  intros HE.
  assert (Hs : StronglySorted key_lt (l1 ++ P :: l2))
    by (rewrite <- HE; apply sorted_filter, build_queue_sorted).
  assert (HPS : key_ltb S P = false).
  { assert (HP : P ∈ l1 ++ P :: l2) by set_solver. rewrite <- HE in HP.
    apply elem_of_filter_bool in HP as [_ HP]. destruct (key_ltb S P); [discriminate|reflexivity]. }
  rewrite (sorted_prefix _ _ _ Hs), <- HE, filter_filter_andb, <- last_of_filter, filter_filter_andb.
  unfold build_queue. rewrite filter_sort_pendings by apply initial_pendings_NoDup.
  f_equal. f_equal. apply filter_ext. intros p.
  destruct (key_ltb p P) eqn:E1; [|rewrite !andb_false_r; reflexivity].
  destruct (key_ltb S p) eqn:E2; simpl; [|rewrite andb_true_r; reflexivity].
  apply key_ltb_iff in E1, E2.
  assert (key_ltb S P = true) as E3 by (apply key_ltb_iff; exact (key_lt_trans _ _ _ E2 E1)). congruence.
Qed.

(** An application's socket is connected to the trace file [f] exactly
    when a tracer for [f] on its node runs before the stop, the
    application is a TCP application of that node, and the last
    start or stop of the application before the tracer is a start. *)
Theorem Run_traced w S f id :
  S ∈ initial_pendings w -> is_stop S = true ->
  (forall p, p ∈ initial_pendings w -> is_stop p = true -> p = S) ->
  (f, id) ∈ rs_traced (Run w) <->
  exists P n, P ∈ initial_pendings w /\ key_ltb S P = false /\
    p_act P = Fire (EvInstallCwndTracer n f) /\ is_tcp_on w n id = true /\
    last_of (socket_write id)
      (sort_pendings (List.filter (fun p => bool_decide (is_Some (socket_write id p)) && key_ltb p P)
                                  (initial_pendings w))) false = true.
Proof.
  intros HS HSs Hu. rewrite (Run_fold w S HS HSs Hu), fold_exec_traced. simpl.
  rewrite elem_of_nil. split.
  - intros [[]|(l1 & P & l2 & n & HE & HP & Ht & Hs)].
    assert (HPE : P ∈ l1 ++ P :: l2) by set_solver. rewrite <- HE in HPE.
    apply elem_of_filter_bool in HPE as [HPq HPS].
    exists P, n. split_and!; [apply build_queue_elem, HPq|destruct (key_ltb S P); [discriminate|reflexivity]|exact HP|exact Ht|].
    rewrite <- (prefix_sockets _ _ _ _ _ _ _ HE), <- (fold_exec_sockets_init w). apply bool_decide_eq_true_2, Hs.
  - intros (P & n & HPq & HPS & HP & Ht & Hs). right.
    assert (HPE : P ∈ List.filter (fun p => negb (key_ltb S p)) (build_queue w))
      by (apply elem_of_filter_bool; rewrite HPS; split; [apply build_queue_elem, HPq|reflexivity]).
    apply list_elem_of_split in HPE as (l1 & l2 & HE).
    exists l1, P, l2, n. split_and!; [exact HE|exact HP|exact Ht|].
    apply (bool_decide_eq_true_1 (id ∈ _)). rewrite fold_exec_sockets_init, (prefix_sockets _ _ _ _ _ _ _ HE). exact Hs.
Qed.

(** ** Lemmas: the events the driver scheduled *)

Lemma number_app u l1 l2 : number u (l1 ++ l2) = number u l1 ++ number (u + length l1) l2.
Proof.
  revert u. induction l1 as [|[t a] l1 IH]; intros u; simpl; [rewrite Nat.add_0_r; reflexivity|].
  rewrite IH, Nat.add_succ_r. reflexivity.
Qed.

(** The applications' events are starts and stops. *)
Definition is_app_action (a : Action) : bool :=
  match a with Fire _ => false | _ => true end.

Lemma app_actions_app w : Forall (fun ta => is_app_action ta.2 = true) (app_actions w).
Proof.
  unfold app_actions. apply Forall_forall. intros ta Hta.
  apply list_elem_of_In, in_flat_map in Hta as (n & _ & Hta). revert Hta. generalize 0%nat.
  induction (w_apps w) as [|a apps IH]; intros id Hta; simpl in Hta; [contradiction|].
  apply in_app_or in Hta as [Hta|Hta]; [|exact (IH _ Hta)].
  destruct (Nat.eqb (app_node a) n); [|contradiction]. unfold app_schedule in Hta.
  destruct Hta as [<-|Hta]; [reflexivity|].
  destruct (app_stop a) as [t|]; [destruct (Qeq_bool t 0)|]; simpl in Hta; intuition (subst; reflexivity).
Qed.

Lemma number_acts u l p : p ∈ number u l -> exists t, (t, p_act p) ∈ l.
Proof.
  revert u. induction l as [|[t a] l IH]; intros u Hp; simpl in Hp; [set_solver|].
  apply elem_of_cons in Hp as [->|Hp]; [exists t; left|].
  destruct (IH _ Hp) as [t' H]. exists t'. right. exact H.
Qed.

(** A filter that no start or stop passes only sees the driver's
    [Simulator::Schedule] and [Simulator::Stop] calls. *)
Lemma filter_initial_fire w (F : Pending -> bool) :
  (forall p, is_app_action (p_act p) = true -> F p = false) ->
  List.filter F (initial_pendings w) =
  List.filter F (number 0 ((fun te => (te.1, Fire te.2)) <$> w_events w)).
Proof.
  intros HF. unfold initial_pendings. rewrite number_app, List.filter_app.
  rewrite (filter_none _ (number _ (app_actions w))), app_nil_r; [reflexivity|].
  apply Forall_forall. intros p Hp. apply HF.
  destruct (number_acts _ _ _ Hp) as [t Ht].
  pose proof (app_actions_app w) as HA. rewrite Forall_forall in HA. exact (HA _ Ht).
Qed.

Lemma fire_initial w p ev :
  p ∈ initial_pendings w -> p_act p = Fire ev ->
  p ∈ number 0 ((fun te => (te.1, Fire te.2)) <$> w_events w).
Proof.
  intros Hp He.
  assert (Hf : p ∈ List.filter (fun q => negb (is_app_action (p_act q))) (initial_pendings w))
    by (apply elem_of_filter_bool; rewrite He; auto).
  rewrite filter_initial_fire in Hf; [apply elem_of_filter_bool in Hf; apply Hf|].
  intros q ->. reflexivity.
Qed.

Lemma stop_initial_fire w p :
  p ∈ initial_pendings w -> is_stop p = true ->
  p ∈ number 0 ((fun te => (te.1, Fire te.2)) <$> w_events w).
Proof.
  intros Hp Hs. unfold is_stop in Hs. destruct (p_act p) as [ev| | |] eqn:E; try discriminate.
  exact (fire_initial w p ev Hp E).
Qed.

Lemma number_lookup u l j :
  number u l !! j = (fun ta => mkPending ta.1 (u + j) ta.2) <$> l !! j.
Proof.
  revert u j. induction l as [|[t a] l IH]; intros u [|j]; simpl; try reflexivity.
  - rewrite Nat.add_0_r. reflexivity.
  - rewrite IH, Nat.add_succ_r. reflexivity.
Qed.

(** When the driver called [Simulator::Stop] once, as the [k]-th
    scheduling call, its event is the only stop of the queue. *)
Lemma single_stop w t k :
  w_events w !! k = Some (t, EvStop) ->
  (forall j t', w_events w !! j = Some (t', EvStop) -> j = k) ->
  mkPending t k (Fire EvStop) ∈ initial_pendings w /\
  (forall p, p ∈ initial_pendings w -> is_stop p = true -> p = mkPending t k (Fire EvStop)).
Proof.
  intros Hk Hu. split.
  - unfold initial_pendings. rewrite number_app, elem_of_app. left.
    apply list_elem_of_lookup. exists k. rewrite number_lookup, list_lookup_fmap, Hk. reflexivity.
  - intros p Hp Hs. apply stop_initial_fire in Hp; [|exact Hs].
    apply list_elem_of_lookup in Hp as [j Hj]. rewrite number_lookup, list_lookup_fmap in Hj.
    destruct (w_events w !! j) as [[t' ev]|] eqn:Ej; [|discriminate]. simpl in Hj. injection Hj as <-.
    unfold is_stop in Hs. simpl in Hs. destruct ev; try discriminate.
    pose proof (Hu j t' Ej) as ->. rewrite Hk in Ej. injection Ej as ->. reflexivity.
Qed.

(** Run a queue of events whose times are symbolic: evaluate, and split
    on each comparison of time stamps the evaluation gets stuck on. *)
Ltac queue_cases :=
  repeat progress (cbn -[Qle_bool Qeq_bool]; rewrite ?Seconds_0; unfold key_ltb, Qltb, Qleb; qcases);
  cbn [p_time p_uid p_act] in *.

(** ** The sorted queue against the reference loop *)

Lemma min_pending_elem p l : min_pending p l ∈ p :: l.
Proof.
  revert p. induction l as [|x l IH]; intros p; simpl; [left|].
  specialize (IH (if key_ltb x p then x else p)).
  destruct (key_ltb x p); apply elem_of_cons in IH as [->|IH]; set_solver.
Qed.

Lemma min_pending_least p l :
  NoDup (map p_uid (p :: l)) ->
  forall x, x ∈ p :: l -> x = min_pending p l \/ key_lt (min_pending p l) x.
Proof.
  revert p. induction l as [|y l IH]; intros p Hn x Hx; simpl.
  - apply elem_of_cons in Hx as [->|Hx]; [left; reflexivity|apply elem_of_nil in Hx; contradiction].
  - simpl in Hn. apply NoDup_cons in Hn as [Hp Hn]. apply NoDup_cons in Hn as [Hy Hn].
    assert (Hpy : p_uid y <> p_uid p) by (intros E; apply Hp; rewrite <- E; left).
    set (p' := if key_ltb y p then y else p).
    assert (Hn' : NoDup (map p_uid (p' :: l))).
    { subst p'. destruct (key_ltb y p); simpl; apply NoDup_cons; split; auto.
      intros Hin. apply Hp. right. exact Hin. }
    assert (Hp'x : forall z, z ∈ [p; y] -> z = p' \/ key_lt p' z).
    { intros z Hz. rewrite elem_of_cons, list_elem_of_singleton in Hz. subst p'.
      destruct (key_ltb y p) eqn:E.
      - apply key_ltb_iff in E. destruct Hz as [->| ->]; [right; exact E|left; reflexivity].
      - apply (key_ltb_false _ _ Hpy) in E. destruct Hz as [->| ->]; [left; reflexivity|right; exact E]. }
    destruct (IH p' Hn' p' ltac:(left)) as [Hm|Hm].
    + apply elem_of_cons in Hx as [->|Hx]; [|apply elem_of_cons in Hx as [->|Hx]].
      * destruct (Hp'x p ltac:(left)) as [E|E]; [left; congruence|right; rewrite <- Hm; exact E].
      * destruct (Hp'x y ltac:(right; left)) as [E|E]; [left; congruence|right; rewrite <- Hm; exact E].
      * apply IH; [exact Hn'|right; exact Hx].
    + apply elem_of_cons in Hx as [->|Hx]; [|apply elem_of_cons in Hx as [->|Hx]].
      * destruct (Hp'x p ltac:(left)) as [E|E]; right; [rewrite E; exact Hm|exact (key_lt_trans _ _ _ Hm E)].
      * destruct (Hp'x y ltac:(right; left)) as [E|E]; right; [rewrite E; exact Hm|exact (key_lt_trans _ _ _ Hm E)].
      * apply IH; [exact Hn'|right; exact Hx].
Qed.

Lemma filter_keep_all (f : Pending -> bool) l : Forall (fun x => f x = true) l -> List.filter f l = l.
Proof. induction 1 as [|x l Hx _ IH]; simpl; [reflexivity|]. rewrite Hx, IH. reflexivity. Qed.

Lemma uid_elem_map x l : x ∈ l -> p_uid x ∈ map p_uid l.
Proof. intros H. apply list_elem_of_In, in_map, list_elem_of_In, H. Qed.

Lemma remove_uid_perm l m :
  NoDup (map p_uid l) -> m ∈ l -> l ≡ₚ m :: remove_uid (p_uid m) l.
Proof.
  induction l as [|x l IH]; intros Hn Hm; [apply elem_of_nil in Hm; contradiction|].
  simpl in Hn. apply NoDup_cons in Hn as [Hx Hn]. unfold remove_uid; simpl.
  apply elem_of_cons in Hm as [->|Hm].
  - rewrite Nat.eqb_refl. simpl. rewrite filter_keep_all; [reflexivity|].
    apply Forall_forall. intros y Hy. apply negb_true_iff, Nat.eqb_neq. intros E.
    apply Hx. rewrite <- E. apply uid_elem_map, Hy.
  - assert (Ne : p_uid x <> p_uid m) by (intros E; apply Hx; rewrite E; apply uid_elem_map, Hm).
    apply Nat.eqb_neq in Ne. rewrite Ne. simpl.
    etrans; [apply perm_skip, (IH Hn Hm)|apply Permutation_swap].
Qed.

(** The sorted queue starts with the earliest event, followed by the
    sorted rest. *)
Lemma sort_pendings_min p l :
  NoDup (map p_uid (p :: l)) ->
  sort_pendings (p :: l) =
  min_pending p l :: sort_pendings (remove_uid (p_uid (min_pending p l)) (p :: l)).
Proof.
  intros Hn. set (m := min_pending p l). set (r := remove_uid (p_uid m) (p :: l)).
  assert (Hm : m ∈ p :: l) by apply min_pending_elem.
  assert (Hp : p :: l ≡ₚ m :: r) by (apply remove_uid_perm; assumption).
  apply sorted_perm_eq.
  - apply sort_pendings_sorted, Hn.
  - constructor; [apply sort_pendings_sorted, NoDup_map_filter, Hn|].
    apply Forall_forall. intros x Hx. rewrite sort_pendings_perm in Hx.
    apply elem_of_filter_bool in Hx as [Hx Hu].
    destruct (min_pending_least p l Hn x Hx) as [E|H]; [|exact H].
    subst m. rewrite <- E, Nat.eqb_refl in Hu. discriminate.
  - rewrite sort_pendings_perm, Hp, sort_pendings_perm. reflexivity.
Qed.

Lemma run_ref_queue fuel l s :
  NoDup (map p_uid l) -> length l <= fuel ->
  run_ref fuel l s = run_queue (sort_pendings l) s.
Proof.
  revert l s. induction fuel as [|fuel IH]; intros l s Hn Hl.
  - destruct l; [reflexivity|simpl in Hl; lia].
  - destruct l as [|p l]; [reflexivity|].
    rewrite (sort_pendings_min p l Hn). cbn [run_ref run_queue]. destruct (rs_stopped s); [reflexivity|].
    apply IH; [apply NoDup_map_filter, Hn|].
    pose proof (Permutation_length (remove_uid_perm (p :: l) _ Hn (min_pending_elem p l))) as E.
    cbn [length] in E, Hl. lia.
Qed.

(** ** Properties of the loop *)

(** [Simulator::Run] over the queue kept sorted by insertion
    behaves exactly as the reference loop that takes the earliest
    pending event out of the unsorted set at each step, and that loop
    needs no more steps than there are events. *)
Theorem Run_reference w :
  Run w = run_ref (length (initial_pendings w)) (initial_pendings w) (init_run w).
Proof.
  unfold Run, build_queue. symmetry. apply run_ref_queue; [apply initial_pendings_NoDup|lia].
Qed.

(** The run executes its events in an order of non-decreasing time
    stamps: the events that run are the queue up to the stop, and each
    runs no earlier than the ones before it. *)
Theorem Run_time_order w :
  Run w = fold_left (fun s p => exec p s) (executed (build_queue w)) (init_run w) /\
  StronglySorted (fun a b => (p_time a <= p_time b)%Q) (executed (build_queue w)).
Proof.
  split; [apply run_queue_executed; reflexivity|].
  apply (StronglySorted_impl key_lt); [intros a b; apply key_lt_time|].
  apply executed_sorted, build_queue_sorted.
Qed.

(** ** No trace before the first tracer *)

Definition is_tracer (p : Pending) : bool :=
  match p_act p with Fire (EvInstallCwndTracer _ _) => true | _ => false end.

Lemma exec_traced_same p s : is_tracer p = false -> rs_traced (exec p s) = rs_traced s.
Proof.
  destruct s as [t w so tr re st]. unfold exec, is_tracer. destruct (p_act p) as [[]| | |]; simpl; congruence.
Qed.

Lemma run_queue_traced_same q s :
  Forall (fun p => is_tracer p = false) q -> rs_traced (run_queue q s) = rs_traced s.
Proof.
  revert s. induction q as [|p q IH]; intros s Hq; simpl; [reflexivity|].
  inversion Hq as [|? ? Hp Hq']; subst. destruct (rs_stopped s); [reflexivity|].
  rewrite IH by exact Hq'. apply exec_traced_same, Hp.
Qed.

Lemma fire_initial_event w p ev :
  p ∈ initial_pendings w -> p_act p = Fire ev -> (p_time p, ev) ∈ w_events w.
Proof.
  intros Hp He. apply (fire_initial w p ev Hp) in He as Hu.
  apply list_elem_of_lookup in Hu as [j Hj]. rewrite number_lookup, list_lookup_fmap in Hj.
  destruct (w_events w !! j) as [[t' ev']|] eqn:Ej; [|discriminate]. simpl in Hj.
  injection Hj as <-. simpl in He. injection He as ->. apply list_elem_of_lookup. exists j. exact Ej.
Qed.

(** ** The trace lines *)

Lemma length_number u l : length (number u l) = length l.
Proof. revert u. induction l as [|[t a] l IH]; intros u; simpl; [reflexivity|]. rewrite IH. reflexivity. Qed.

Lemma env_pendings_NoDup w env : NoDup (map p_uid (env_pendings w env)).
Proof.
  unfold env_pendings. rewrite map_app, number_uids.
  assert (E : map p_uid (initial_pendings w) = seq 0 (length (initial_pendings w))).
  { unfold initial_pendings. rewrite number_uids, length_number. reflexivity. }
  rewrite E. apply (NoDup_seq_app 0).
Qed.

Lemma SSorted_app {A} (R : A -> A -> Prop) l1 l2 :
  StronglySorted R l1 -> StronglySorted R l2 -> (forall a b, a ∈ l1 -> b ∈ l2 -> R a b) ->
  StronglySorted R (l1 ++ l2).
Proof.
  induction 1 as [|x l1 _ IH Hx]; intros H2 H12; simpl; [exact H2|].
  constructor; [apply IH; [exact H2|intros a b Ha Hb; apply H12; [right|]; assumption]|].
  apply Forall_app. split; [exact Hx|]. apply Forall_forall. intros b Hb. apply H12; [left|exact Hb].
Qed.

Lemma SSorted_const (l : list (string * (Time * Z * Z))) c :
  Forall (fun r => rec_time r = c) l -> StronglySorted (fun a b => (rec_time a <= rec_time b)%Q) l.
Proof.
  induction 1 as [|x l Hx Hl IH]; constructor; [exact IH|].
  eapply Forall_impl; [eassumption|]. simpl. intros y Hy. rewrite Hx, Hy. apply Qle_refl.
Qed.

(** What [exec] writes: the lines of a window change of a traced
    socket, all stamped with the event's time. *)
Lemma exec_records p s :
  exists new, rs_records (exec p s) = rs_records s ++ new /\
    Forall (fun r => rec_time r = p_time p) new /\
    (new <> [] -> rs_traced s <> []) /\
    (rs_traced (exec p s) <> [] -> rs_traced s <> [] \/ is_tracer p = true).
Proof.
  destruct s as [t w so tr re st]. unfold exec, is_tracer. simpl.
  destruct (p_act p) as [[n f| |]| | |id o n]; simpl;
    try (exists []; rewrite app_nil_r; split_and!; [reflexivity|constructor|congruence|tauto]).
  exists (map (fun fj => CwndTracer fj.1 (p_time p) o n) (List.filter (fun fj => Nat.eqb fj.2 id) tr)).
  split_and!; [reflexivity| | |tauto].
  - apply Forall_forall. intros r Hr. apply list_elem_of_In, in_map_iff in Hr as (fj & <- & _). reflexivity.
  - intros Hne Htr. subst tr. apply Hne. reflexivity.
Qed.

Section Records.
Context (T0 : Time).

(** Lines are written in time order and only once a tracer, stamped no
    earlier than [T0], has run. *)
Lemma fold_records q s :
  StronglySorted key_lt q ->
  (forall p, p ∈ q -> is_tracer p = true -> (T0 <= p_time p)%Q) ->
  StronglySorted (fun a b => (rec_time a <= rec_time b)%Q) (rs_records s) ->
  (forall r p, r ∈ rs_records s -> p ∈ q -> (rec_time r <= p_time p)%Q) ->
  (rs_traced s <> [] -> forall p, p ∈ q -> (T0 <= p_time p)%Q) ->
  Forall (fun r => (T0 <= rec_time r)%Q) (rs_records s) ->
  StronglySorted (fun a b => (rec_time a <= rec_time b)%Q) (rs_records (fold_left (fun s p => exec p s) q s)) /\
  Forall (fun r => (T0 <= rec_time r)%Q) (rs_records (fold_left (fun s p => exec p s) q s)).
Proof.
  revert s. induction q as [|x q IH]; intros s Hq Htr H1 H2 H3 H4; simpl; [split; assumption|].
  inversion Hq as [|? ? Hq' Hx]; subst. rewrite Forall_forall in Hx.
  destruct (exec_records x s) as (new & Er & Hnew & Hne & Htr').
  assert (Hle : forall p, p ∈ q -> (p_time x <= p_time p)%Q) by (intros p Hp; apply key_lt_time, Hx, Hp).
  apply IH; [exact Hq'|intros p Hp; apply Htr; right; exact Hp| | | |]; rewrite ?Er.
  - apply SSorted_app; [exact H1|apply (SSorted_const _ _ Hnew)|].
    intros a b Ha Hb. rewrite Forall_forall in Hnew. rewrite (Hnew b Hb). apply H2; [exact Ha|left].
  - intros r p Hr Hp. apply elem_of_app in Hr as [Hr|Hr].
    + apply H2; [exact Hr|right; exact Hp].
    + rewrite Forall_forall in Hnew. rewrite (Hnew r Hr). apply Hle, Hp.
  - intros Hs p Hp. destruct (Htr' Hs) as [Ht|Ht].
    + apply H3; [exact Ht|right; exact Hp].
    + exact (Qle_trans _ _ _ (Htr x ltac:(left) Ht) (Hle p Hp)).
  - apply Forall_app. split; [exact H4|]. rewrite Forall_forall in *. intros r Hr.
    rewrite (Hnew r Hr). apply H3; [|left]. apply Hne. intros ->. apply elem_of_nil in Hr. exact Hr.
Qed.

Lemma executed_elem q p : p ∈ executed q -> p ∈ q.
Proof.
  induction q as [|x q IH]; simpl; [tauto|]. intros Hp. apply elem_of_cons in Hp as [->|Hp]; [left|].
  right. destruct (is_stop x); [apply elem_of_nil in Hp; contradiction|exact (IH Hp)].
Qed.

(** The trace lines of a run, whatever the window changes: in time
    order, and none stamped before [T0] when every tracer the driver
    scheduled fires at [T0] or later. *)
Theorem Run_env_records w env :
  (forall t n f, (t, EvInstallCwndTracer n f) ∈ w_events w -> (T0 <= t)%Q) ->
  StronglySorted (fun a b => (rec_time a <= rec_time b)%Q) (rs_records (Run_env w env)) /\
  Forall (fun r => (T0 <= rec_time r)%Q) (rs_records (Run_env w env)).
Proof.
  intros Hw. unfold Run_env. rewrite run_queue_executed by reflexivity.
  apply fold_records; simpl; try (constructor || (intros; set_solver) || (intros ? ? Hr; apply elem_of_nil in Hr; contradiction)).
  - apply executed_sorted, sort_pendings_sorted, env_pendings_NoDup.
  - intros p Hp Ht. apply executed_elem in Hp. rewrite sort_pendings_perm in Hp.
    unfold is_tracer in Ht. destruct (p_act p) as [[n f| |]| | |] eqn:E; try discriminate.
    unfold env_pendings in Hp. apply elem_of_app in Hp as [Hp|Hp].
    + exact (Hw _ _ _ (fire_initial_event w p _ Hp E)).
    + destruct (number_acts _ _ _ Hp) as [t Ht']. apply list_elem_of_In, in_map_iff in Ht' as (c & Ec & _).
      rewrite E in Ec. discriminate.
Qed.
End Records.

(** ** The loop reaches the stop *)

Lemma exec_stop p s : is_stop p = true -> rs_stopped (exec p s) = true /\ rs_now (exec p s) = p_time p.
Proof.
  unfold is_stop, exec. destruct s as [t w so tr re st].
  destruct (p_act p) as [[| |]| | |]; simpl; try discriminate. auto.
Qed.

(** With a single stop [S] in a sorted queue, the events that run are
    all those before [S], then [S]. *)
Lemma executed_upto q S :
  StronglySorted key_lt q -> S ∈ q -> is_stop S = true -> (forall p, p ∈ q -> is_stop p = true -> p = S) ->
  exists pre, executed q = pre ++ [S] /\ forall p, p ∈ q -> key_lt p S -> p ∈ pre.
Proof.
  intros Hs HS HSs Hu. induction q as [|x q IH]; [apply elem_of_nil in HS; contradiction|].
  inversion Hs as [|? ? Hs' Hx]; subst. rewrite Forall_forall in Hx. simpl.
  destruct (is_stop x) eqn:Ex.
  - assert (x = S) as -> by (apply Hu; [left|exact Ex]).
    exists []. split; [reflexivity|]. intros p Hp Hlt. apply elem_of_cons in Hp as [->|Hp].
    + destruct (key_lt_irrefl _ Hlt).
    + destruct (key_lt_asym _ _ (Hx p Hp) Hlt).
  - apply elem_of_cons in HS as [<-|HS]; [congruence|].
    destruct IH as (pre & E & Hpre); [exact Hs'|exact HS|intros p Hp; apply Hu; right; exact Hp|].
    exists (x :: pre). rewrite E. split; [reflexivity|].
    intros p Hp Hlt. apply elem_of_cons in Hp as [->|Hp]; [left|right; exact (Hpre p Hp Hlt)].
Qed.

(** A world whose only stop is [S]: the run ends stopped with the clock
    at [S]'s time, after running every event stamped before it. *)
Lemma Run_stops w S :
  S ∈ initial_pendings w -> is_stop S = true ->
  (forall p, p ∈ initial_pendings w -> is_stop p = true -> p = S) ->
  rs_stopped (Run w) = true /\ rs_now (Run w) = p_time S /\
  forall p, p ∈ initial_pendings w -> (p_time p < p_time S)%Q -> p ∈ executed (build_queue w).
Proof.
  intros HS HSs Hu. unfold build_queue.
  destruct (executed_upto (sort_pendings (initial_pendings w)) S) as (pre & E & Hpre);
    [apply build_queue_sorted|rewrite sort_pendings_perm; exact HS|exact HSs
    |intros p Hp; rewrite sort_pendings_perm in Hp; exact (Hu p Hp)|].
  unfold Run, build_queue. rewrite run_queue_executed, E, fold_left_app by reflexivity. simpl.
  rewrite (proj1 (exec_stop _ _ HSs)), (proj2 (exec_stop _ _ HSs)). split_and!; [reflexivity|reflexivity|].
  intros p Hp Hlt. apply elem_of_app. left. apply Hpre; [rewrite sort_pendings_perm; exact Hp|left; exact Hlt].
Qed.

(** A world whose events end with the only stop, at [t]: the loop ends
    stopped at [t] after every event stamped earlier. *)
Lemma last_stop w E t :
  w_events w = E ++ [(t, EvStop)] -> Forall (fun te => te.2 <> EvStop) E ->
  mkPending t (length E) (Fire EvStop) ∈ initial_pendings w /\
  (forall p, p ∈ initial_pendings w -> is_stop p = true -> p = mkPending t (length E) (Fire EvStop)).
Proof.
  intros V HE. apply single_stop.
  - rewrite V, lookup_app_r, Nat.sub_diag by lia. reflexivity.
  - intros j t' Hj. rewrite V in Hj. destruct (decide (j < length E)%nat) as [Hlt|Hge].
    + rewrite lookup_app_l in Hj by exact Hlt. rewrite Forall_lookup in HE.
      destruct (HE j _ Hj eq_refl).
    + rewrite lookup_app_r in Hj by lia. apply list_lookup_singleton_Some in Hj. lia.
Qed.

Lemma Run_stops_last w E t :
  w_events w = E ++ [(t, EvStop)] -> Forall (fun te => te.2 <> EvStop) E ->
  rs_stopped (Run w) = true /\ rs_now (Run w) = t /\
  forall p, p ∈ initial_pendings w -> (p_time p < t)%Q -> p ∈ executed (build_queue w).
Proof.
  intros V HE. destruct (last_stop w E t V HE) as [HS Hu]. exact (Run_stops w _ HS eq_refl Hu).
Qed.

(** ** A world with one tracer and the stop *)

(** A property of application ids that only [id0] has, checked over
    all ids. *)
Lemma forallb_only (P : nat -> bool) len id0 j :
  forallb (fun j => negb (P j) || Nat.eqb j id0) (seq 0 len) = true ->
  P j = true -> (j < len)%nat -> j = id0.
Proof.
  intros Hall HP Hlt. rewrite forallb_forall in Hall.
  specialize (Hall j (proj2 (in_seq len 0 j) ltac:(lia))). rewrite HP in Hall. apply Nat.eqb_eq, Hall.
Qed.

Lemma is_tcp_on_lt w n j : is_tcp_on w n j = true -> (j < length (w_apps w))%nat.
Proof.
  unfold is_tcp_on. destruct (w_apps w !! j) eqn:E; [|discriminate]. intros _. exact (lookup_lt_Some _ _ _ E).
Qed.

Section OneTracer.
Context (w : World) (t0 T : Time) (n : nat) (f : string).
Hypothesis Hev : w_events w = [(t0, EvInstallCwndTracer n f); (T, EvStop)].
Hypothesis HT : (t0 <= T)%Q.

Definition tracer_pending : Pending := mkPending t0 0 (Fire (EvInstallCwndTracer n f)).

(** Whether application [j]'s socket is open when the tracer fires. *)
Definition open_at_tracer (j : nat) : bool :=
  last_of (socket_write j)
    (sort_pendings (List.filter (fun p => bool_decide (is_Some (socket_write j p)) && key_ltb p tracer_pending)
                                (initial_pendings w))) false.

(** The tracer is connected to exactly the TCP sockets of its node whose
    application has started, and not stopped, before it fires. *)
Lemma one_tracer_traced f' id :
  (f', id) ∈ rs_traced (Run w) <->
  f' = f /\ is_tcp_on w n id = true /\ open_at_tracer id = true.
Proof.
  destruct (single_stop w T 1) as [HS Hu]; [rewrite Hev; reflexivity|
    intros j t' H; rewrite Hev in H; destruct j as [|[|j]]; simpl in H; try discriminate; reflexivity|].
  rewrite (Run_traced w _ f' id HS eq_refl Hu). split.
  - intros (P & n' & HP & _ & HPa & Htcp & Hs).
    pose proof (fire_initial w P _ HP HPa) as HPu. rewrite Hev in HPu. simpl in HPu.
    repeat (apply elem_of_cons in HPu as [->|HPu]; [simpl in HPa; try discriminate|]);
      [|apply elem_of_nil in HPu; contradiction].
    injection HPa as <- <-. auto.
  - intros (-> & Htcp & Hs). exists tracer_pending, n. split_and!; [| |reflexivity|exact Htcp|exact Hs].
    + unfold initial_pendings. rewrite Hev. left.
    + unfold key_ltb, Qltb. simpl. destruct (Qle_bool t0 T) eqn:E; [rewrite andb_false_r; reflexivity|].
      apply Qleb_false in E. lra.
Qed.
End OneTracer.

(** ** The loop as a transition relation

    [DefaultSimulatorImpl::Run] is [while (!IsEmpty () && !m_stop)
    ProcessOneEvent ()]: one transition takes the first event of the
    queue and executes it.  [run_queue] is its only terminal result. *)

Definition LoopConf : Type := list Pending * RunState.

Inductive loop_step : LoopConf -> LoopConf -> Prop :=
| loop_process p q s : rs_stopped s = false -> loop_step (p :: q, s) (q, exec p s).

Lemma loop_step_det c c1 c2 : loop_step c c1 -> loop_step c c2 -> c1 = c2.
Proof. intros H1 H2. inversion H1; subst. inversion H2; subst. reflexivity. Qed.

(** The loop stops exactly on an empty queue or after the stop event. *)
Lemma loop_nf c : nf loop_step c <-> c.1 = [] \/ rs_stopped c.2 = true.
Proof.
  destruct c as [[|p q] s]; simpl; split.
  - intros _. left. reflexivity.
  - intros _ [c' Hs]. inversion Hs.
  - intros H. destruct (rs_stopped s) eqn:E; [right; reflexivity|].
    exfalso. apply H. eexists. constructor. exact E.
  - intros [H|H] [c' Hs]; [discriminate|]. inversion Hs; subst. congruence.
Qed.

(** Every transition keeps the result [run_queue] computes. *)
Lemma loop_rtc_run c c' : rtc loop_step c c' -> run_queue c'.1 c'.2 = run_queue c.1 c.2.
Proof.
  induction 1 as [|c1 c2 c3 Hs _ IH]; [reflexivity|]. rewrite IH.
  inversion Hs as [p q s Hst]; subst. simpl. rewrite Hst. reflexivity.
Qed.

(** Every sequence of transitions is finite: each removes an event. *)
Lemma loop_wf : well_founded (flip loop_step).
Proof.
  apply (well_founded_lt_compat _ (fun c => length c.1)).
  intros c1 c2 Hs. inversion Hs; subst. simpl. lia.
Qed.

(** From any queue the loop reaches [run_queue]'s result and stops there. *)
Lemma loop_reaches q s :
  exists q', rtc loop_step (q, s) (q', run_queue q s) /\ nf loop_step (q', run_queue q s).
Proof.
  revert s. induction q as [|p q IH]; intros s; simpl.
  - exists []. split; [reflexivity|]. apply loop_nf. left. reflexivity.
  - destruct (rs_stopped s) eqn:E.
    + exists (p :: q). split; [reflexivity|]. apply loop_nf. right. exact E.
    + destruct (IH (exec p s)) as (q' & Hr & Hn). exists q'. split; [|exact Hn].
      eapply rtc_l; [constructor; exact E|exact Hr].
Qed.

(** The run of a world is the one state the loop can stop in. *)
Theorem Run_loop w c :
  rtc loop_step (build_queue w, init_run w) c -> nf loop_step c -> c.2 = Run w.
Proof.
  intros Hr Hn. unfold Run. pose proof (loop_rtc_run _ _ Hr) as E. simpl in E. rewrite <- E.
  destruct c as [q s].
  apply loop_nf in Hn as [Hq|Hs]; simpl in *; [subst; reflexivity|destruct q; simpl; [reflexivity|rewrite Hs; reflexivity]].
Qed.

(** ** The socket type at run time

    A socket type that is not a congestion-control algorithm kills the
    run at its first TCP socket; with the driver's worlds that happens
    exactly when the stop is later than 0, the start of the first (TCP)
    application. *)

Lemma socket_type_ok_frame w w' : w_config w' = w_config w -> socket_type_ok w' = socket_type_ok w.
Proof. unfold socket_type_ok. intros ->. reflexivity. Qed.

Lemma run_crash_ok w : socket_type_ok w = true -> run_crash w = None.
Proof.
  unfold socket_type_ok, run_crash. destruct (w_config w !! _) as [[t| |]|]; try reflexivity.
  intros ->. reflexivity.
Qed.

Lemma run_crash_frame w w' :
  w_config w' = w_config w -> w_apps w' = w_apps w -> w_nodes w' = w_nodes w -> w_events w' = w_events w ->
  run_crash w' = run_crash w.
Proof.
  intros C A N E. unfold run_crash, tcp_start, build_queue, initial_pendings, app_actions.
  rewrite C, A, N, E. reflexivity.
Qed.

Lemma number_elem u l p : p ∈ number u l -> (p_time p, p_act p) ∈ l /\ (u <= p_uid p)%nat.
Proof.
  revert u. induction l as [|[t a] l IH]; intros u Hp; simpl in Hp; [apply elem_of_nil in Hp; contradiction|].
  apply elem_of_cons in Hp as [->|Hp]; [split; [left|simpl; lia]|].
  destruct (IH _ Hp) as [H1 H2]. split; [right; exact H1|lia].
Qed.

Lemma number_intro u l t a : (t, a) ∈ l -> exists p, p ∈ number u l /\ p_time p = t /\ p_act p = a.
Proof.
  revert u. induction l as [|[t' a'] l IH]; intros u Hta; [apply elem_of_nil in Hta; contradiction|].
  apply elem_of_cons in Hta as [[= <- <-]|Hta].
  - exists (mkPending t u a). split; [left|auto].
  - destruct (IH (S u) Hta) as (p & Hp & Ht & Ha). exists p. split; [right; exact Hp|auto].
Qed.

(** A start among a node's initialisation events is that of one of the
    applications, at its start time. *)
Lemma apps_on_start n k apps t id :
  (t, StartApp id) ∈ apps_on n k apps -> exists a, apps !! (id - k)%nat = Some a /\ (k <= id)%nat /\ t = app_start a.
Proof.
  revert k. induction apps as [|a apps IH]; intros k H; simpl in H; [apply elem_of_nil in H; contradiction|].
  apply elem_of_app in H as [H|H].
  - destruct (Nat.eqb (app_node a) n); [|apply elem_of_nil in H; contradiction].
    unfold app_schedule in H. apply elem_of_cons in H as [[= -> ->]|H].
    + exists a. rewrite Nat.sub_diag. auto.
    + exfalso. destruct (app_stop a) as [s|]; [destruct (Qeq_bool s 0)|]; simpl in H;
        [apply elem_of_nil in H|apply list_elem_of_singleton in H; discriminate H|apply elem_of_nil in H]; exact H.
  - destruct (IH (S k) H) as (b & Hb & Hk & ->). exists b.
    replace (id - k)%nat with (S (id - S k)) by lia. auto with lia.
Qed.

(** Every start comes after the driver's events, at the start time of
    its application. *)
Lemma start_pending w p id :
  p ∈ initial_pendings w -> p_act p = StartApp id ->
  (length (w_events w) <= p_uid p)%nat /\ exists a, w_apps w !! id = Some a /\ p_time p = app_start a.
Proof.
  intros Hp Ha. unfold initial_pendings in Hp. rewrite number_app, elem_of_app in Hp.
  destruct Hp as [Hp|Hp].
  - apply number_elem in Hp as [Hp _]. rewrite Ha in Hp. apply list_elem_of_fmap in Hp as ([t ev] & [=] & _).
  - apply number_elem in Hp as [Hp Hu]. rewrite length_fmap in Hu. split; [lia|].
    rewrite Ha in Hp. unfold app_actions in Hp. apply list_elem_of_In, in_flat_map in Hp as (n & _ & Hp).
    apply list_elem_of_In in Hp. destruct (apps_on_start n 0 (w_apps w) _ _ Hp) as (a & Ha' & _ & ->).
    rewrite Nat.sub_0_r in Ha'. eauto.
Qed.

Lemma first_start_pending w a rest :
  w_apps w = a :: rest -> (app_node a < w_nodes w)%nat ->
  exists p, p ∈ initial_pendings w /\ p_time p = app_start a /\ p_act p = StartApp 0.
Proof.
  intros Ha Hn. unfold initial_pendings. apply number_intro, elem_of_app. right.
  unfold app_actions. apply list_elem_of_In, in_flat_map. exists (app_node a).
  split; [apply in_seq; lia|]. rewrite Ha. simpl. rewrite Nat.eqb_refl. left. reflexivity.
Qed.

(** In a sorted queue whose only stop is [S], what runs is [S] or
    earlier than it. *)
Lemma executed_before q S :
  StronglySorted key_lt q -> S ∈ q -> is_stop S = true -> (forall p, p ∈ q -> is_stop p = true -> p = S) ->
  forall p, p ∈ executed q -> p = S \/ key_lt p S.
Proof.
  intros Hs HS HSs Hu. induction q as [|x q IH]; [apply elem_of_nil in HS; contradiction|].
  inversion Hs as [|? ? Hs' Hx]; subst. rewrite Forall_forall in Hx. simpl. intros p Hp.
  destruct (is_stop x) eqn:Ex.
  - assert (x = S) as -> by (apply Hu; [left|exact Ex]). left. by apply list_elem_of_singleton in Hp.
  - assert (HSq : S ∈ q) by (apply elem_of_cons in HS as [<-|HS]; [congruence|exact HS]).
    apply elem_of_cons in Hp as [->|Hp]; [right; exact (Hx S HSq)|].
    apply IH; [exact Hs'|exact HSq|intros y Hy; apply Hu; right; exact Hy|exact Hp].
Qed.

Lemma tcp_start_executed w E T :
  w_events w = E ++ [(T, EvStop)] -> Forall (fun te => te.2 <> EvStop) E ->
  run_ready w = true -> (0 <= T)%Q ->
  existsb (tcp_start w) (executed (build_queue w)) = Qltb 0 T.
Proof.
  intros V HE Hr HT. destruct (last_stop w E T V HE) as [HS Hu].
  unfold run_ready in Hr. destruct (w_apps w) as [|a rest] eqn:A; [discriminate|].
  apply andb_prop in Hr as [Hr Hall]. apply andb_prop in Hr as [Hr Hn]. apply andb_prop in Hr as [Htcp H0].
  apply Nat.ltb_lt in Hn. apply Qeq_bool_iff in H0. apply bool_decide_eq_true in Htcp.
  rewrite forallb_forall in Hall.
  destruct (Qltb 0 T) eqn:E0.
  - apply Qltb_iff in E0. apply existsb_exists.
    destruct (first_start_pending w a rest A Hn) as (p & Hp & Ht & Ha). exists p. split.
    + apply list_elem_of_In, (proj2 (proj2 (Run_stops_last w E T V HE))); [exact Hp|rewrite Ht, H0; exact E0].
    + unfold tcp_start. rewrite Ha, A. simpl. apply bool_decide_eq_true. exact Htcp.
  - apply Qltb_false in E0. apply not_true_iff_false. intros Hex.
    apply existsb_exists in Hex as (p & Hp & Hs). apply list_elem_of_In in Hp.
    unfold tcp_start in Hs. destruct (p_act p) as [|id| |] eqn:Ha; try discriminate.
    assert (Hpq : p ∈ initial_pendings w) by (apply build_queue_elem, executed_elem, Hp).
    destruct (start_pending w p id Hpq Ha) as (Huid & b & Hb & Htb).
    destruct (executed_before (build_queue w) _ (build_queue_sorted w) (proj2 (build_queue_elem w _) HS) eq_refl
                (fun q Hq => Hu q (proj1 (build_queue_elem w q) Hq)) p Hp) as [->|Hlt]; [discriminate|].
    assert (Hb0 : (0 <= app_start b)%Q).
    { apply Qleb_iff, Hall, list_elem_of_In. rewrite A in Hb. exact (list_elem_of_lookup_2 _ _ _ Hb). }
    rewrite V, length_app in Huid. simpl in Huid. unfold key_lt in Hlt. simpl in Hlt.
    destruct Hlt as [Hlt|[_ Hlt]]; [rewrite Htb in Hlt; lra|lia].
Qed.

Lemma run_crash_stop w E T :
  w_events w = E ++ [(T, EvStop)] -> Forall (fun te => te.2 <> EvStop) E ->
  run_ready w = true -> (0 <= T)%Q ->
  run_crash w = crash_of (w_config w) T.
Proof.
  intros V HE Hr HT. unfold run_crash, crash_of. rewrite (tcp_start_executed w E T V HE Hr HT).
  destruct (w_config w !! _) as [[t| |]|]; reflexivity.
Qed.
