(* ===== verification/Scenarios.v ===== *)
(** * The wired scenarios S1, S2, S3 and S5

    [BuildScenarioS1] (tcp_compare.cc 166-205), [BuildScenarioS2]
    (207-307), [BuildScenarioS3] (309-398) and [BuildScenarioS5]
    (400-438), each ending with the same instrumentation and run:
    [InstallCwndTracing] (the output directory, the [cwnd.csv] stream and
    the tracer scheduled at 0.1 s) and [RunAndCollect] (the optional flow
    monitor, [Simulator::Stop], [Run], the [flowmon.xml] file and
    [Destroy]).  The generic lemmas ([scenario_outcome] and its
    companions) take a scenario apart as a set-up ([setup_ok]), the
    tracer, a middle step ([mid_ok]: none, or S4's blockage) and the run,
    with each way it can end: [SetQueue]'s abort, the middle step's, the
    stop's, the crash of the run, or completion. *)

From Stdlib Require Import ZArith QArith Lqa String.
From stdpp Require Import base list strings gmap.
From S2P Require Import Prelude Addr World Net Engine Wiring Options Dumbbell Traffic Run.

(** ** Instrumentation and run, shared by every scenario *)

(** The tracer's attach delay, [Seconds (0.1)]. *)
Definition tracer_delay : Time := Seconds (1 # 10).

(** [CreateOutputDir], [ascii.CreateFileStream (outputDir + "/cwnd.csv")]
    and [Simulator::Schedule (Seconds (0.1), &InstallCwndTracer, node,
    cwndStream)]; returns the output directory. *)
Definition InstallCwndTracing (opts : RuntimeOptions) (node : nat) : Sim string :=
  let! outputDir := CreateOutputDir opts in
  let! cwndStream := CreateFileStream (outputDir ++ "/cwnd.csv") in
  Schedule tracer_delay (EvInstallCwndTracer node cwndStream);;!
  sret outputDir.

(** The flow monitor, the run and the teardown. *)
Definition RunAndCollect (opts : RuntimeOptions) (outputDir : string) : Sim unit :=
  let! monitor := if enableFlowMonitor opts then InstallAll else sret false in
  SimulatorStop (Seconds (simulationTime opts));;!
  SimulatorRun;;!
  (if monitor then SerializeFlowMonitor monitor (outputDir ++ "/flowmon.xml") else sret tt);;!
  SimulatorDestroy.

Definition p2p (rate delay : string) : P2PHelper := SetDelay (SetDataRate P2PDefault rate) delay.

(** ** S1: symmetric dumbbell, two bulk flows *)

(** Lines 166-182: the topology and the traffic; returns the node the
    tracer watches. *)
Definition SetupS1 (opts : RuntimeOptions) : Sim nat :=
  let access := p2p "100Mbps" "1ms" in
  let! bottleneck := SetQueue (p2p "20Mbps" "15ms") (queueSize opts) in
  let! dumbbell := MakeDumbbell 2 access 2 access bottleneck in
  InstallStacks dumbbell;;!
  let! dumbbell := AssignIpv4Addresses dumbbell in
  InstallBulkTransfers dumbbell 0 (simulationTime opts);;!
  GetLeft dumbbell 0.

(** [BuildScenarioS1]: the set-up, the tracer on [dumbbell.GetLeft (0)],
    the run. *)
Definition BuildScenarioS1 (opts : RuntimeOptions) : Sim unit :=
  let! left0 := SetupS1 opts in
  let! outputDir := InstallCwndTracing opts left0 in
  RunAndCollect opts outputDir.

(** ** S5: wide dumbbell, eight bulk flows *)

Definition nFlows : nat := 8.

Definition SetupS5 (opts : RuntimeOptions) : Sim nat :=
  let access := p2p "100Mbps" "2ms" in
  let! bottleneck := SetQueue (p2p "100Mbps" "20ms") (queueSize opts) in
  let! dumbbell := MakeDumbbell nFlows access nFlows access bottleneck in
  InstallStacks dumbbell;;!
  let! dumbbell := AssignIpv4Addresses dumbbell in
  InstallBulkTransfers dumbbell 0 (simulationTime opts);;!
  GetLeft dumbbell 0.

Definition BuildScenarioS5 (opts : RuntimeOptions) : Sim unit :=
  let! left0 := SetupS5 opts in
  let! outputDir := InstallCwndTracing opts left0 in
  RunAndCollect opts outputDir.

(** ** S2: asymmetric dumbbell with web cross traffic *)

(** The body of S2's bulk-flow loop for [i]. *)
Definition s2_bulk (opts : RuntimeOptions) (leftHosts rightHosts : Container)
    (rightHostAddrs : list Z) (i : nat) : Sim unit :=
  let! addr := match rightHostAddrs !! i with Some a => sret a | None => sfail (BadIndex i) end in
  let sinkAddress := mkSock addr (u16 (5000 + Z.of_nat i)) in
  let! rh := Get rightHosts i in
  let! sinkApp := SinkInstall (mkSinkHelper "ns3::TcpSocketFactory" sinkAddress) rh in
  AppsStart sinkApp (Seconds 0);;!
  AppsStop sinkApp (Seconds (simulationTime opts));;!
  let! lh := Get leftHosts i in
  let! senderApp := BulkInstall (SetMaxBytes (MakeBulkSendHelper "ns3::TcpSocketFactory" sinkAddress) 0) lh in
  AppsStart senderApp (Seconds 0);;!
  AppsStop senderApp (Seconds (simulationTime opts)).

Definition SetupS2 (opts : RuntimeOptions) : Sim nat :=
  let! leftHosts := CreateNodes 2 in
  let! rightHosts := CreateNodes 2 in
  let! routers := CreateNodes 2 in
  let fastAccess := p2p "100Mbps" "1ms" in
  let slowAccess := p2p "100Mbps" "60ms" in
  let rightAccess := p2p "100Mbps" "1ms" in
  let! bottleneck := SetQueue (p2p "20Mbps" "15ms") (queueSize opts) in
  let! l0 := Get leftHosts 0 in let! l1 := Get leftHosts 1 in
  let! rh0 := Get rightHosts 0 in let! rh1 := Get rightHosts 1 in
  let! r0 := Get routers 0 in let! r1 := Get routers 1 in
  let! left0Devices := P2PInstall fastAccess l0 r0 in
  let! left1Devices := P2PInstall slowAccess l1 r0 in
  let! right0Devices := P2PInstall rightAccess r1 rh0 in
  let! right1Devices := P2PInstall rightAccess r1 rh1 in
  let! backboneDevices := P2PInstall bottleneck r0 r1 in
  InstallStacksOn leftHosts;;! InstallStacksOn rightHosts;;! InstallStacksOn routers;;!
  let! ipv4 := helper_or_abort (SetBase "10.1.1.0" "255.255.255.0" "0.0.0.1") in
  let! '(left0If, ipv4) := Assign ipv4 left0Devices in
  let! '(left1If, ipv4) := Assign (NewNetwork ipv4) left1Devices in
  let! '(right0If, ipv4) := Assign (NewNetwork ipv4) right0Devices in
  let! '(right1If, ipv4) := Assign (NewNetwork ipv4) right1Devices in
  let! '(backboneIf, _) := Assign (NewNetwork ipv4) backboneDevices in
  PopulateRoutingTables;;!
  let! a0 := GetAddress right0If 1 in
  let! a1 := GetAddress right1If 1 in
  let rightHostAddrs := [a0; a1] in
  sfor (seq 0 2) (s2_bulk opts leftHosts rightHosts rightHostAddrs);;!
  InstallShortWebTraffic l0 rh1 a1 5 (simulationTime opts);;!
  let! l1addr := GetAddress left1If 0 in
  InstallShortWebTraffic rh0 l1 l1addr 5 (simulationTime opts);;!
  sret l0.

Definition BuildScenarioS2 (opts : RuntimeOptions) : Sim unit :=
  let! l0 := SetupS2 opts in
  let! outputDir := InstallCwndTracing opts l0 in
  RunAndCollect opts outputDir.

(** ** S3: four-node chain with loss and UDP cross traffic *)

Definition SetupS3 (opts : RuntimeOptions) : Sim nat :=
  let! nodes := CreateNodes 4 in
  let access := p2p "100Mbps" "5ms" in
  let! bottleneck := SetQueue (p2p "40Mbps" "10ms") (queueSize opts) in
  let! n0 := Get nodes 0 in let! n1 := Get nodes 1 in
  let! n2 := Get nodes 2 in let! n3 := Get nodes 3 in
  let! d01 := P2PInstall access n0 n1 in
  let! d12 := P2PInstall bottleneck n1 n2 in
  let! d23 := P2PInstall access n2 n3 in
  (if Qltb 0 (lossRate opts)
   then let! dev := Get d12 1 in SetReceiveErrorModel dev (lossRate opts)
   else sret tt);;!
  InstallStacksOn nodes;;!
  let! ipv4 := helper_or_abort (SetBase "10.10.1.0" "255.255.255.0" "0.0.0.1") in
  let! _ := Assign ipv4 d01 in
  let! ipv4 := helper_or_abort (SetBase "10.10.2.0" "255.255.255.0" "0.0.0.1") in
  let! '(bottleneckIf, _) := Assign ipv4 d12 in
  let! ipv4 := helper_or_abort (SetBase "10.10.3.0" "255.255.255.0" "0.0.0.1") in
  let! '(rightIf, _) := Assign ipv4 d23 in
  PopulateRoutingTables;;!
  let! sinkIp := GetAddress rightIf 1 in
  let sinkAddress := mkSock sinkIp 6000 in
  let! sinkApp := SinkInstall (mkSinkHelper "ns3::TcpSocketFactory" sinkAddress) n3 in
  AppsStart sinkApp (Seconds 0);;! AppsStop sinkApp (Seconds (simulationTime opts));;!
  let! bulkApp := BulkInstall (SetMaxBytes (MakeBulkSendHelper "ns3::TcpSocketFactory" sinkAddress) 0) n0 in
  AppsStart bulkApp (Seconds 0);;! AppsStop bulkApp (Seconds (simulationTime opts));;!
  let udpCross :=
    SetOffTime (SetOnTime (SetRate (SetPacketSize
      (MakeOnOffHelper "ns3::UdpSocketFactory" (mkSock sinkIp 7000)) 1200) "15Mbps")
      "ns3::ConstantRandomVariable[Constant=1]") "ns3::ConstantRandomVariable[Constant=0]" in
  let! udpApp := OnOffInstall udpCross n0 in
  AppsStart udpApp (Seconds 5);;! AppsStop udpApp (Seconds (simulationTime opts));;!
  let! udpSinkApp := SinkInstall (mkSinkHelper "ns3::UdpSocketFactory" (mkSock Ipv4Any 7000)) n3 in
  AppsStart udpSinkApp (Seconds 5);;! AppsStop udpSinkApp (Seconds (simulationTime opts));;!
  sret n0.

Definition BuildScenarioS3 (opts : RuntimeOptions) : Sim unit :=
  let! n0 := SetupS3 opts in
  let! outputDir := InstallCwndTracing opts n0 in
  RunAndCollect opts outputDir.

(** A set-up that succeeds on a state with no topology, leaving the
    directories and files alone; used by the theorems on [main]. *)
(** What a run leaves behind: the abort, if it died, and the
    directories and files it created. *)
Definition outcome {A} (r : result World Abort A) : option Abort * list string * list string :=
  match r with
  | ROk _ w => (None, w_dirs w, w_files w)
  | RErr e w => (Some e, w_dirs w, w_files w)
  end.

(** The result of a step that aborts with [err], or succeeds when it is
    [None]. *)
Definition on_result {A} (err : option Abort) (a : A) (w : World) : result World Abort A :=
  match err with None => ROk a w | Some e => RErr e w end.

Definition setup_ok {A} (m : Sim A) : Prop :=
  forall w, fresh_topology w ->
  exists a w', m w = ROk a w' /\ w_dirs w' = w_dirs w /\ w_files w' = w_files w /\
    w_events w' = w_events w /\ w_config w' = w_config w /\ run_ready w' = true /\
    exists L, w_log w' = w_log w ++ L.

(** The step between the tracer and the run: it ends as [err] says,
    creates no directory or file, leaves the configuration, the
    applications and the nodes alone and schedules no stop. *)
Definition mid_ok {A} (mid : A -> Sim unit) (err : option Abort) : Prop :=
  forall a w0, exists w1, mid a w0 = on_result err tt w1 /\
    w_dirs w1 = w_dirs w0 /\ w_files w1 = w_files w0 /\
    w_config w1 = w_config w0 /\ w_apps w1 = w_apps w0 /\ w_nodes w1 = w_nodes w0 /\
    exists evs, w_events w1 = w_events w0 ++ evs /\ Forall (fun te => te.2 <> EvStop) evs.

(** The cwnd tracer of a run watches exactly one socket, that of an
    unlimited bulk sender, and writes to [f]. *)
Definition watches_one_sender (w : World) (f : string) : Prop :=
  exists id a sink, w_apps w !! id = Some a /\ app_kind a = BulkSend sink 0 /\
    forall f' id', (f', id') ∈ rs_traced (Run w) <-> f' = f /\ id' = id.

(** The calls that build the topology or install the traffic. *)
Definition setup_effect (e : Effect) : bool :=
  match e with
  | ECreateNode _ | EInstallLink _ | EInstallLteDevice _ | EInstallStack _ | ESetErrorModel _
  | EAssign _ _ | EPopulateRouting | EAddRoute _ | EAttach _ _ | EInstallApp _
  | ESetStart _ _ | ESetStop _ _ => true
  | _ => false
  end.


(** ** Lemmas on the shared instrumentation and run *)

Lemma tracer_delay_eq : tracer_delay = 1 # 10.
Proof. reflexivity. Qed.

Lemma cwnd_csv_no_slash :
  Forall (fun c => Ascii.eqb c slash = false) (list_ascii_of_string "cwnd.csv").
Proof. repeat constructor. Qed.

Lemma flowmon_xml_no_slash :
  Forall (fun c => Ascii.eqb c slash = false) (list_ascii_of_string "flowmon.xml").
Proof. repeat constructor. Qed.

(** The output directory is created, [cwnd.csv] is opened in it and the
    tracer is scheduled at 0.1 s, whatever the state. *)
Lemma InstallCwndTracing_eq opts n w :
  let d := output_dir opts in
  let p := (d ++ "/cwnd.csv")%string in
  InstallCwndTracing opts n w =
  ROk d (upd_log (upd_events (upd_files (upd_dirs w (w_dirs w ++ [d])) (w_files w ++ [p]))
                             (w_events w ++ [(tracer_delay, EvInstallCwndTracer n p)]))
                 (w_log w ++ [EMkdirs d; ECreateFile p; ESchedule tracer_delay (EvInstallCwndTracer n p)])).
Proof.
  intros d p. unfold InstallCwndTracing, CreateOutputDir, sbind, sret, MakeDirectories, CreateFileStream.
  rewrite openable_in_dir by first [exact cwnd_csv_no_slash | simpl; set_solver].
  destruct w; simpl. rewrite <- !app_assoc. reflexivity.
Qed.

(** The scenarios other than S4 have nothing between tracer and run. *)
Lemma sret_mid_ok {A} : mid_ok (fun _ : A => sret tt) None.
Proof. intros a w0. exists w0. split_and!; [reflexivity..|]. exists []. rewrite app_nil_r. auto. Qed.

(** The stop is scheduled; [Simulator::Run] is reached on the state with
    the stop appended. *)
Ltac run_collect :=
  unfold RunAndCollect, sbind, sret, InstallAll, SimulatorStop, Schedule, SimulatorRun, SimulatorDestroy,
    emit, smodify, SerializeFlowMonitor, SerializeToXmlFile.

(** Replace the crash test of the state the run starts from by that of
    [W], which has the same configuration, applications, nodes and
    events. *)
Ltac run_crash_is W w :=
  match goal with |- context [run_crash ?x] =>
    rewrite (run_crash_frame W x) by (destruct w; reflexivity) end.

Lemma RunAndCollect_ok opts d w :
  d ∈ w_dirs w -> (0 <= Seconds (simulationTime opts))%Q ->
  run_crash (upd_events w (w_events w ++ [(Seconds (simulationTime opts), EvStop)])) = None ->
  exists w', RunAndCollect opts d w = ROk tt w' /\
    w_files w' = w_files w ++ (if enableFlowMonitor opts then [(d ++ "/flowmon.xml")%string] else []) /\
    w_dirs w' = w_dirs w /\ w_nodes w' = w_nodes w /\ w_links w' = w_links w /\
    w_apps w' = w_apps w /\ w_events w' = w_events w ++ [(Seconds (simulationTime opts), EvStop)] /\
    last (w_log w') = Some EDestroy.
Proof.
  intros Hd Ht Hc.
  assert (Hs : Qltb (Seconds (simulationTime opts)) 0 = false).
  { destruct (Qltb _ _) eqn:E; [|reflexivity]. apply Qltb_iff in E. exfalso. apply (Qlt_not_le _ _ E Ht). }
  run_collect. destruct (enableFlowMonitor opts); rewrite Hs; simpl;
    run_crash_is (upd_events w (w_events w ++ [(Seconds (simulationTime opts), EvStop)])) w; rewrite Hc.
  - rewrite openable_in_dir by first [exact flowmon_xml_no_slash | destruct w; exact Hd].
    eexists. split; [reflexivity|]. destruct w; simpl. split_and!; try reflexivity.
    rewrite !last_app. reflexivity.
  - eexists. split; [reflexivity|]. destruct w; simpl. split_and!; try reflexivity.
    + rewrite app_nil_r. reflexivity.
    + rewrite !last_app. reflexivity.
Qed.

(** With a socket type that is a congestion-control algorithm the run
    cannot die. *)
Lemma RunAndCollect_ok_st opts d w :
  d ∈ w_dirs w -> (0 <= Seconds (simulationTime opts))%Q -> socket_type_ok w = true ->
  exists w', RunAndCollect opts d w = ROk tt w' /\
    w_files w' = w_files w ++ (if enableFlowMonitor opts then [(d ++ "/flowmon.xml")%string] else []) /\
    w_dirs w' = w_dirs w /\ w_nodes w' = w_nodes w /\ w_links w' = w_links w /\
    w_apps w' = w_apps w /\ w_events w' = w_events w ++ [(Seconds (simulationTime opts), EvStop)] /\
    last (w_log w') = Some EDestroy.
Proof.
  intros Hd Ht Hst. apply RunAndCollect_ok; [exact Hd|exact Ht|].
  apply run_crash_ok. rewrite <- Hst. apply socket_type_ok_frame. reflexivity.
Qed.

(** A run that dies at its first TCP socket leaves no [flowmon.xml]. *)
Lemma RunAndCollect_crash opts d w e :
  (0 <= Seconds (simulationTime opts))%Q ->
  run_crash (upd_events w (w_events w ++ [(Seconds (simulationTime opts), EvStop)])) = Some e ->
  exists w', RunAndCollect opts d w = RErr e w' /\ w_files w' = w_files w /\ w_dirs w' = w_dirs w.
Proof.
  intros Ht Hc.
  assert (Hs : Qltb (Seconds (simulationTime opts)) 0 = false).
  { destruct (Qltb _ _) eqn:E; [|reflexivity]. apply Qltb_iff in E. exfalso. apply (Qlt_not_le _ _ E Ht). }
  run_collect. destruct (enableFlowMonitor opts); rewrite Hs; simpl;
    run_crash_is (upd_events w (w_events w ++ [(Seconds (simulationTime opts), EvStop)])) w; rewrite Hc;
    eexists; (split; [reflexivity|]); destruct w; auto.
Qed.

Lemma RunAndCollect_negative opts d w :
  (Seconds (simulationTime opts) < 0)%Q ->
  exists w', RunAndCollect opts d w = RErr (NegativeDelay (Seconds (simulationTime opts))) w' /\
    w_files w' = w_files w /\ w_dirs w' = w_dirs w.
Proof.
  intros Ht. apply Qltb_iff in Ht. run_collect.
  destruct (enableFlowMonitor opts); rewrite Ht; eexists; (split; [reflexivity|]); destruct w; simpl; auto.
Qed.

(** A scenario built the way all five are: a set-up, the tracer, an
    optional step between tracer and run, the run.  Up to that step, the
    run directory and [cwnd.csv] have been created. *)
Lemma scenario_to_mid {A} (m : Sim A) (node : A -> nat) (mid : A -> Sim unit) opts w :
  setup_ok m -> fresh_topology w ->
  exists a w2, sbind m (fun a => sbind (InstallCwndTracing opts (node a))
                          (fun d => sbind (mid a) (fun _ => RunAndCollect opts d))) w =
               sbind (mid a) (fun _ => RunAndCollect opts (output_dir opts)) w2 /\
    w_dirs w2 = w_dirs w ++ [output_dir opts] /\
    w_files w2 = w_files w ++ [(output_dir opts ++ "/cwnd.csv")%string] /\
    w_events w2 = w_events w ++ [(tracer_delay, EvInstallCwndTracer (node a) (output_dir opts ++ "/cwnd.csv"))] /\
    w_config w2 = w_config w /\ run_ready w2 = true /\
    exists L1, w_log w2 = w_log w ++ L1 ++
      [EMkdirs (output_dir opts); ECreateFile (output_dir opts ++ "/cwnd.csv");
       ESchedule tracer_delay (EvInstallCwndTracer (node a) (output_dir opts ++ "/cwnd.csv"))].
Proof.
  intros Hm Hw. destruct (Hm w Hw) as (a & w1 & E1 & D1 & F1 & V1 & C1 & R1 & L1 & G1).
  unfold sbind at 1. rewrite E1. unfold sbind at 1. rewrite InstallCwndTracing_eq.
  eexists a, _. split; [reflexivity|]. rewrite <- D1, <- F1, <- V1, <- C1, <- R1.
  split_and!; [reflexivity..| |]; [destruct w1; reflexivity|].
  exists L1. simpl. rewrite G1, <- app_assoc. reflexivity.
Qed.

(** The state the run starts from, after the middle step: its stop is
    last and it is ready ([run_ready]); it dies exactly as [crash_of]
    says. *)
Lemma scenario_run_crash {A} (m : Sim A) (node : A -> nat) (mid : A -> Sim unit) opts w err a w2 w3 :
  setup_ok m -> fresh_topology w -> mid_ok mid err ->
  w_events w2 = w_events w ++ [(tracer_delay, EvInstallCwndTracer (node a) (output_dir opts ++ "/cwnd.csv"))] ->
  w_config w2 = w_config w -> run_ready w2 = true -> mid a w2 = ROk tt w3 ->
  (0 <= Seconds (simulationTime opts))%Q ->
  run_crash (upd_events w3 (w_events w3 ++ [(Seconds (simulationTime opts), EvStop)])) =
  crash_of (w_config w) (Seconds (simulationTime opts)).
Proof.
  intros Hm Hw Hmid V2 C2 R2 E3 Ht. destruct (Hmid a w2) as (w3' & E3' & _ & _ & C3 & A3 & N3 & evs & V3 & Hevs).
  rewrite E3 in E3'. destruct err; simpl in E3'; [discriminate|]. injection E3' as <-.
  destruct Hw as (_ & _ & _ & _ & _ & _ & _ & _ & V0).
  rewrite (run_crash_stop _ (w_events w3) (Seconds (simulationTime opts))); [destruct w3; simpl in *; congruence|..].
  - destruct w3; reflexivity.
  - rewrite V3, V2, V0. simpl. constructor; [discriminate|exact Hevs].
  - rewrite <- R2. unfold run_ready. destruct w3; simpl in *. rewrite A3, N3. reflexivity.
  - exact Ht.
Qed.

Lemma scenario_before_run {A} (m : Sim A) (node : A -> nat) (mid : A -> Sim unit) opts w :
  setup_ok m -> fresh_topology w -> mid_ok mid None ->
  exists w2, sbind m (fun a => sbind (InstallCwndTracing opts (node a))
                          (fun d => sbind (mid a) (fun _ => RunAndCollect opts d))) w =
             RunAndCollect opts (output_dir opts) w2 /\
    w_dirs w2 = w_dirs w ++ [output_dir opts] /\
    w_files w2 = w_files w ++ [(output_dir opts ++ "/cwnd.csv")%string] /\
    w_config w2 = w_config w.
Proof.
  intros Hm Hw Hmid. destruct (scenario_to_mid m node mid opts w Hm Hw) as (a & w2 & -> & D2 & F2 & _ & C2 & _).
  destruct (Hmid a w2) as (w3 & E3 & D3 & F3 & C3 & _). exists w3. unfold sbind. rewrite E3.
  split; [reflexivity|]. rewrite D3, F3, C3, D2, F2, C2. auto.
Qed.

(** What every scenario leaves, for each way it ends: the middle step's
    abort, the stop's abort for a duration that rounds below 0, the
    crash at the first TCP socket, or a completed run with
    [flowmon.xml] when the monitor is on. *)
Lemma scenario_outcome {A} (m : Sim A) (node : A -> nat) (mid : A -> Sim unit) opts w err :
  setup_ok m -> fresh_topology w -> mid_ok mid err ->
  outcome (sbind m (fun a => sbind (InstallCwndTracing opts (node a))
                          (fun d => sbind (mid a) (fun _ => RunAndCollect opts d))) w) =
  let d := output_dir opts in
  let c := (d ++ "/cwnd.csv")%string in
  let T := Seconds (simulationTime opts) in
  match err with
  | Some e => (Some e, w_dirs w ++ [d], w_files w ++ [c])
  | None =>
      if Qltb T 0 then (Some (NegativeDelay T), w_dirs w ++ [d], w_files w ++ [c])
      else match crash_of (w_config w) T with
           | Some e => (Some e, w_dirs w ++ [d], w_files w ++ [c])
           | None => (None, w_dirs w ++ [d], w_files w ++ [c] ++
                       (if enableFlowMonitor opts then [(d ++ "/flowmon.xml")%string] else []))
           end
  end.
Proof.
  intros Hm Hw Hmid. destruct (scenario_to_mid m node mid opts w Hm Hw) as (a & w2 & -> & D2 & F2 & V2 & C2 & R2 & _).
  destruct (Hmid a w2) as (w3 & E3 & D3 & F3 & _). unfold sbind. rewrite E3.
  destruct err as [e|]; simpl; [rewrite D3, F3, D2, F2; reflexivity|].
  destruct (Qltb (Seconds (simulationTime opts)) 0) eqn:Ht.
  - apply Qltb_iff in Ht.
    destruct (RunAndCollect_negative opts (output_dir opts) w3 Ht) as (w4 & -> & F4 & D4).
    simpl. rewrite D4, F4, D3, F3, D2, F2. reflexivity.
  - apply Qltb_false in Ht.
    pose proof (scenario_run_crash m node mid opts w None a w2 w3 Hm Hw Hmid V2 C2 R2 E3 Ht) as Hc.
    destruct (crash_of (w_config w) (Seconds (simulationTime opts))) as [e|].
    + destruct (RunAndCollect_crash opts (output_dir opts) w3 e Ht Hc) as (w4 & -> & F4 & D4).
      simpl. rewrite D4, F4, D3, F3, D2, F2. reflexivity.
    + destruct (RunAndCollect_ok opts (output_dir opts) w3) as (w4 & -> & F4 & D4 & _);
        [rewrite D3, D2; apply elem_of_app; right; left|exact Ht|exact Hc|].
      simpl. rewrite D4, F4, D3, F3, D2, F2, <- app_assoc. reflexivity.
Qed.

Lemma RunAndCollect_events opts d w w' :
  RunAndCollect opts d w = ROk tt w' -> w_events w' = w_events w ++ [(Seconds (simulationTime opts), EvStop)].
Proof.
  run_collect. destruct (enableFlowMonitor opts), (Qltb (Seconds (simulationTime opts)) 0); intros E; cbn in E;
    try discriminate; destruct (run_crash _) in E; try discriminate;
    [destruct (openable _ _) in E|]; injection E as <-; reflexivity.
Qed.

(** The events a completed scenario leaves: the set-up schedules none,
    then come the tracer, the events of the middle step (none of them a
    stop) and the stop, last. *)
Lemma scenario_events {A} (m : Sim A) (node : A -> nat) (mid : A -> Sim unit) opts w w' err :
  setup_ok m -> fresh_topology w -> mid_ok mid err ->
  sbind m (fun a => sbind (InstallCwndTracing opts (node a))
                      (fun d => sbind (mid a) (fun _ => RunAndCollect opts d))) w = ROk tt w' ->
  exists E, w_events w' = E ++ [(Seconds (simulationTime opts), EvStop)] /\ Forall (fun te => te.2 <> EvStop) E.
Proof.
  intros Hm Hw Hmid. destruct (scenario_to_mid m node mid opts w Hm Hw) as (a & w2 & -> & _ & _ & V2 & _).
  destruct (Hmid a w2) as (w3 & E3 & _ & _ & _ & _ & _ & evs & V3 & Hevs).
  unfold sbind. rewrite E3. destruct err; [discriminate|]. intros Hrun.
  eexists. rewrite (RunAndCollect_events _ _ _ _ Hrun), V3, V2. split; [reflexivity|].
  destruct Hw as (_ & _ & _ & _ & _ & _ & _ & _ & ->). simpl. constructor; [discriminate|exact Hevs].
Qed.

Lemma RunAndCollect_log opts d w w' :
  RunAndCollect opts d w = ROk tt w' ->
  exists L, w_log w' = w_log w ++ L /\ Forall (fun e => setup_effect e = false) L /\ ERun ∈ L.
Proof.
  run_collect. destruct (enableFlowMonitor opts), (Qltb (Seconds (simulationTime opts)) 0); intros E; cbn in E;
    try discriminate; destruct (run_crash _) in E; try discriminate;
    [destruct (openable _ _) in E|]; injection E as <-; cbn [w_log upd_log]; rewrite <- !app_assoc;
    (eexists; split; [reflexivity|]); simpl.
  all: split; [repeat (constructor; [reflexivity|]); constructor|solve [repeat constructor]].
Qed.

(** The calls a completed scenario makes, in order: the set-up's, then
    the run directory, [cwnd.csv] and the tracer, then calls that build
    no topology and install no traffic, among them [Simulator::Run]. *)
Lemma scenario_log {A} (m : Sim A) (node : A -> nat) (mid : A -> Sim unit) opts w w' :
  setup_ok m -> fresh_topology w ->
  (forall a w0 w1, mid a w0 = ROk tt w1 ->
     exists L, w_log w1 = w_log w0 ++ L /\ Forall (fun e => setup_effect e = false) L) ->
  sbind m (fun a => sbind (InstallCwndTracing opts (node a))
                      (fun d => sbind (mid a) (fun _ => RunAndCollect opts d))) w = ROk tt w' ->
  exists n L1 L2, w_log w' = w_log w ++ L1 ++
      [EMkdirs (output_dir opts); ECreateFile (output_dir opts ++ "/cwnd.csv");
       ESchedule tracer_delay (EvInstallCwndTracer n (output_dir opts ++ "/cwnd.csv"))] ++ L2 /\
    Forall (fun e => setup_effect e = false) L2 /\ ERun ∈ L2.
Proof.
  intros Hm Hw Hlog. destruct (scenario_to_mid m node mid opts w Hm Hw) as (a & w2 & -> & _ & _ & _ & _ & _ & L1 & G2).
  unfold sbind. destruct (mid a w2) as [[] w3|e w3] eqn:E3; [|discriminate]. intros Hrun.
  destruct (Hlog a w2 w3 E3) as (L & G3 & HL).
  destruct (RunAndCollect_log _ _ _ _ Hrun) as (L' & G' & HL' & Hr).
  exists (node a), L1, (L ++ L'). rewrite G', G3, G2, <- !app_assoc. split; [reflexivity|].
  split; [apply Forall_app; split; assumption|set_solver].
Qed.

Lemma scenario_shape_ok {A} (m : Sim A) (node : A -> nat) (mid : A -> Sim unit) opts w :
  setup_ok m -> fresh_topology w -> (0 <= Seconds (simulationTime opts))%Q -> socket_type_ok w = true ->
  mid_ok mid None ->
  exists w', sbind m (fun a => sbind (InstallCwndTracing opts (node a))
                          (fun d => sbind (mid a) (fun _ => RunAndCollect opts d))) w = ROk tt w' /\
    w_dirs w' = w_dirs w ++ [output_dir opts] /\
    w_files w' = w_files w ++ [(output_dir opts ++ "/cwnd.csv")%string] ++
                 (if enableFlowMonitor opts then [(output_dir opts ++ "/flowmon.xml")%string] else []) /\
    last (w_log w') = Some EDestroy.
Proof.
  intros Hm Hw Ht Hst Hmid.
  destruct (scenario_before_run m node mid opts w Hm Hw Hmid) as (w2 & -> & D2 & F2 & C2).
  destruct (RunAndCollect_ok_st opts (output_dir opts) w2) as (w3 & E3 & F3 & D3 & _ & _ & _ & _ & L3);
    [rewrite D2; apply elem_of_app; right; left|exact Ht|rewrite <- Hst; apply socket_type_ok_frame, C2|].
  exists w3. split; [exact E3|]. rewrite D3, D2, F3, F2, <- app_assoc. auto.
Qed.

(** ** What each wired scenario builds *)

(** A set-up whose [SetQueue] accepted the queue size, run by [cbv] on
    a fresh state (the durations of the options stay folded). *)
Ltac setup_ok_run :=
  eexists _, _; split;
    [cbv -[Seconds]; reflexivity
    | split_and!; [reflexivity..|eexists; cbn [w_log]; fold (@app Effect); rewrite <- ?app_assoc; reflexivity]].

Ltac prove_setup_ok S := intros Hq w; intro_fresh w; unfold S, SetQueue; rewrite Hq; setup_ok_run.

Lemma SetupS1_ok opts : QueueSizeValid (queueSize opts) = true -> setup_ok (SetupS1 opts).
Proof. prove_setup_ok SetupS1. Qed.
Lemma SetupS2_ok opts : QueueSizeValid (queueSize opts) = true -> setup_ok (SetupS2 opts).
Proof. prove_setup_ok SetupS2. Qed.
Lemma SetupS5_ok opts : QueueSizeValid (queueSize opts) = true -> setup_ok (SetupS5 opts).
Proof. prove_setup_ok SetupS5. Qed.
Lemma SetupS3_ok opts : QueueSizeValid (queueSize opts) = true -> setup_ok (SetupS3 opts).
Proof.
  intros Hq w. intro_fresh w. unfold SetupS3, SetQueue. rewrite Hq.
  destruct (Qltb 0 (lossRate opts)); eexists _, _;
    (split; [cbv -[Seconds]; reflexivity
            | split_and!; [reflexivity..|eexists; cbn [w_log]; fold (@app Effect); rewrite <- ?app_assoc; reflexivity]]).
Qed.

(** A set-up that aborts with [e] on a state with no topology, before
    any directory or file exists. *)
Definition setup_fails {A} (m : Sim A) (e : Abort) : Prop :=
  forall w, fresh_topology w -> exists w', m w = RErr e w' /\ w_dirs w' = w_dirs w /\ w_files w' = w_files w.

Ltac prove_setup_fails S :=
  intros Hq w; intro_fresh w; unfold S, SetQueue; rewrite Hq;
  eexists; split; [cbv -[Seconds]; reflexivity|split; reflexivity].

Lemma SetupS1_fails opts :
  QueueSizeValid (queueSize opts) = false -> setup_fails (SetupS1 opts) (InvalidQueueSize (queueSize opts)).
Proof. prove_setup_fails SetupS1. Qed.
Lemma SetupS2_fails opts :
  QueueSizeValid (queueSize opts) = false -> setup_fails (SetupS2 opts) (InvalidQueueSize (queueSize opts)).
Proof. prove_setup_fails SetupS2. Qed.
Lemma SetupS3_fails opts :
  QueueSizeValid (queueSize opts) = false -> setup_fails (SetupS3 opts) (InvalidQueueSize (queueSize opts)).
Proof. prove_setup_fails SetupS3. Qed.
Lemma SetupS5_fails opts :
  QueueSizeValid (queueSize opts) = false -> setup_fails (SetupS5 opts) (InvalidQueueSize (queueSize opts)).
Proof. prove_setup_fails SetupS5. Qed.

(** Whatever follows a set-up that aborts never runs. *)
Lemma sbind_setup_fails {A B} (m : Sim A) (k : A -> Sim B) e w :
  setup_fails m e -> fresh_topology w ->
  exists w', sbind m k w = RErr e w' /\ w_dirs w' = w_dirs w /\ w_files w' = w_files w.
Proof. intros Hm Hw. destruct (Hm w Hw) as (w' & E & D & F). exists w'. unfold sbind. rewrite E. auto. Qed.

Lemma setup_fails_match {A B} (m : Sim A) (k : A -> Sim B) e (P : World -> Prop) :
  setup_fails m e ->
  match sbind m k empty_world with ROk _ w' => P w' | RErr e' _ => e' = e end.
Proof. intros Hm. destruct (sbind_setup_fails m k e empty_world Hm) as (w' & -> & _); [repeat split|reflexivity]. Qed.

(** ** The run of S1 *)

(** The state [Simulator::Run] starts from, after a set-up, the tracer
    and the stop: the set-up's nodes and applications, its events
    followed by the tracer's and the stop's. *)
Lemma scenario_run_world {A} (m : Sim A) (node : A -> nat) opts w a w1 :
  m w = ROk a w1 -> socket_type_ok w1 = true -> (0 <= Seconds (simulationTime opts))%Q ->
  exists w', sbind m (fun a => sbind (InstallCwndTracing opts (node a)) (fun d => RunAndCollect opts d)) w
             = ROk tt w' /\
    w_nodes w' = w_nodes w1 /\ w_apps w' = w_apps w1 /\
    w_events w' = w_events w1 ++ [(tracer_delay, EvInstallCwndTracer (node a) (output_dir opts ++ "/cwnd.csv"));
                                  (Seconds (simulationTime opts), EvStop)].
Proof.
  intros E1 Hst Ht. unfold sbind at 1. rewrite E1. unfold sbind at 1. rewrite InstallCwndTracing_eq.
  destruct (RunAndCollect_ok_st opts (output_dir opts)
    (upd_log (upd_events (upd_files (upd_dirs w1 (w_dirs w1 ++ [output_dir opts]))
       (w_files w1 ++ [(output_dir opts ++ "/cwnd.csv")%string]))
       (w_events w1 ++ [(tracer_delay, EvInstallCwndTracer (node a) (output_dir opts ++ "/cwnd.csv")%string)]))
       (w_log w1 ++ [EMkdirs (output_dir opts); ECreateFile (output_dir opts ++ "/cwnd.csv")%string;
          ESchedule tracer_delay (EvInstallCwndTracer (node a) (output_dir opts ++ "/cwnd.csv")%string)])))
    as (w3 & E3 & _ & _ & N3 & _ & A3 & V3 & _);
    [cbn [w_dirs upd_log upd_events upd_files upd_dirs]; apply elem_of_app; right; left|exact Ht
    |rewrite <- Hst; apply socket_type_ok_frame; reflexivity|].
  exists w3. split; [exact E3|]. rewrite N3, A3, V3. cbn. rewrite <- app_assoc. auto.
Qed.

(** The applications of S1: sink and sender of flow 0, then of flow 1. *)
Lemma SetupS1_world opts :
  QueueSizeValid (queueSize opts) = true ->
  exists w1, SetupS1 opts empty_world = ROk 2%nat w1 /\ w_nodes w1 = 6%nat /\
    w_apps w1 = [mkApp 4 Tcp (PacketSink (mkSock (ipv4 10 2 1 1) 5000)) 0 (Some (Seconds (simulationTime opts)));
                 mkApp 2 Tcp (BulkSend (mkSock (ipv4 10 2 1 1) 5000) 0) 0 (Some (Seconds (simulationTime opts)));
                 mkApp 5 Tcp (PacketSink (mkSock (ipv4 10 2 2 1) 5001)) 0 (Some (Seconds (simulationTime opts)));
                 mkApp 3 Tcp (BulkSend (mkSock (ipv4 10 2 2 1) 5001) 0) 0 (Some (Seconds (simulationTime opts)))] /\
    w_events w1 = [] /\ w_dirs w1 = [] /\ socket_type_ok w1 = true.
Proof.
  intros Hq. unfold SetupS1, SetQueue. rewrite Hq.
  eexists. split; [cbv -[Seconds]; reflexivity|]. split_and!; reflexivity.
Qed.

Lemma BuildScenarioS1_world opts :
  QueueSizeValid (queueSize opts) = true -> (0 <= Seconds (simulationTime opts))%Q ->
  exists w', BuildScenarioS1 opts empty_world = ROk tt w' /\ w_nodes w' = 6%nat /\
    w_apps w' = [mkApp 4 Tcp (PacketSink (mkSock (ipv4 10 2 1 1) 5000)) 0 (Some (Seconds (simulationTime opts)));
                 mkApp 2 Tcp (BulkSend (mkSock (ipv4 10 2 1 1) 5000) 0) 0 (Some (Seconds (simulationTime opts)));
                 mkApp 5 Tcp (PacketSink (mkSock (ipv4 10 2 2 1) 5001)) 0 (Some (Seconds (simulationTime opts)));
                 mkApp 3 Tcp (BulkSend (mkSock (ipv4 10 2 2 1) 5001) 0) 0 (Some (Seconds (simulationTime opts)))] /\
    w_events w' = [(tracer_delay, EvInstallCwndTracer 2 (output_dir opts ++ "/cwnd.csv"));
                   (Seconds (simulationTime opts), EvStop)].
Proof.
  intros Hq Ht. destruct (SetupS1_world opts Hq) as (w1 & E1 & N1 & A1 & V1 & D1 & S1).
  destruct (scenario_run_world (SetupS1 opts) (fun n => n) opts empty_world _ _ E1 S1 Ht)
    as (w' & E & N & A & V).
  exists w'. split; [exact E|]. rewrite N, A, V, V1. auto.
Qed.

(** The facts that make a run's tracer watch one bulk sender: of the
    TCP applications of the tracer's node, [id], a bulk sender, is the
    only one whose socket is open when the tracer fires. *)
Lemma watches_one_sender_intro w n f T id a sink :
  w_events w = [(tracer_delay, EvInstallCwndTracer n f); (T, EvStop)] -> (tracer_delay <= T)%Q ->
  w_apps w !! id = Some a -> app_kind a = BulkSend sink 0 ->
  forallb (fun j => negb (is_tcp_on w n j && open_at_tracer w tracer_delay n f j) || Nat.eqb j id)
          (seq 0 (length (w_apps w))) = true ->
  is_tcp_on w n id = true -> open_at_tracer w tracer_delay n f id = true ->
  watches_one_sender w f.
Proof.
  intros V HT Ha Hk Hall Htcp Hs. exists id, a, sink. split_and!; [exact Ha|exact Hk|].
  intros f' id'. rewrite (one_tracer_traced w _ _ _ _ V HT). split.
  - intros (-> & Ht' & Hs'). split; [reflexivity|].
    apply (forallb_only _ _ id id' Hall); [rewrite Ht', Hs'; reflexivity|exact (is_tcp_on_lt _ _ _ Ht')].
  - intros [-> ->]. auto.
Qed.

(** Every scenario's run world: the set-up's nodes and applications,
    the tracer at 0.1 s and the stop. *)
Lemma scenario_world {A} (m : Sim A) (node : A -> nat) opts a w1 :
  m empty_world = ROk a w1 -> w_events w1 = [] -> socket_type_ok w1 = true ->
  (0 <= Seconds (simulationTime opts))%Q ->
  exists w', sbind m (fun a => sbind (InstallCwndTracing opts (node a)) (fun d => RunAndCollect opts d)) empty_world
             = ROk tt w' /\
    w_nodes w' = w_nodes w1 /\ w_apps w' = w_apps w1 /\
    w_events w' = [(tracer_delay, EvInstallCwndTracer (node a) (output_dir opts ++ "/cwnd.csv"));
                   (Seconds (simulationTime opts), EvStop)].
Proof.
  intros E1 V1 S1 Ht. destruct (scenario_run_world m node opts empty_world a w1 E1 S1 Ht) as (w' & E & N & A' & V).
  exists w'. rewrite V, V1. auto.
Qed.

(** A scenario whose set-up leaves [id] the only TCP application of the
    tracer's node, a bulk sender whose socket is open at the tracer's
    0.1 s: the run's tracer watches exactly that socket. *)
Lemma scenario_watches {A} (m : Sim A) (node : A -> nat) opts a w1 id app sink :
  let f := (output_dir opts ++ "/cwnd.csv")%string in
  let W1 := upd_events w1 [(tracer_delay, EvInstallCwndTracer (node a) f); (Seconds (simulationTime opts), EvStop)] in
  m empty_world = ROk a w1 -> w_events w1 = [] -> socket_type_ok w1 = true ->
  (tracer_delay <= Seconds (simulationTime opts))%Q ->
  w_apps w1 !! id = Some app -> app_kind app = BulkSend sink 0 ->
  forallb (fun j => negb (is_tcp_on W1 (node a) j && open_at_tracer W1 tracer_delay (node a) f j) || Nat.eqb j id)
          (seq 0 (length (w_apps w1))) = true ->
  is_tcp_on W1 (node a) id = true -> open_at_tracer W1 tracer_delay (node a) f id = true ->
  exists w', sbind m (fun a => sbind (InstallCwndTracing opts (node a)) (fun d => RunAndCollect opts d)) empty_world
             = ROk tt w' /\ watches_one_sender w' f.
Proof.
  intros f W1 E1 V1 S1 Ht Ha Hk Hall Htcp Hs.
  assert (Ht0 : (0 <= Seconds (simulationTime opts))%Q) by (rewrite tracer_delay_eq in Ht; lra).
  destruct (scenario_world m node opts a w1 E1 V1 S1 Ht0) as (w' & E & N & A' & V).
  assert (HW : w_apps w' = w_apps W1 /\ initial_pendings w' = initial_pendings W1)
    by (split; [exact A'|unfold initial_pendings, app_actions; rewrite V, A', N; reflexivity]).
  exists w'. split; [exact E|].
  apply (watches_one_sender_intro w' (node a) _ (Seconds (simulationTime opts)) id app sink V Ht);
    [rewrite A'; exact Ha|exact Hk| | |]; unfold is_tcp_on, open_at_tracer in *; rewrite ?(proj1 HW), ?(proj2 HW);
    assumption.
Qed.

Lemma SetupS2_world opts :
  QueueSizeValid (queueSize opts) = true ->
  exists w1, SetupS2 opts empty_world = ROk 0%nat w1 /\ w_nodes w1 = 6%nat /\
    w_apps w1 = [mkApp 2 Tcp (PacketSink (mkSock (ipv4 10 1 3 2) 5000)) 0 (Some (Seconds (simulationTime opts)));
                 mkApp 0 Tcp (BulkSend (mkSock (ipv4 10 1 3 2) 5000) 0) 0 (Some (Seconds (simulationTime opts)));
                 mkApp 3 Tcp (PacketSink (mkSock (ipv4 10 1 4 2) 5001)) 0 (Some (Seconds (simulationTime opts)));
                 mkApp 1 Tcp (BulkSend (mkSock (ipv4 10 1 4 2) 5001) 0) 0 (Some (Seconds (simulationTime opts)));
                 mkApp 3 Tcp (PacketSink (mkSock Ipv4Any 9000)) 5 (Some (Seconds (simulationTime opts)));
                 mkApp 0 Tcp (OnOff (mkSock (ipv4 10 1 4 2) 9000) "ns3::ConstantRandomVariable[Constant=0.2]"
                                "ns3::ExponentialRandomVariable[Mean=0.8]" 1200 "10Mbps") 6 (Some (Seconds (simulationTime opts)));
                 mkApp 1 Tcp (PacketSink (mkSock Ipv4Any 9000)) 5 (Some (Seconds (simulationTime opts)));
                 mkApp 2 Tcp (OnOff (mkSock (ipv4 10 1 2 1) 9000) "ns3::ConstantRandomVariable[Constant=0.2]"
                                "ns3::ExponentialRandomVariable[Mean=0.8]" 1200 "10Mbps") 6 (Some (Seconds (simulationTime opts)))] /\
    w_events w1 = [] /\ socket_type_ok w1 = true.
Proof.
  intros Hq. unfold SetupS2, SetQueue. rewrite Hq.
  eexists. split; [cbv -[Seconds]; reflexivity|]. split_and!; reflexivity.
Qed.

Lemma SetupS3_world opts :
  QueueSizeValid (queueSize opts) = true ->
  exists w1, SetupS3 opts empty_world = ROk 0%nat w1 /\ w_nodes w1 = 4%nat /\
    w_apps w1 = [mkApp 3 Tcp (PacketSink (mkSock (ipv4 10 10 3 2) 6000)) 0 (Some (Seconds (simulationTime opts)));
                 mkApp 0 Tcp (BulkSend (mkSock (ipv4 10 10 3 2) 6000) 0) 0 (Some (Seconds (simulationTime opts)));
                 mkApp 0 Udp (OnOff (mkSock (ipv4 10 10 3 2) 7000) "ns3::ConstantRandomVariable[Constant=1]"
                                "ns3::ConstantRandomVariable[Constant=0]" 1200 "15Mbps") 5 (Some (Seconds (simulationTime opts)));
                 mkApp 3 Udp (PacketSink (mkSock Ipv4Any 7000)) 5 (Some (Seconds (simulationTime opts)))] /\
    w_events w1 = [] /\ socket_type_ok w1 = true.
Proof.
  intros Hq. unfold SetupS3, SetQueue. rewrite Hq. destruct (Qltb 0 (lossRate opts));
    (eexists; split; [cbv -[Seconds]; reflexivity|]; split_and!; reflexivity).
Qed.

Lemma SetupS5_world opts :
  QueueSizeValid (queueSize opts) = true ->
  exists w1, SetupS5 opts empty_world = ROk 2%nat w1 /\ w_nodes w1 = 18%nat /\
    w_apps w1 = bulk_apps (seq 2 8) (seq 10 8) (map (fun i => ipv4 10 2 (Z.of_nat i + 1) 1) (seq 0 8))
                          0 (simulationTime opts) /\
    w_events w1 = [] /\ socket_type_ok w1 = true.
Proof.
  intros Hq. unfold SetupS5, SetQueue. rewrite Hq.
  eexists. split; [cbv -[Seconds]; reflexivity|]. split_and!; [reflexivity|cbv -[Seconds]; reflexivity|reflexivity..].
Qed.

(** The side conditions of [scenario_watches] on a concrete set-up. *)
Ltac watches_side A1 N1 Ht :=
  first [ rewrite A1; reflexivity
        | reflexivity
        | unfold is_tcp_on, open_at_tracer, initial_pendings, app_actions, tracer_pending;
          cbn [w_events w_apps w_nodes upd_events]; rewrite ?A1, ?N1; revert Ht; try change tracer_delay with (1 # 10);
          queue_cases; intros; reflexivity || lra ].

Lemma BuildScenarioS1_watches opts :
  (tracer_delay <= Seconds (simulationTime opts))%Q ->
  match BuildScenarioS1 opts empty_world with
  | ROk _ w' => watches_one_sender w' (output_dir opts ++ "/cwnd.csv")
  | RErr e _ => e = InvalidQueueSize (queueSize opts)
  end.
Proof.
  intros Ht. destruct (QueueSizeValid (queueSize opts)) eqn:Hq; [|exact (setup_fails_match _ _ _ _ (SetupS1_fails opts Hq))].
  destruct (SetupS1_world opts Hq) as (w1 & E1 & N1 & A1 & V1 & _ & S1).
  edestruct (scenario_watches (SetupS1 opts) (fun n => n) opts 2 w1 1) as (w' & E & Hw);
    [exact E1|exact V1|exact S1|exact Ht|..]; [watches_side A1 N1 Ht..|].
  change (BuildScenarioS1 opts empty_world) with
    (sbind (SetupS1 opts) (fun a => sbind (InstallCwndTracing opts a) (fun d => RunAndCollect opts d)) empty_world).
  rewrite E. exact Hw.
Qed.

Lemma BuildScenarioS2_watches opts :
  (tracer_delay <= Seconds (simulationTime opts))%Q ->
  match BuildScenarioS2 opts empty_world with
  | ROk _ w' => watches_one_sender w' (output_dir opts ++ "/cwnd.csv")
  | RErr e _ => e = InvalidQueueSize (queueSize opts)
  end.
Proof.
  intros Ht. destruct (QueueSizeValid (queueSize opts)) eqn:Hq; [|exact (setup_fails_match _ _ _ _ (SetupS2_fails opts Hq))].
  destruct (SetupS2_world opts Hq) as (w1 & E1 & N1 & A1 & V1 & S1).
  edestruct (scenario_watches (SetupS2 opts) (fun n => n) opts 0 w1 1) as (w' & E & Hw);
    [exact E1|exact V1|exact S1|exact Ht|..]; [watches_side A1 N1 Ht..|].
  change (BuildScenarioS2 opts empty_world) with
    (sbind (SetupS2 opts) (fun a => sbind (InstallCwndTracing opts a) (fun d => RunAndCollect opts d)) empty_world).
  rewrite E. exact Hw.
Qed.

Lemma BuildScenarioS3_watches opts :
  (tracer_delay <= Seconds (simulationTime opts))%Q ->
  match BuildScenarioS3 opts empty_world with
  | ROk _ w' => watches_one_sender w' (output_dir opts ++ "/cwnd.csv")
  | RErr e _ => e = InvalidQueueSize (queueSize opts)
  end.
Proof.
  intros Ht. destruct (QueueSizeValid (queueSize opts)) eqn:Hq; [|exact (setup_fails_match _ _ _ _ (SetupS3_fails opts Hq))].
  destruct (SetupS3_world opts Hq) as (w1 & E1 & N1 & A1 & V1 & S1).
  edestruct (scenario_watches (SetupS3 opts) (fun n => n) opts 0 w1 1) as (w' & E & Hw);
    [exact E1|exact V1|exact S1|exact Ht|..]; [watches_side A1 N1 Ht..|].
  change (BuildScenarioS3 opts empty_world) with
    (sbind (SetupS3 opts) (fun a => sbind (InstallCwndTracing opts a) (fun d => RunAndCollect opts d)) empty_world).
  rewrite E. exact Hw.
Qed.

Lemma BuildScenarioS5_watches opts :
  (tracer_delay <= Seconds (simulationTime opts))%Q ->
  match BuildScenarioS5 opts empty_world with
  | ROk _ w' => watches_one_sender w' (output_dir opts ++ "/cwnd.csv")
  | RErr e _ => e = InvalidQueueSize (queueSize opts)
  end.
Proof.
  intros Ht. destruct (QueueSizeValid (queueSize opts)) eqn:Hq; [|exact (setup_fails_match _ _ _ _ (SetupS5_fails opts Hq))].
  destruct (SetupS5_world opts Hq) as (w1 & E1 & N1 & A1 & V1 & S1).
  edestruct (scenario_watches (SetupS5 opts) (fun n => n) opts 2 w1 1) as (w' & E & Hw);
    [exact E1|exact V1|exact S1|exact Ht|..]; [watches_side A1 N1 Ht..|].
  change (BuildScenarioS5 opts empty_world) with
    (sbind (SetupS5 opts) (fun a => sbind (InstallCwndTracing opts a) (fun d => RunAndCollect opts d)) empty_world).
  rewrite E. exact Hw.
Qed.


(** C4: S1 builds the 2x2 dumbbell: routers 0 and 1 joined by the
    20Mbps/15ms bottleneck with the configured queue, leaves 2 and 3 on
    router 0 and 4 and 5 on router 1 over 100Mbps/1ms access links; the
    result is well built, every sink is installed before its sender, and
    the tracer watches left leaf 0 (node 2).
    If ns-3 cannot parse the queue size (a number and a unit such as
    "150p"), [SetQueue] aborts with [InvalidQueueSize] and nothing is built. *)
Theorem SetupS1_builds opts w :
  fresh_topology w ->
  match SetupS1 opts w with
  | ROk traced w' =>
      QueueSizeValid (queueSize opts) = true /\ traced = 2%nat /\ w_nodes w' = 6%nat /\
      w_links w' = [mkLink 0 1 "20Mbps" "15ms" (Some (queueSize opts));
                    mkLink 0 2 "100Mbps" "1ms" None; mkLink 0 3 "100Mbps" "1ms" None;
                    mkLink 1 4 "100Mbps" "1ms" None; mkLink 1 5 "100Mbps" "1ms" None] /\
      well_built w' = true /\ sinks_installed_first w' = true
  | RErr e _ => e = InvalidQueueSize (queueSize opts) /\ QueueSizeValid (queueSize opts) = false
  end.
Proof.
  intro_fresh w. unfold SetupS1, SetQueue.
  destruct (QueueSizeValid (queueSize opts)); cbv -[Seconds]; split_and!; reflexivity.
Qed.

(** C5: S2 builds the asymmetric dumbbell: left hosts 0 and 1 reach
    router 4 over a 1 ms and a 60 ms access link, right hosts 2 and 3
    hang off router 5, routers 4 and 5 share the 20Mbps/15ms bottleneck;
    the bulk flows and both web flows are wired to sinks that start no
    later and were installed first, and the tracer watches host 0.
    If ns-3 cannot parse the queue size (a number and a unit such as
    "150p"), [SetQueue] aborts with [InvalidQueueSize] and nothing is built. *)
Theorem SetupS2_builds opts w :
  fresh_topology w ->
  match SetupS2 opts w with
  | ROk traced w' =>
      QueueSizeValid (queueSize opts) = true /\ traced = 0%nat /\ w_nodes w' = 6%nat /\
      w_links w' = [mkLink 0 4 "100Mbps" "1ms" None; mkLink 1 4 "100Mbps" "60ms" None;
                    mkLink 5 2 "100Mbps" "1ms" None; mkLink 5 3 "100Mbps" "1ms" None;
                    mkLink 4 5 "20Mbps" "15ms" (Some (queueSize opts))] /\
      well_built w' = true /\ sinks_installed_first w' = true
  | RErr e _ => e = InvalidQueueSize (queueSize opts) /\ QueueSizeValid (queueSize opts) = false
  end.
Proof.
  intro_fresh w. unfold SetupS2, SetQueue.
  destruct (QueueSizeValid (queueSize opts)); cbv -[Seconds]; split_and!; reflexivity.
Qed.

(** C6: S3 builds the chain 0-1-2-3 with the 40Mbps/10ms bottleneck
    (and the configured queue) in the middle; the packet error model is
    on the bottleneck's receiving device exactly when the loss rate is
    positive; the result is well built and the tracer watches node 0.
    If ns-3 cannot parse the queue size (a number and a unit such as
    "150p"), [SetQueue] aborts with [InvalidQueueSize] and nothing is built. *)
Theorem SetupS3_builds opts w :
  fresh_topology w ->
  match SetupS3 opts w with
  | ROk traced w' =>
      QueueSizeValid (queueSize opts) = true /\ traced = 0%nat /\ w_nodes w' = 4%nat /\
      w_links w' = [mkLink 0 1 "100Mbps" "5ms" None; mkLink 1 2 "40Mbps" "10ms" (Some (queueSize opts));
                    mkLink 2 3 "100Mbps" "5ms" None] /\
      map dev_rx_error (w_devices w') =
        [None; None; None; if Qltb 0 (lossRate opts) then Some (lossRate opts) else None; None; None] /\
      well_built w' = true
  | RErr e _ => e = InvalidQueueSize (queueSize opts) /\ QueueSizeValid (queueSize opts) = false
  end.
Proof.
  intro_fresh w. unfold SetupS3, SetQueue.
  destruct (QueueSizeValid (queueSize opts)), (Qltb 0 (lossRate opts)); cbv -[Seconds]; split_and!; reflexivity.
Qed.

(** C8: S5 builds the 8x8 dumbbell (18 nodes, 17 links): its bottleneck
    is 100Mbps/20ms and its access links 100Mbps/2ms, not S1's link
    classes; the result is well built and the tracer watches node 2.
    If ns-3 cannot parse the queue size (a number and a unit such as
    "150p"), [SetQueue] aborts with [InvalidQueueSize] and nothing is built. *)
Theorem SetupS5_builds opts w :
  fresh_topology w ->
  match SetupS5 opts w with
  | ROk traced w' =>
      QueueSizeValid (queueSize opts) = true /\ traced = 2%nat /\ w_nodes w' = 18%nat /\
      w_links w' = mkLink 0 1 "100Mbps" "20ms" (Some (queueSize opts)) ::
                   map (fun i => mkLink 0 (2 + i) "100Mbps" "2ms" None) (seq 0 8) ++
                   map (fun i => mkLink 1 (10 + i) "100Mbps" "2ms" None) (seq 0 8) /\
      well_built w' = true /\ sinks_installed_first w' = true
  | RErr e _ => e = InvalidQueueSize (queueSize opts) /\ QueueSizeValid (queueSize opts) = false
  end.
Proof.
  intro_fresh w. unfold SetupS5, SetQueue.
  destruct (QueueSizeValid (queueSize opts)); cbv -[Seconds]; split_and!; reflexivity.
Qed.

(** C12: in S3 the UDP cross-traffic source is installed before the UDP
    sink it sends to (lines 368 and 373): every flow is still wired to a
    sink that starts no later, but the installer does not install each
    sink before its source, as the spec's traffic installer does (when
    the queue size parses; otherwise [SetQueue] aborts first). *)
Theorem SetupS3_udp_source_first opts w :
  fresh_topology w ->
  match SetupS3 opts w with
  | ROk _ w' => flows_wired w' = true /\ sinks_installed_first w' = false
  | RErr e _ => e = InvalidQueueSize (queueSize opts)
  end.
Proof.
  intro_fresh w. unfold SetupS3, SetQueue.
  destruct (QueueSizeValid (queueSize opts)), (Qltb 0 (lossRate opts)); cbv -[Seconds];
    first [split; reflexivity | reflexivity].
Qed.

(** C16: in S1, when the run lasts at least the tracer's 0.1 s, the cwnd
    tracer is connected to exactly one socket: that of the bulk sender
    of flow 0 (application 1, on left leaf 0), whose socket opened at
    0 s; the trace file is the run directory's [cwnd.csv].  The only
    abort left is [SetQueue]'s, on a queue size ns-3 cannot parse. *)
Theorem BuildScenarioS1_tracer_sender opts f id :
  (tracer_delay <= Seconds (simulationTime opts))%Q ->
  match BuildScenarioS1 opts empty_world with
  | ROk _ w' =>
      ((f, id) ∈ rs_traced (Run w') <-> f = (output_dir opts ++ "/cwnd.csv")%string /\ id = 1%nat) /\
      exists a, w_apps w' !! 1%nat = Some a /\ app_node a = 2%nat /\
                app_kind a = BulkSend (mkSock (ipv4 10 2 1 1) 5000) 0
  | RErr e _ => e = InvalidQueueSize (queueSize opts)
  end.
Proof.
  intros Ht. destruct (QueueSizeValid (queueSize opts)) eqn:Hq; [|exact (setup_fails_match _ _ _ _ (SetupS1_fails opts Hq))].
  assert (Ht0 : (0 <= Seconds (simulationTime opts))%Q) by (rewrite tracer_delay_eq in Ht; lra).
  destruct (BuildScenarioS1_world opts Hq Ht0) as (w' & -> & N & A & V).
  split; [|eexists; rewrite A; split_and!; reflexivity].
  rewrite (one_tracer_traced w' _ _ _ _ V Ht). split.
  - intros (-> & Htcp & _). split; [reflexivity|].
    apply (forallb_only (is_tcp_on w' 2) (length (w_apps w')) 1 id);
      [unfold is_tcp_on; rewrite A; reflexivity|exact Htcp|exact (is_tcp_on_lt _ _ _ Htcp)].
  - intros [-> ->]. split_and!; [reflexivity|unfold is_tcp_on; rewrite A; reflexivity|].
    unfold open_at_tracer, initial_pendings, app_actions, tracer_pending. rewrite V, A, N.
    revert Ht. rewrite tracer_delay_eq. queue_cases; intros; reflexivity || lra.
Qed.

(** ** Witnesses *)

Lemma SetupS1_builds_witness :
  fresh_topology empty_world /\
  match SetupS1 RuntimeOptions_default empty_world with
  | ROk _ w' => well_built w' = true
  | RErr _ _ => False
  end.
Proof.
  split; [repeat split|].
  pose proof (SetupS1_builds RuntimeOptions_default empty_world ltac:(repeat split)) as H.
  destruct (SetupS1 RuntimeOptions_default empty_world); [|vm_compute in H; destruct H; discriminate].
  destruct H as (_ & _ & _ & _ & H & _). exact H.
Defined.

Lemma SetupS2_builds_witness :
  fresh_topology empty_world /\
  match SetupS2 RuntimeOptions_default empty_world with
  | ROk _ w' => well_built w' = true
  | RErr _ _ => False
  end.
Proof.
  split; [repeat split|].
  pose proof (SetupS2_builds RuntimeOptions_default empty_world ltac:(repeat split)) as H.
  destruct (SetupS2 RuntimeOptions_default empty_world); [|vm_compute in H; destruct H; discriminate].
  destruct H as (_ & _ & _ & _ & H & _). exact H.
Defined.

Lemma SetupS3_builds_witness :
  fresh_topology empty_world /\
  match SetupS3 RuntimeOptions_default empty_world with
  | ROk _ w' => well_built w' = true
  | RErr _ _ => False
  end.
Proof.
  split; [repeat split|].
  pose proof (SetupS3_builds RuntimeOptions_default empty_world ltac:(repeat split)) as H.
  destruct (SetupS3 RuntimeOptions_default empty_world); [|vm_compute in H; destruct H; discriminate].
  destruct H as (_ & _ & _ & _ & _ & H). exact H.
Defined.


Lemma SetupS5_builds_witness :
  fresh_topology empty_world /\
  match SetupS5 RuntimeOptions_default empty_world with
  | ROk _ w' => well_built w' = true
  | RErr _ _ => False
  end.
Proof.
  split; [repeat split|].
  pose proof (SetupS5_builds RuntimeOptions_default empty_world ltac:(repeat split)) as H.
  destruct (SetupS5 RuntimeOptions_default empty_world); [|vm_compute in H; destruct H; discriminate].
  destruct H as (_ & _ & _ & _ & H & _). exact H.
Defined.

Lemma SetupS3_udp_source_first_witness :
  fresh_topology empty_world /\
  match SetupS3 RuntimeOptions_default empty_world with
  | ROk _ w' => sinks_installed_first w' = false
  | RErr _ _ => False
  end.
Proof.
  split; [repeat split|].
  pose proof (SetupS3_udp_source_first RuntimeOptions_default empty_world ltac:(repeat split)) as H.
  destruct (SetupS3 RuntimeOptions_default empty_world) eqn:E; [|vm_compute in E; discriminate].
  destruct H as (_ & H). exact H.
Defined.


Lemma BuildScenarioS1_tracer_sender_witness :
  (tracer_delay <= Seconds (simulationTime RuntimeOptions_default))%Q /\
  match BuildScenarioS1 RuntimeOptions_default empty_world with
  | ROk _ w' => ("results/S1/TcpCubic/run-1/cwnd.csv", 1%nat) ∈ rs_traced (Run w')
  | RErr _ _ => False
  end.
Proof.
  assert (Ht : (tracer_delay <= Seconds (simulationTime RuntimeOptions_default))%Q) by (vm_compute; discriminate).
  split; [exact Ht|].
  pose proof (BuildScenarioS1_tracer_sender RuntimeOptions_default "results/S1/TcpCubic/run-1/cwnd.csv" 1 Ht) as H.
  destruct (BuildScenarioS1 RuntimeOptions_default empty_world) eqn:E; [|vm_compute in E; discriminate].
  destruct H as [H _]. apply H. split; reflexivity.
Defined.
