(* ===== verification/Cellular.v ===== *)
(** * S4: the cellular scenario with a scheduled blockage

    [BuildScenarioS4] (tcp_compare.cc 440-575).  The LTE radio and the
    packet core are ns-3's: the model keeps only what the driver relies
    on.  The EPC helper owns one gateway node (the PGW, with IPv4 and the
    UE-side gateway address 7.0.0.1 on its tunnel device) and hands out
    UE addresses from 7.0.0.0/8; an eNB device gets an S1 link to the
    gateway addressed from 10.0.0.0/30.  Mobility (positions) and the
    radio channel are not modelled. *)

From Stdlib Require Import ZArith QArith Lqa String.
From stdpp Require Import base list strings gmap.
From S2P Require Import Prelude Addr World Net Engine Wiring Options Dumbbell Traffic Run Scenarios.

(** ** The EPC helper *)

Record EpcHelper := mkEpc {
  epc_pgw : nat;
  epc_ueHelper : Ipv4AddressHelper;   (** 7.0.0.0/8, after the gateway's address *)
  epc_s1uHelper : Ipv4AddressHelper;  (** 10.0.0.0/30, one network per eNB *)
  epc_gateway : Z                     (** [GetUeDefaultGatewayAddress] *)
}.

(** A device that is not a point-to-point device (LTE radio or the
    gateway's tunnel), on node [n]. *)
Definition AddLteDevice (n : nat) (k : DevKind) : Sim nat :=
  fun w =>
    let d := length (w_devices w) in
    ROk d (upd_log (upd_devices w (w_devices w ++ [mkDevice n k None])) (w_log w ++ [EInstallLteDevice d])).

(** [CreateObject<PointToPointEpcHelper> ()]: the gateway node with its
    stack and its tunnel device addressed 7.0.0.1. *)
Definition MakeEpcHelper : Sim EpcHelper :=
  let! pgwC := CreateNodes 1 in
  let! pgw := Get pgwC 0 in
  InstallStack pgw;;!
  let! tun := AddLteDevice pgw DevTunnel in
  let! ueH := helper_or_abort (SetBase "7.0.0.0" "255.0.0.0" "0.0.0.1") in
  let! '(tunIf, ueH) := Assign ueH [tun] in
  let! gw := GetAddress tunIf 0 in
  let! s1uH := helper_or_abort (SetBase "10.0.0.0" "255.255.255.252" "0.0.0.1") in
  sret (mkEpc pgw ueH s1uH gw).

(** [lteHelper->InstallEnbDevice (enbNodes)]: an eNB device per node, and
    the EPC's S1 link from the eNB to the gateway. *)
Definition enb_device (epc : EpcHelper) (enb : nat) : Sim (nat * EpcHelper) :=
  let! dev := AddLteDevice enb DevLteEnb in
  InstallStack enb;;!
  let! s1 := P2PInstall (p2p "10Gbps" "0ms") enb (epc_pgw epc) in
  let! '(_, s1uH) := Assign (epc_s1uHelper epc) s1 in
  sret (dev, mkEpc (epc_pgw epc) (epc_ueHelper epc) (NewNetwork s1uH) (epc_gateway epc)).

Fixpoint InstallEnbDevice (epc : EpcHelper) (enbs : Container) : Sim (Container * EpcHelper) :=
  match enbs with
  | [] => sret ([], epc)
  | n :: ns =>
      let! '(d, epc1) := enb_device epc n in
      let! '(ds, epc2) := InstallEnbDevice epc1 ns in
      sret (d :: ds, epc2)
  end.

(** [lteHelper->InstallUeDevice (ueNodes)]. *)
Definition InstallUeDevice (ues : Container) : Sim Container :=
  smap (fun n => AddLteDevice n DevLteUe) ues.

(** [epcHelper->AssignUeIpv4Address (ueDevices)]. *)
Definition AssignUeIpv4Address (epc : EpcHelper) (devs : Container)
  : Sim (list (nat * nat) * EpcHelper) :=
  let! '(ifs, ueH) := Assign (epc_ueHelper epc) devs in
  sret (ifs, mkEpc (epc_pgw epc) ueH (epc_s1uHelper epc) (epc_gateway epc)).

(** [lteHelper->Attach (ueDevice, enbDevice)]. *)
Definition Attach (ueDev enbDev : nat) : Sim unit := emit (EAttach ueDev enbDev).

(** ** The scenario *)

(** The blockage's start, [Seconds (30.0)]. *)
Definition blockStart : Time := Seconds 30.

(** Lines 443-546: the topology and the traffic; returns the remote host
    and [videoApp]. *)
Definition SetupS4 (opts : RuntimeOptions) : Sim (nat * option nat) :=
  let! epcHelper := MakeEpcHelper in
  let! gnbNodes := CreateNodes 1 in
  let! ueNodes := CreateNodes 1 in
  let pgw := epc_pgw epcHelper in
  let! remoteHostContainer := CreateNodes 1 in
  let! remoteHost := Get remoteHostContainer 0 in
  InstallStacksOn remoteHostContainer;;!
  let! internetDevices := P2PInstall (p2p "10Gbps" "2ms") pgw remoteHost in
  let! ipv4h := helper_or_abort (SetBase "1.0.0.0" "255.0.0.0" "0.0.0.1") in
  let! '(internetIfaces, _) := Assign ipv4h internetDevices in
  AddRoute (mkRoute remoteHost (Ipv4Address "7.0.0.0") (Ipv4Mask "255.0.0.0") None 1);;!
  let! '(enbDevices, epcHelper) := InstallEnbDevice epcHelper gnbNodes in
  let! ueDevices := InstallUeDevice ueNodes in
  InstallStacksOn ueNodes;;!
  let! '(ueIpIfaces, epcHelper) := AssignUeIpv4Address epcHelper ueDevices in
  sfor ueNodes (fun u => AddRoute (mkRoute u 0 0 (Some (epc_gateway epcHelper)) 1));;!
  let! enb0 := Get enbDevices 0 in
  sfor ueDevices (fun d => Attach d enb0);;!
  let videoPort := 10000%Z in
  let tcpPort := 10001%Z in
  let! ue0 := Get ueNodes 0 in
  let! videoSink := SinkInstall (mkSinkHelper "ns3::TcpSocketFactory" (mkSock Ipv4Any videoPort)) ue0 in
  AppsStart videoSink (Seconds 0);;! AppsStop videoSink (Seconds (simulationTime opts));;!
  let! ueIp := GetAddress ueIpIfaces 0 in
  let videoSourceHelper :=
    SetOffTime (SetOnTime (SetPacketSize (SetRate
      (MakeOnOffHelper "ns3::TcpSocketFactory" (mkSock ueIp videoPort)) "50Mbps") 1316)
      "ns3::ConstantRandomVariable[Constant=1]") "ns3::ConstantRandomVariable[Constant=0]" in
  let! videoSource := OnOffInstall videoSourceHelper remoteHost in
  AppsStart videoSource (Seconds 1);;! AppsStop videoSource (Seconds (simulationTime opts));;!
  let! videoId := Get videoSource 0 in
  let! videoApp := fun w => ROk (AsOnOff w videoId) w in
  let! tcpSink := SinkInstall (mkSinkHelper "ns3::TcpSocketFactory" (mkSock Ipv4Any tcpPort)) remoteHost in
  AppsStart tcpSink (Seconds 0);;! AppsStop tcpSink (Seconds (simulationTime opts));;!
  let! remoteIp := GetAddress internetIfaces 1 in
  let! bulkApp := BulkInstall (SetMaxBytes (MakeBulkSendHelper "ns3::TcpSocketFactory" (mkSock remoteIp tcpPort)) 0) ue0 in
  AppsStart bulkApp (Seconds 5);;! AppsStop bulkApp (Seconds (simulationTime opts));;!
  sret (remoteHost, videoApp).

(** Lines 553-557: the collapse at [blockStart] and the restoration at
    [blockStart + blockDuration]. *)
Definition ScheduleBlockage (opts : RuntimeOptions) (videoApp : option nat) : Sim unit :=
  let blockDuration := Seconds (blockageDuration opts) in
  Schedule blockStart (EvSetOnOffRate videoApp "1bps");;!
  Schedule (blockStart + blockDuration)%Q (EvSetOnOffRate videoApp "50Mbps").

Definition BuildScenarioS4 (opts : RuntimeOptions) : Sim unit :=
  let! '(remoteHost, videoApp) := SetupS4 opts in
  let! outputDir := InstallCwndTracing opts remoteHost in
  ScheduleBlockage opts videoApp;;!
  RunAndCollect opts outputDir.

(** ** Lemmas *)

Lemma SetupS4_ok opts : setup_ok (SetupS4 opts).
Proof. intros w. intro_fresh w. setup_ok_run. Qed.

Lemma blockStart_eq : blockStart = 30%Q.
Proof. reflexivity. Qed.

(** The blockage is a step between tracer and run: it aborts exactly
    when the restoration is in the past, and schedules no stop. *)
Lemma ScheduleBlockage_mid opts :
  mid_ok (fun a : nat * option nat => ScheduleBlockage opts a.2)
    (if Qltb (blockStart + Seconds (blockageDuration opts)) 0
     then Some (NegativeDelay (blockStart + Seconds (blockageDuration opts))) else None).
Proof.
  intros [? v] w. unfold ScheduleBlockage, sbind, Schedule. replace (Qltb blockStart 0) with false by reflexivity.
  destruct (Qltb (blockStart + Seconds (blockageDuration opts)) 0); eexists; (split; [reflexivity|]);
    destruct w; simpl; (split_and!; [reflexivity..|]); eexists; (split; [rewrite <- ?app_assoc; reflexivity|]);
    repeat constructor; discriminate.
Qed.

Lemma ScheduleBlockage_log opts v w w' :
  ScheduleBlockage opts v w = ROk tt w' ->
  exists L, w_log w' = w_log w ++ L /\ Forall (fun e => setup_effect e = false) L.
Proof.
  unfold ScheduleBlockage, sbind, Schedule. replace (Qltb blockStart 0) with false by reflexivity.
  destruct (Qltb (blockStart + Seconds (blockageDuration opts)) 0); intros E; [discriminate|].
  injection E as <-. eexists. split; [simpl; rewrite <- app_assoc; reflexivity|].
  repeat constructor.
Qed.

Lemma ScheduleBlockage_ok opts v w :
  (0 <= blockStart + Seconds (blockageDuration opts))%Q ->
  exists w', ScheduleBlockage opts v w = ROk tt w' /\
    w_dirs w' = w_dirs w /\ w_files w' = w_files w /\
    w_events w' = w_events w ++ [(blockStart, EvSetOnOffRate v "1bps");
                                 ((blockStart + Seconds (blockageDuration opts))%Q, EvSetOnOffRate v "50Mbps")] /\
    w_nodes w' = w_nodes w /\ w_apps w' = w_apps w /\ w_config w' = w_config w.
Proof.
  intros Hd.
  assert (Hs : Qltb (blockStart + Seconds (blockageDuration opts)) 0 = false).
  { destruct (Qltb _ _) eqn:E; [|reflexivity]. apply Qltb_iff in E. exfalso. apply (Qlt_not_le _ _ E Hd). }
  unfold ScheduleBlockage, sbind, Schedule. rewrite Hs. simpl.
  eexists. split; [reflexivity|]. destruct w; simpl. rewrite <- app_assoc. auto 10.
Qed.

(** ** The run of S4 *)

(** The applications of S4: the video sink on the UE (0), the video
    source on the remote host (1), the TCP sink on the remote host (2)
    and the bulk sender on the UE (3). *)
Lemma SetupS4_world opts :
  exists w1, SetupS4 opts empty_world = ROk (3%nat, Some 1%nat) w1 /\ w_nodes w1 = 4%nat /\
    w_apps w1 = [mkApp 2 Tcp (PacketSink (mkSock Ipv4Any 10000)) 0 (Some (Seconds (simulationTime opts)));
                 mkApp 3 Tcp (OnOff (mkSock (ipv4 7 0 0 2) 10000) "ns3::ConstantRandomVariable[Constant=1]"
                                "ns3::ConstantRandomVariable[Constant=0]" 1316 "50Mbps") 1 (Some (Seconds (simulationTime opts)));
                 mkApp 3 Tcp (PacketSink (mkSock Ipv4Any 10001)) 0 (Some (Seconds (simulationTime opts)));
                 mkApp 2 Tcp (BulkSend (mkSock (ipv4 1 0 0 2) 10001) 0) 5 (Some (Seconds (simulationTime opts)))] /\
    w_events w1 = [] /\ w_dirs w1 = [] /\ w_files w1 = [] /\ socket_type_ok w1 = true.
Proof. eexists. split; [cbv -[Seconds]; reflexivity|]. split_and!; reflexivity. Qed.

Lemma BuildScenarioS4_world opts :
  (0 <= Seconds (simulationTime opts))%Q -> (0 <= blockStart + Seconds (blockageDuration opts))%Q ->
  exists w', BuildScenarioS4 opts empty_world = ROk tt w' /\ w_nodes w' = 4%nat /\
    w_apps w' = [mkApp 2 Tcp (PacketSink (mkSock Ipv4Any 10000)) 0 (Some (Seconds (simulationTime opts)));
                 mkApp 3 Tcp (OnOff (mkSock (ipv4 7 0 0 2) 10000) "ns3::ConstantRandomVariable[Constant=1]"
                                "ns3::ConstantRandomVariable[Constant=0]" 1316 "50Mbps") 1 (Some (Seconds (simulationTime opts)));
                 mkApp 3 Tcp (PacketSink (mkSock Ipv4Any 10001)) 0 (Some (Seconds (simulationTime opts)));
                 mkApp 2 Tcp (BulkSend (mkSock (ipv4 1 0 0 2) 10001) 0) 5 (Some (Seconds (simulationTime opts)))] /\
    w_events w' = [(tracer_delay, EvInstallCwndTracer 3 (output_dir opts ++ "/cwnd.csv"));
                   (blockStart, EvSetOnOffRate (Some 1%nat) "1bps");
                   ((blockStart + Seconds (blockageDuration opts))%Q, EvSetOnOffRate (Some 1%nat) "50Mbps");
                   (Seconds (simulationTime opts), EvStop)].
Proof.
  intros Ht Hd. destruct (SetupS4_world opts) as (w1 & E1 & N1 & A1 & V1 & D1 & F1 & S1).
  unfold BuildScenarioS4, sbind at 1. rewrite E1. unfold sbind at 1. rewrite InstallCwndTracing_eq.
  unfold sbind at 1.
  match goal with |- context [ScheduleBlockage opts ?v ?w0] =>
    destruct (ScheduleBlockage_ok opts v w0 Hd) as (w2 & E2 & D2 & F2 & V2 & N2 & A2 & C2) end.
  rewrite E2.
  destruct (RunAndCollect_ok_st opts (output_dir opts) w2) as (w3 & E3 & F3 & D3 & N3 & L3 & A3 & V3 & _);
    [rewrite D2; cbn [w_dirs upd_log upd_events upd_files upd_dirs]; rewrite D1; left|exact Ht
    |rewrite <- S1; apply socket_type_ok_frame; rewrite C2; reflexivity|].
  exists w3. rewrite E3. split; [reflexivity|]. clear E1 E2 E3.
  rewrite N3, A3, V3, N2, A2, V2. destruct w1; simpl in N1, A1, V1 |- *. subst. split_and!; reflexivity.
Qed.

(** The stop of S4 is its fourth scheduling call. *)
Lemma S4_stop opts w' :
  w_events w' = [(tracer_delay, EvInstallCwndTracer 3 (output_dir opts ++ "/cwnd.csv"));
                 (blockStart, EvSetOnOffRate (Some 1%nat) "1bps");
                 ((blockStart + Seconds (blockageDuration opts))%Q, EvSetOnOffRate (Some 1%nat) "50Mbps");
                 (Seconds (simulationTime opts), EvStop)] ->
  mkPending (Seconds (simulationTime opts)) 3 (Fire EvStop) ∈ initial_pendings w' /\
  (forall p, p ∈ initial_pendings w' -> is_stop p = true -> p = mkPending (Seconds (simulationTime opts)) 3 (Fire EvStop)).
Proof.
  intros V. apply single_stop; rewrite V; [reflexivity|].
  intros j t' H. destruct j as [|[|[|[|j]]]]; simpl in H; try discriminate; reflexivity.
Qed.

(** The video source's rate at [t]: the last of the two rate changes
    that has run by then. *)
Lemma BuildScenarioS4_rate opts t :
  (0 <= Seconds (simulationTime opts))%Q -> (0 <= blockStart + Seconds (blockageDuration opts))%Q ->
  exists w', BuildScenarioS4 opts empty_world = ROk tt w' /\
  onoff_rate (rs_world (state_at w' t)) 1 =
  Some (last_of (rate_write 1)
          (sort_pendings (List.filter
             (fun p => Qleb (p_time p) t && negb (key_ltb (mkPending (Seconds (simulationTime opts)) 3 (Fire EvStop)) p))
             [mkPending blockStart 1 (Fire (EvSetOnOffRate (Some 1%nat) "1bps"));
              mkPending (blockStart + Seconds (blockageDuration opts))%Q 2 (Fire (EvSetOnOffRate (Some 1%nat) "50Mbps"))]))
          "50Mbps").
Proof.
  intros Ht Hd. destruct (BuildScenarioS4_world opts Ht Hd) as (w' & E & N & A & V).
  exists w'. split; [exact E|]. destruct (S4_stop opts w' V) as [HS Hu].
  rewrite (state_at_rate w' t 1 "50Mbps" _ ltac:(unfold onoff_rate; rewrite A; reflexivity) HS eq_refl Hu).
  rewrite filter_initial_fire by (intros p; unfold rate_write; destruct (p_act p); simpl; congruence).
  rewrite V. reflexivity.
Qed.

(** C7: S4 builds the access network: gateway 0, eNB 1, UE 2, remote
    host 3; the remote host's only static route sends 7.0.0.0/8 out of
    its interface 1 (its link to the gateway), the UE's default route
    goes to the gateway 7.0.0.1; the video source is on/off application
    1 on the remote host; the result is well built. *)
Theorem SetupS4_builds opts w :
  fresh_topology w ->
  match SetupS4 opts w with
  | ROk res w' =>
      res = (3%nat, Some 1%nat) /\ w_nodes w' = 4%nat /\
      w_links w' = [mkLink 0 3 "10Gbps" "2ms" None; mkLink 1 0 "10Gbps" "0ms" None] /\
      w_routes w' = [mkRoute 3 (ipv4 7 0 0 0) (ipv4 255 0 0 0) None 1;
                     mkRoute 2 0 0 (Some (ipv4 7 0 0 1)) 1] /\
      well_built w' = true /\ sinks_installed_first w' = true
  | RErr _ _ => False
  end.
Proof. intro_fresh w. cbv -[Seconds]. split_and!; reflexivity. Qed.

(** C13: in S4 with a non-negative blockage duration, the video
    source's rate at any time [t] up to the end of the run is the
    collapse value "1bps" exactly when [blockStart <= t < blockStart +
    blockageDuration], and its steady "50Mbps" otherwise. *)
Theorem BuildScenarioS4_blockage_rate opts t :
  (0 <= Seconds (simulationTime opts))%Q -> (0 <= Seconds (blockageDuration opts))%Q -> (t <= Seconds (simulationTime opts))%Q ->
  match BuildScenarioS4 opts empty_world with
  | ROk _ w' => onoff_rate (rs_world (state_at w' t)) 1 =
                Some (if Qleb blockStart t && Qltb t (blockStart + Seconds (blockageDuration opts))
                      then "1bps" else "50Mbps")
  | RErr _ _ => False
  end.
Proof.
  intros Ht Hd Htt.
  destruct (BuildScenarioS4_rate opts t Ht ltac:(rewrite blockStart_eq; lra)) as (w' & -> & ->).
  rewrite blockStart_eq in *. queue_cases; reflexivity || lra.
Qed.

(** C14: the code does not check that the blockage duration is
    positive: with a negative one (restoration time still not in the
    past) the restoration runs before the collapse, and from
    [blockStart] to the end of the run the video source stays at
    "1bps". *)
Theorem BuildScenarioS4_negative_blockage opts t :
  (0 <= Seconds (simulationTime opts))%Q -> (Seconds (blockageDuration opts) < 0)%Q ->
  (0 <= blockStart + Seconds (blockageDuration opts))%Q ->
  (blockStart <= t)%Q -> (t <= Seconds (simulationTime opts))%Q ->
  match BuildScenarioS4 opts empty_world with
  | ROk _ w' => onoff_rate (rs_world (state_at w' t)) 1 = Some "1bps"
  | RErr _ _ => False
  end.
Proof.
  intros Ht Hd Hd' H1 H2.
  destruct (BuildScenarioS4_rate opts t Ht Hd') as (w' & -> & ->).
  rewrite blockStart_eq in *. queue_cases; reflexivity || lra.
Qed.

(** C15: the cwnd tracer of S4, attached to the remote host at 0.1 s,
    is connected to no sending socket: the video source starts at 1 s,
    after the tracer, so the only socket it watches is the listening
    socket of the TCP sink on port 10001. *)
Theorem BuildScenarioS4_tracer_sink opts f id :
  (0 <= Seconds (simulationTime opts))%Q -> (0 <= blockStart + Seconds (blockageDuration opts))%Q ->
  match BuildScenarioS4 opts empty_world with
  | ROk _ w' => (f, id) ∈ rs_traced (Run w') ->
      exists a, w_apps w' !! id = Some a /\ app_kind a = PacketSink (mkSock Ipv4Any 10001)
  | RErr _ _ => False
  end.
Proof.
  intros Ht Hd. destruct (BuildScenarioS4_world opts Ht Hd) as (w' & -> & N & A & V).
  destruct (S4_stop opts w' V) as [HS Hu]. intros Htr.
  apply (Run_traced w' _ f id HS eq_refl Hu) in Htr as (P & n & HP & HPS & HPa & Htcp & Hs).
  pose proof (fire_initial w' P _ HP HPa) as HPu. rewrite V in HPu. simpl in HPu.
  repeat (apply elem_of_cons in HPu as [->|HPu]; [simpl in HPa; try discriminate|]);
    [|apply elem_of_nil in HPu; contradiction].
  injection HPa as <- <-. unfold is_tcp_on in Htcp. rewrite A in Htcp.
  destruct id as [|[|[|[|id]]]]; simpl in Htcp; try discriminate.
  - exfalso. revert Hs. unfold initial_pendings, app_actions. rewrite V, A, N.
    rewrite tracer_delay_eq. queue_cases; discriminate || lra.
  - eexists. rewrite A. split; reflexivity.
Qed.

(** ** Witnesses *)

Lemma SetupS4_builds_witness :
  fresh_topology empty_world /\
  match SetupS4 RuntimeOptions_default empty_world with
  | ROk _ w' => well_built w' = true
  | RErr _ _ => False
  end.
Proof.
  split; [repeat split|].
  pose proof (SetupS4_builds RuntimeOptions_default empty_world ltac:(repeat split)) as H.
  destruct (SetupS4 RuntimeOptions_default empty_world); [|contradiction].
  destruct H as (_ & _ & _ & _ & H & _). exact H.
Defined.

Lemma BuildScenarioS4_blockage_rate_witness :
  (0 <= Seconds (simulationTime RuntimeOptions_default))%Q /\ (0 <= Seconds (blockageDuration RuntimeOptions_default))%Q /\
  (301 # 10 <= Seconds (simulationTime RuntimeOptions_default))%Q /\
  match BuildScenarioS4 RuntimeOptions_default empty_world with
  | ROk _ w' => onoff_rate (rs_world (state_at w' (301 # 10))) 1 = Some "1bps"
  | RErr _ _ => False
  end.
Proof.
  assert (H1 : (0 <= Seconds (simulationTime RuntimeOptions_default))%Q) by (vm_compute; discriminate).
  assert (H2 : (0 <= Seconds (blockageDuration RuntimeOptions_default))%Q) by (vm_compute; discriminate).
  assert (H3 : (301 # 10 <= Seconds (simulationTime RuntimeOptions_default))%Q) by (vm_compute; discriminate).
  split_and!; [exact H1|exact H2|exact H3|].
  pose proof (BuildScenarioS4_blockage_rate RuntimeOptions_default (301 # 10) H1 H2 H3) as H.
  destruct (BuildScenarioS4 RuntimeOptions_default empty_world); [|contradiction].
  rewrite H. vm_compute. reflexivity.
Defined.

(** A run asked for a blockage of -5 s. *)
Definition opts_negative_blockage : RuntimeOptions :=
  mkOptions "S4" "TcpCubic" "150p" 120 20 1 0 (-5) true.

Lemma BuildScenarioS4_negative_blockage_witness :
  (0 <= Seconds (simulationTime opts_negative_blockage))%Q /\ (Seconds (blockageDuration opts_negative_blockage) < 0)%Q /\
  (0 <= blockStart + Seconds (blockageDuration opts_negative_blockage))%Q /\
  (blockStart <= 60)%Q /\ (60 <= Seconds (simulationTime opts_negative_blockage))%Q /\
  match BuildScenarioS4 opts_negative_blockage empty_world with
  | ROk _ w' => onoff_rate (rs_world (state_at w' 60)) 1 = Some "1bps"
  | RErr _ _ => False
  end.
Proof.
  assert (H1 : (0 <= Seconds (simulationTime opts_negative_blockage))%Q) by (vm_compute; discriminate).
  assert (H2 : (Seconds (blockageDuration opts_negative_blockage) < 0)%Q) by (vm_compute; reflexivity).
  assert (H3 : (0 <= blockStart + Seconds (blockageDuration opts_negative_blockage))%Q) by (vm_compute; discriminate).
  assert (H4 : (blockStart <= 60)%Q) by (vm_compute; discriminate).
  assert (H5 : (60 <= Seconds (simulationTime opts_negative_blockage))%Q) by (vm_compute; discriminate).
  split_and!; [exact H1|exact H2|exact H3|exact H4|exact H5|].
  exact (BuildScenarioS4_negative_blockage opts_negative_blockage 60 H1 H2 H3 H4 H5).
Defined.

Lemma BuildScenarioS4_tracer_sink_witness :
  (0 <= Seconds (simulationTime RuntimeOptions_default))%Q /\
  (0 <= blockStart + Seconds (blockageDuration RuntimeOptions_default))%Q /\
  match BuildScenarioS4 RuntimeOptions_default empty_world with
  | ROk _ w' => ("results/S1/TcpCubic/run-1/cwnd.csv", 2%nat) ∈ rs_traced (Run w') /\
      exists a, w_apps w' !! 2%nat = Some a /\ app_kind a = PacketSink (mkSock Ipv4Any 10001)
  | RErr _ _ => False
  end.
Proof.
  assert (H1 : (0 <= Seconds (simulationTime RuntimeOptions_default))%Q) by (vm_compute; discriminate).
  assert (H2 : (0 <= blockStart + Seconds (blockageDuration RuntimeOptions_default))%Q) by (vm_compute; discriminate).
  split_and!; [exact H1|exact H2|].
  pose proof (BuildScenarioS4_tracer_sink RuntimeOptions_default "results/S1/TcpCubic/run-1/cwnd.csv" 2 H1 H2) as H.
  destruct (BuildScenarioS4 RuntimeOptions_default empty_world) as [u w'|] eqn:E; [|contradiction].
  vm_compute in E. injection E as _ <-.
  match goal with |- ?m /\ _ =>
    assert (Hm : m) by (apply (bool_decide_eq_true_1 m); vm_compute; reflexivity) end.
  split; [exact Hm|exact (H Hm)].
Defined.
