(* ===== verification/Main.v ===== *)
(** * [main]: the orchestration of one run

    tcp_compare.cc 577-625: the RNG seed and run, the TCP variant, then
    the builder of the requested scenario, or a fatal error for an
    unknown scenario.  The command-line parsing (582-592) is ns-3's
    [CommandLine]: [main] here starts from the parsed options.
    [main_contract] states, as a decision table on the options, what a
    run leaves (its abort, directories and files); [main] is shown to
    implement it. *)

From Stdlib Require Import ZArith QArith String.
From stdpp Require Import base list strings gmap.
From S2P Require Import Prelude Addr World Net Engine Wiring Options Dumbbell Traffic Run Scenarios Cellular.

(** The scenario chosen by [opts.scenario], as the [if] chain tests it. *)
Definition BuildScenario (opts : RuntimeOptions) : Sim unit :=
  if String.eqb (scenario opts) "S1" then BuildScenarioS1 opts
  else if String.eqb (scenario opts) "S2" then BuildScenarioS2 opts
  else if String.eqb (scenario opts) "S3" then BuildScenarioS3 opts
  else if String.eqb (scenario opts) "S4" then BuildScenarioS4 opts
  else if String.eqb (scenario opts) "S5" then BuildScenarioS5 opts
  else sfail (UnsupportedScenario (scenario opts)).

Definition main `{TypeIdRegistry} (opts : RuntimeOptions) : Sim unit :=
  SetSeed 1;;!
  SetRun (seed opts);;!
  ConfigureTcp (tcpType opts);;!
  BuildScenario opts.

(** The scenario names [main] accepts. *)
Definition supported (s : string) : bool :=
  bool_decide (s ∈ ["S1"; "S2"; "S3"; "S4"; "S5"]).

(** ** The driver's contract

    What a run of [main] from a fresh process leaves, as the spec states
    it: the abort for an unknown variant or scenario, before anything is
    created; the abort of [SetQueue] on a queue size ns-3 cannot parse
    (every scenario but S4 sets the bottleneck queue), before any
    directory or file exists; for S4, the abort of [Simulator::Schedule]
    when the restoration of the blockage (30 s plus its duration, each
    rounded to nanoseconds) is in the past; the abort of
    [Simulator::Stop] for a duration that rounds below 0; the abort of
    the first TCP socket when the socket type is not a congestion-control
    algorithm ns-3 can create and the run lasts beyond 0; and otherwise
    a completed run whose directory holds [cwnd.csv], and [flowmon.xml]
    when the monitor is on. *)
Definition main_contract `{TypeIdRegistry} (opts : RuntimeOptions) : option Abort * list string * list string :=
  let d := output_dir opts in
  let c := (d ++ "/cwnd.csv")%string in
  match LookupByNameFailSafe ("ns3::" ++ tcpType opts) with
  | None => (Some (UnknownTcpType (tcpType opts)), [], [])
  | Some tid =>
      if negb (bool_decide (scenario opts ∈ ["S1"; "S2"; "S3"; "S4"; "S5"]))
      then (Some (UnsupportedScenario (scenario opts)), [], [])
      else if negb (String.eqb (scenario opts) "S4") && negb (QueueSizeValid (queueSize opts))
      then (Some (InvalidQueueSize (queueSize opts)), [], [])
      else if String.eqb (scenario opts) "S4" && Qltb (30 + Seconds (blockageDuration opts)) 0
      then (Some (NegativeDelay (30 + Seconds (blockageDuration opts))), [d], [c])
      else if Qltb (Seconds (simulationTime opts)) 0
      then (Some (NegativeDelay (Seconds (simulationTime opts))), [d], [c])
      else if negb (creates_congestion_ops tid) && Qltb 0 (Seconds (simulationTime opts))
      then (Some (NotCongestionOps (tid_name tid)), [d], [c])
      else (None, [d], c :: (if enableFlowMonitor opts then [(d ++ "/flowmon.xml")%string] else []))
  end.

(** ** Lemmas *)

(** How the step between tracer and run ends: only S4 has one, the
    blockage, which aborts when the restoration is in the past. *)
Definition blockage_err (opts : RuntimeOptions) : option Abort :=
  if String.eqb (scenario opts) "S4" && Qltb (blockStart + Seconds (blockageDuration opts)) 0
  then Some (NegativeDelay (blockStart + Seconds (blockageDuration opts))) else None.

(** How the set-up ends: every scenario but S4 aborts at [SetQueue] on
    a queue size that does not parse. *)
Definition queue_err (opts : RuntimeOptions) : option Abort :=
  if negb (String.eqb (scenario opts) "S4") && negb (QueueSizeValid (queueSize opts))
  then Some (InvalidQueueSize (queueSize opts)) else None.

Lemma blockage_err_none opts :
  (0 <= blockStart + Seconds (blockageDuration opts))%Q -> blockage_err opts = None.
Proof.
  intros Hd. unfold blockage_err. destruct (Qltb _ 0) eqn:E; [|rewrite andb_false_r; reflexivity].
  apply Qltb_iff in E. exfalso. exact (Qlt_not_le _ _ E Hd).
Qed.

(** The seed and run only write the log. *)
Lemma main_prefix `{TypeIdRegistry} opts w :
  main opts w =
  sbind (ConfigureTcp (tcpType opts)) (fun _ => BuildScenario opts)
        (upd_log w (w_log w ++ [ESetSeed 1; ESetRun (seed opts)])).
Proof.
  unfold main, sbind, SetSeed, SetRun, emit, smodify. destruct w; simpl.
  rewrite <- app_assoc. reflexivity.
Qed.

(** After [ConfigureTcp] the socket type is the variant's [TypeId]. *)
Lemma defaults_socket_type tid (c : gmap string ConfigValue) :
  fold_left (fun m kv => <[kv.1 := kv.2]> m) (tcp_defaults tid) c !! "ns3::TcpL4Protocol::SocketType" =
  Some (CfgTypeId tid).
Proof. simpl. by simplify_map_eq. Qed.

Lemma crash_of_socket (c : gmap string ConfigValue) tid T :
  c !! "ns3::TcpL4Protocol::SocketType" = Some (CfgTypeId tid) ->
  crash_of c T =
  if creates_congestion_ops tid || negb (Qltb 0 T) then None else Some (NotCongestionOps (tid_name tid)).
Proof. unfold crash_of. intros ->. reflexivity. Qed.

Lemma socket_type_ok_defaults tid w :
  socket_type_ok (upd_config w (fold_left (fun m kv => <[kv.1 := kv.2]> m) (tcp_defaults tid) (w_config w))) =
  creates_congestion_ops tid.
Proof. unfold socket_type_ok. cbn [w_config upd_config]. rewrite defaults_socket_type. reflexivity. Qed.

Lemma BuildScenario_unsupported opts :
  supported (scenario opts) = false ->
  BuildScenario opts = sfail (UnsupportedScenario (scenario opts)).
Proof.
  unfold supported, BuildScenario. intros Hs.
  repeat match goal with
  | |- context [String.eqb ?a ?b] =>
      destruct (String.eqb_spec a b) as [E|]; [rewrite E in Hs; discriminate|]
  end.
  reflexivity.
Qed.

(** C1: an unknown TCP variant aborts the run with [UnknownTcpType]
    before any node, link, application, directory or file exists. *)
Theorem main_unknown_tcp `{TypeIdRegistry} opts w :
  LookupByNameFailSafe ("ns3::" ++ tcpType opts) = None ->
  exists w', main opts w = RErr (UnknownTcpType (tcpType opts)) w' /\
    w_nodes w' = w_nodes w /\ w_links w' = w_links w /\ w_apps w' = w_apps w /\
    w_dirs w' = w_dirs w /\ w_files w' = w_files w.
Proof.
  intros Hl. rewrite main_prefix. unfold sbind.
  rewrite (ConfigureTcp_unknown_eq _ _ Hl).
  eexists. split; [reflexivity|]. destruct w; repeat split.
Qed.

(** Every supported scenario whose queue size is accepted is a set-up,
    the tracer, a step that creates no directory or file, and the run. *)
Lemma BuildScenario_shape opts :
  supported (scenario opts) = true -> queue_err opts = None ->
  exists A (m : Sim A) (node : A -> nat) (mid : A -> Sim unit),
    setup_ok m /\ mid_ok mid (blockage_err opts) /\
    (forall a w0 w1, mid a w0 = ROk tt w1 ->
       exists L, w_log w1 = w_log w0 ++ L /\ Forall (fun e => setup_effect e = false) L) /\
    forall w, BuildScenario opts w =
      sbind m (fun a => sbind (InstallCwndTracing opts (node a))
                          (fun d => sbind (mid a) (fun _ => RunAndCollect opts d))) w.
Proof.
  intros Hs Hqe. unfold supported in Hs. apply bool_decide_eq_true in Hs.
  assert (Hq : String.eqb (scenario opts) "S4" = false -> QueueSizeValid (queueSize opts) = true).
  { unfold queue_err in Hqe. intros E. rewrite E in Hqe. destruct (QueueSizeValid _); [reflexivity|discriminate]. }
  assert (Hnlog : forall (a : nat) w0 w1, (sret tt : Sim unit) w0 = ROk tt w1 ->
                    exists L, w_log w1 = w_log w0 ++ L /\ Forall (fun e => setup_effect e = false) L)
    by (intros a w0 w1 E; injection E as <-; exists []; rewrite app_nil_r; auto).
  unfold BuildScenario, blockage_err.
  repeat (rewrite elem_of_cons in Hs; destruct Hs as [Hs|Hs]; [rewrite Hs; simpl|]);
    [ exists nat, (SetupS1 opts), (fun n => n), (fun _ => sret tt);
      split_and!; [apply SetupS1_ok, Hq; rewrite Hs; reflexivity|exact sret_mid_ok|exact Hnlog|reflexivity]
    | exists nat, (SetupS2 opts), (fun n => n), (fun _ => sret tt);
      split_and!; [apply SetupS2_ok, Hq; rewrite Hs; reflexivity|exact sret_mid_ok|exact Hnlog|reflexivity]
    | exists nat, (SetupS3 opts), (fun n => n), (fun _ => sret tt);
      split_and!; [apply SetupS3_ok, Hq; rewrite Hs; reflexivity|exact sret_mid_ok|exact Hnlog|reflexivity]
    |
    | exists nat, (SetupS5 opts), (fun n => n), (fun _ => sret tt);
      split_and!; [apply SetupS5_ok, Hq; rewrite Hs; reflexivity|exact sret_mid_ok|exact Hnlog|reflexivity]
    | set_solver ].
  exists (nat * option nat)%type, (SetupS4 opts), fst, (fun a => ScheduleBlockage opts (snd a)).
  split_and!; [apply SetupS4_ok|exact (ScheduleBlockage_mid opts)
              |intros a w0 w1; apply ScheduleBlockage_log|].
  intros w. unfold BuildScenarioS4, sbind at 1 4. destruct (SetupS4 opts w) as [[rh v] w1|]; reflexivity.
Qed.

Lemma BuildScenario_shape_ok opts :
  supported (scenario opts) = true -> queue_err opts = None ->
  (0 <= blockStart + Seconds (blockageDuration opts))%Q ->
  exists A (m : Sim A) (node : A -> nat) (mid : A -> Sim unit),
    setup_ok m /\ mid_ok mid None /\
    forall w, BuildScenario opts w =
      sbind m (fun a => sbind (InstallCwndTracing opts (node a))
                          (fun d => sbind (mid a) (fun _ => RunAndCollect opts d))) w.
Proof.
  intros Hs Hq Hd. destruct (BuildScenario_shape opts Hs Hq) as (A & m & node & mid & Hm & Hmid & _ & E).
  rewrite (blockage_err_none opts Hd) in Hmid. exists A, m, node, mid. auto.
Qed.

(** A supported scenario other than S4 with a queue size that does not
    parse aborts at [SetQueue], before any directory or file exists. *)
Lemma BuildScenario_queue_fails opts e w :
  supported (scenario opts) = true -> queue_err opts = Some e -> fresh_topology w ->
  exists w', BuildScenario opts w = RErr e w' /\ w_dirs w' = w_dirs w /\ w_files w' = w_files w.
Proof.
  intros Hs He Hw. unfold supported in Hs. apply bool_decide_eq_true in Hs. unfold queue_err in He.
  destruct (QueueSizeValid (queueSize opts)) eqn:Hq; [rewrite andb_false_r in He; discriminate|].
  unfold BuildScenario.
  repeat (rewrite elem_of_cons in Hs; destruct Hs as [Hs|Hs]; [rewrite Hs in *; simpl in He|]);
    try discriminate He; try (injection He as <-);
    [ exact (sbind_setup_fails (SetupS1 opts) _ _ w (SetupS1_fails opts Hq) Hw)
    | exact (sbind_setup_fails (SetupS2 opts) _ _ w (SetupS2_fails opts Hq) Hw)
    | exact (sbind_setup_fails (SetupS3 opts) _ _ w (SetupS3_fails opts Hq) Hw)
    | exact (sbind_setup_fails (SetupS5 opts) _ _ w (SetupS5_fails opts Hq) Hw)
    | set_solver ].
Qed.

(** A completed scenario had its queue size accepted. *)
Lemma BuildScenario_ok_queue opts w0 w' :
  supported (scenario opts) = true -> fresh_topology w0 -> BuildScenario opts w0 = ROk tt w' ->
  queue_err opts = None.
Proof.
  intros Hs Hw E. destruct (queue_err opts) as [e|] eqn:Hqe; [|reflexivity].
  destruct (BuildScenario_queue_fails opts e w0 Hs Hqe Hw) as (w1 & E' & _). congruence.
Qed.

Lemma queue_err_none opts :
  String.eqb (scenario opts) "S4" = true \/ QueueSizeValid (queueSize opts) = true -> queue_err opts = None.
Proof. unfold queue_err. intros [->| ->]; [reflexivity|rewrite andb_false_r; reflexivity]. Qed.

Lemma BuildScenario_ok opts w :
  fresh_topology w -> socket_type_ok w = true -> supported (scenario opts) = true -> queue_err opts = None ->
  (0 <= Seconds (simulationTime opts))%Q -> (0 <= blockStart + Seconds (blockageDuration opts))%Q ->
  exists w', BuildScenario opts w = ROk tt w' /\
    w_dirs w' = w_dirs w ++ [output_dir opts] /\
    w_files w' = w_files w ++ [(output_dir opts ++ "/cwnd.csv")%string] ++
                 (if enableFlowMonitor opts then [(output_dir opts ++ "/flowmon.xml")%string] else []) /\
    last (w_log w') = Some EDestroy.
Proof.
  intros Hw Hst Hs Hq Ht Hd. destruct (BuildScenario_shape_ok opts Hs Hq Hd) as (A & m & node & mid & Hm & Hmid & E).
  rewrite E. exact (scenario_shape_ok m node mid opts w Hm Hw Ht Hst Hmid).
Qed.

(** C3: for a registered TCP variant whose [TypeId] is a
    congestion-control algorithm ns-3 can create, a supported scenario, a queue
    size ns-3 parses (S4 sets none), a duration that is not negative
    once rounded to nanoseconds (and, for S4, a restoration time that
    is not in the past), a run from a fresh process completes: the last call is
    [Simulator::Destroy], the run directory holds [cwnd.csv], and it
    holds [flowmon.xml] exactly when the flow monitor is enabled. *)
Theorem main_completes `{TypeIdRegistry} opts tid :
  LookupByNameFailSafe ("ns3::" ++ tcpType opts) = Some tid -> creates_congestion_ops tid = true ->
  supported (scenario opts) = true ->
  String.eqb (scenario opts) "S4" = true \/ QueueSizeValid (queueSize opts) = true ->
  (0 <= Seconds (simulationTime opts))%Q -> (0 <= blockStart + Seconds (blockageDuration opts))%Q ->
  exists w', main opts empty_world = ROk tt w' /\
    output_dir opts ∈ w_dirs w' /\
    (output_dir opts ++ "/cwnd.csv")%string ∈ w_files w' /\
    ((output_dir opts ++ "/flowmon.xml")%string ∈ w_files w' <-> enableFlowMonitor opts = true) /\
    last (w_log w') = Some EDestroy.
Proof.
  intros Hl Hc Hs Hqs Ht Hd. rewrite main_prefix. unfold sbind at 1.
  rewrite (ConfigureTcp_ok_eq _ tid _ Hl).
  match goal with |- context [BuildScenario opts ?w0] =>
    destruct (BuildScenario_ok opts w0) as (w' & E & D & F & L);
      [repeat split|rewrite <- Hc; apply socket_type_ok_defaults|exact Hs|exact (queue_err_none opts Hqs)|exact Ht|exact Hd|]
  end.
  clear Hqs. exists w'. rewrite E. split; [reflexivity|]. rewrite D, F. simpl.
  split_and!; [set_solver|set_solver| |exact L].
  destruct (enableFlowMonitor opts).
  - split; [intros _; reflexivity|intros _; set_solver].
  - split; [|discriminate]. intros H'.
    rewrite ?app_nil_r, list_elem_of_singleton in H'. apply str_app_inv_l in H'. discriminate.
Qed.

(** C2: a scenario name other than S1..S5 aborts the run with
    [UnsupportedScenario] (once a registered TCP variant has been
    configured), before any node, link, application, directory or file
    exists. *)
Theorem main_unsupported `{TypeIdRegistry} opts w tid :
  LookupByNameFailSafe ("ns3::" ++ tcpType opts) = Some tid ->
  supported (scenario opts) = false ->
  exists w', main opts w = RErr (UnsupportedScenario (scenario opts)) w' /\
    w_nodes w' = w_nodes w /\ w_links w' = w_links w /\ w_apps w' = w_apps w /\
    w_dirs w' = w_dirs w /\ w_files w' = w_files w.
Proof.
  intros Hl Hs. rewrite main_prefix. unfold sbind.
  rewrite (ConfigureTcp_ok_eq _ tid _ Hl), (BuildScenario_unsupported opts Hs).
  eexists. split; [reflexivity|]. destruct w; repeat split.
Qed.

(** ** Witnesses *)

Definition opts_unknown_tcp : RuntimeOptions :=
  mkOptions "S1" "TcpFoo" "150p" 120 20 1 0 (2 # 10) true.

Definition opts_s9 : RuntimeOptions :=
  mkOptions "S9" "TcpCubic" "150p" 120 20 1 0 (2 # 10) true.

Lemma main_unknown_tcp_witness :
  LookupByNameFailSafe ("ns3::" ++ tcpType opts_unknown_tcp) = None /\
  exists w', main opts_unknown_tcp empty_world = RErr (UnknownTcpType "TcpFoo") w' /\ w_dirs w' = [].
Proof.
  split; [reflexivity|].
  destruct (@main_unknown_tcp sample_registry opts_unknown_tcp empty_world eq_refl) as (w' & E & _ & _ & _ & D & _).
  exists w'. split; [exact E|exact D].
Defined.

Lemma main_unsupported_witness :
  LookupByNameFailSafe ("ns3::" ++ tcpType opts_s9) = Some (mkTid "ns3::TcpCubic" cc true) /\
  supported (scenario opts_s9) = false /\
  exists w', main opts_s9 empty_world = RErr (UnsupportedScenario "S9") w' /\ w_nodes w' = 0%nat.
Proof.
  split; [reflexivity|split; [reflexivity|]].
  destruct (@main_unsupported sample_registry opts_s9 empty_world _ eq_refl eq_refl) as (w' & E & N & _).
  exists w'. split; [exact E|exact N].
Defined.

Lemma main_completes_witness :
  LookupByNameFailSafe ("ns3::" ++ tcpType RuntimeOptions_default) =
    Some (mkTid "ns3::TcpCubic" cc true) /\ creates_congestion_ops (mkTid "ns3::TcpCubic" cc true) = true /\
  supported (scenario RuntimeOptions_default) = true /\
  (String.eqb (scenario RuntimeOptions_default) "S4" = true \/
   QueueSizeValid (queueSize RuntimeOptions_default) = true) /\
  (0 <= Seconds (simulationTime RuntimeOptions_default))%Q /\
  (0 <= blockStart + Seconds (blockageDuration RuntimeOptions_default))%Q /\
  exists w', main RuntimeOptions_default empty_world = ROk tt w' /\
    (output_dir RuntimeOptions_default ++ "/flowmon.xml")%string ∈ w_files w'.
Proof.
  assert (Hq : String.eqb (scenario RuntimeOptions_default) "S4" = true \/
               QueueSizeValid (queueSize RuntimeOptions_default) = true) by (right; reflexivity).
  split_and!; [reflexivity|reflexivity|reflexivity|exact Hq|vm_compute; discriminate|vm_compute; discriminate|].
  destruct (@main_completes sample_registry RuntimeOptions_default _ eq_refl eq_refl eq_refl Hq
              ltac:(vm_compute; discriminate) ltac:(vm_compute; discriminate))
    as (w' & E & _ & _ & F & _).
  exists w'. split; [exact E|]. apply F. reflexivity.
Defined.

Definition opts_s2 : RuntimeOptions :=
  mkOptions "S2" "TcpCubic" "150p" 60 20 1 0 (2 # 10) true.

(** C18: [main] implements the driver's contract: for every option
    record and every registry of TCP types, the abort a run from a fresh
    process ends with (if any), the directories and the files it leaves
    are those [main_contract] gives: the variant and scenario checks,
    the queue size, the S4 restoration time, the stop time (each time
    rounded to nanoseconds), and the creation of the first TCP socket
    from the configured socket type, in that order. *)
Theorem main_refines_contract `{TypeIdRegistry} opts :
  outcome (main opts empty_world) = main_contract opts.
Proof.
  rewrite main_prefix. unfold main_contract, sbind at 1.
  destruct (LookupByNameFailSafe ("ns3::" ++ tcpType opts)) as [tid|] eqn:Hl.
  - rewrite (ConfigureTcp_ok_eq _ tid _ Hl).
    change (bool_decide (scenario opts ∈ ["S1"; "S2"; "S3"; "S4"; "S5"])) with (supported (scenario opts)).
    destruct (supported (scenario opts)) eqn:Hs; simpl; [|rewrite (BuildScenario_unsupported opts Hs); reflexivity].
    destruct (queue_err opts) as [e|] eqn:Hqe.
    + match goal with |- outcome (BuildScenario opts ?w0) = _ =>
        destruct (BuildScenario_queue_fails opts e w0 Hs Hqe) as (w1 & -> & D & F); [repeat split|] end.
      simpl. rewrite D, F. unfold queue_err in Hqe.
      destruct (negb _ && negb _); [injection Hqe as <-; reflexivity|discriminate].
    + destruct (BuildScenario_shape opts Hs Hqe) as (A & m & node & mid & Hm & Hmid & _ & ->).
      rewrite (scenario_outcome m node mid opts _ (blockage_err opts) Hm); [|repeat split|exact Hmid].
      unfold queue_err in Hqe. destruct (negb _ && negb _); [discriminate|].
      unfold blockage_err. rewrite blockStart_eq.
      rewrite (crash_of_socket _ tid) by (cbn [w_config upd_config upd_log]; by simplify_map_eq).
      simpl.
      destruct (_ && _); [reflexivity|]. destruct (Qltb (Seconds (simulationTime opts)) 0); [reflexivity|].
      destruct (creates_congestion_ops tid), (Qltb 0 (Seconds (simulationTime opts))); reflexivity.
  - rewrite (ConfigureTcp_unknown_eq _ _ Hl). reflexivity.
Qed.

(** C20: the event loop of every run [main] completes terminates at its
    stop event: whatever the options and the TCP registry, the world a
    completed run leaves has its only stop last, at [Seconds
    (simulationTime)];
    [Simulator::Run] on it ends stopped with the clock there, after it
    has run every event stamped earlier. *)
Theorem main_run_terminates `{TypeIdRegistry} opts w' :
  main opts empty_world = ROk tt w' ->
  rs_stopped (Run w') = true /\ rs_now (Run w') = Seconds (simulationTime opts) /\
  forall p, p ∈ initial_pendings w' -> (p_time p < Seconds (simulationTime opts))%Q ->
    p ∈ executed (build_queue w').
Proof.
  rewrite main_prefix. unfold sbind at 1.
  destruct (LookupByNameFailSafe ("ns3::" ++ tcpType opts)) as [tid|] eqn:Hl;
    [|rewrite (ConfigureTcp_unknown_eq _ _ Hl); discriminate].
  rewrite (ConfigureTcp_ok_eq _ tid _ Hl).
  destruct (supported (scenario opts)) eqn:Hs; [|rewrite (BuildScenario_unsupported opts Hs); discriminate].
  match goal with |- BuildScenario opts ?w0 = _ -> _ =>
    intros Hok; pose proof (BuildScenario_ok_queue opts w0 w' Hs ltac:(repeat split) Hok) as Hqe; revert Hok end.
  destruct (BuildScenario_shape opts Hs Hqe) as (A & m & node & mid & Hm & Hmid & _ & ->).
  match goal with |- sbind _ _ ?w0 = _ -> _ =>
    intros Hok; destruct (scenario_events m node mid opts w0 w' (blockage_err opts) Hm) as (E & V & HE);
      [repeat split|exact Hmid|exact Hok|]
  end.
  exact (Run_stops_last w' E _ V HE).
Qed.

Lemma main_run_terminates_witness :
  match @main sample_registry RuntimeOptions_default empty_world with
  | ROk _ w' => rs_stopped (Run w') = true /\ rs_now (Run w') = Seconds (simulationTime RuntimeOptions_default)
  | RErr _ _ => False
  end.
Proof.
  destruct (@main sample_registry RuntimeOptions_default empty_world) as [[] w'|e w'] eqn:E;
    [|vm_compute in E; discriminate].
  destruct (@main_run_terminates sample_registry RuntimeOptions_default w' E) as (H1 & H2 & _).
  split; [exact H1|exact H2].
Defined.

(** C21: the driver's ordering guarantee, for every options and TCP
    registry: in a completed run the calls come in the order seed and
    run, the TCP defaults (before any node or endpoint exists), the
    topology and traffic, then the run directory, [cwnd.csv] and the
    tracer; every call after those builds no topology and installs no
    traffic, and [Simulator::Run] is among them. *)
Theorem main_instrumentation_order `{TypeIdRegistry} opts w' :
  main opts empty_world = ROk tt w' ->
  exists tid n L1 L2,
    LookupByNameFailSafe ("ns3::" ++ tcpType opts) = Some tid /\
    w_log w' = [ESetSeed 1; ESetRun (seed opts)] ++ map (fun kv => ESetDefault kv.1) (tcp_defaults tid) ++
               L1 ++ [EMkdirs (output_dir opts); ECreateFile (output_dir opts ++ "/cwnd.csv");
                      ESchedule tracer_delay (EvInstallCwndTracer n (output_dir opts ++ "/cwnd.csv"))] ++ L2 /\
    Forall (fun e => setup_effect e = false) L2 /\ ERun ∈ L2.
Proof.
  rewrite main_prefix. unfold sbind at 1.
  destruct (LookupByNameFailSafe ("ns3::" ++ tcpType opts)) as [tid|] eqn:Hl;
    [|rewrite (ConfigureTcp_unknown_eq _ _ Hl); discriminate].
  rewrite (ConfigureTcp_ok_eq _ tid _ Hl).
  destruct (supported (scenario opts)) eqn:Hs; [|rewrite (BuildScenario_unsupported opts Hs); discriminate].
  match goal with |- BuildScenario opts ?w0 = _ -> _ =>
    intros Hok; pose proof (BuildScenario_ok_queue opts w0 w' Hs ltac:(repeat split) Hok) as Hqe; revert Hok end.
  destruct (BuildScenario_shape opts Hs Hqe) as (A & m & node & mid & Hm & _ & Hlog & ->).
  match goal with |- sbind _ _ ?w0 = _ -> _ =>
    intros Hok; destruct (scenario_log m node mid opts w0 w' Hm) as (n & L1 & L2 & G & HL & Hr);
      [repeat split|exact Hlog|exact Hok|]
  end.
  exists tid, n, L1, L2. rewrite G. split_and!; [reflexivity| |exact HL|exact Hr].
  cbn [w_log upd_log empty_world]. rewrite <- !app_assoc. reflexivity.
Qed.

Lemma main_instrumentation_order_witness :
  match @main sample_registry RuntimeOptions_default empty_world with
  | ROk _ w' => exists tid n L1 L2,
      LookupByNameFailSafe ("ns3::" ++ tcpType RuntimeOptions_default) = Some tid /\
      w_log w' = [ESetSeed 1; ESetRun (seed RuntimeOptions_default)] ++
                 map (fun kv => ESetDefault kv.1) (tcp_defaults tid) ++ L1 ++
                 [EMkdirs (output_dir RuntimeOptions_default);
                  ECreateFile (output_dir RuntimeOptions_default ++ "/cwnd.csv");
                  ESchedule tracer_delay (EvInstallCwndTracer n (output_dir RuntimeOptions_default ++ "/cwnd.csv"))]
                 ++ L2 /\
      Forall (fun e => setup_effect e = false) L2 /\ ERun ∈ L2
  | RErr _ _ => False
  end.
Proof.
  destruct (@main sample_registry RuntimeOptions_default empty_world) as [[] w'|e w'] eqn:E;
    [|vm_compute in E; discriminate].
  exact (@main_instrumentation_order sample_registry RuntimeOptions_default w' E).
Defined.

(** C22: in every scenario but S4, when the run lasts at least the
    tracer's 0.1 s, the cwnd tracer watches exactly one socket, that of
    an unlimited bulk sender (the first flow's), and writes to the run's
    [cwnd.csv]: the S2 web client and the S3 UDP source on the same node
    are not watched.  The only abort left is [SetQueue]'s, on a queue
    size ns-3 cannot parse. *)
Theorem BuildScenario_tracer_sender opts :
  scenario opts ∈ ["S1"; "S2"; "S3"; "S5"] -> (tracer_delay <= Seconds (simulationTime opts))%Q ->
  match BuildScenario opts empty_world with
  | ROk _ w' => watches_one_sender w' (output_dir opts ++ "/cwnd.csv")
  | RErr e _ => e = InvalidQueueSize (queueSize opts)
  end.
Proof.
  intros Hs Ht. unfold BuildScenario.
  repeat (rewrite elem_of_cons in Hs; destruct Hs as [Hs|Hs];
          [rewrite Hs; cbv [String.eqb Ascii.eqb Bool.eqb]|]);
    [ apply BuildScenarioS1_watches, Ht | apply BuildScenarioS2_watches, Ht
    | apply BuildScenarioS3_watches, Ht | apply BuildScenarioS5_watches, Ht
    | apply elem_of_nil in Hs; contradiction ].
Qed.

Lemma BuildScenario_tracer_sender_witness :
  ("S2" ∈ ["S1"; "S2"; "S3"; "S5"]) /\ (tracer_delay <= Seconds (simulationTime opts_s2))%Q /\
  match BuildScenario opts_s2 empty_world with
  | ROk _ w' => watches_one_sender w' (output_dir opts_s2 ++ "/cwnd.csv")
  | RErr e _ => e = InvalidQueueSize (queueSize opts_s2)
  end.
Proof.
  assert (H1 : scenario opts_s2 ∈ ["S1"; "S2"; "S3"; "S5"]) by (right; left).
  assert (H2 : (tracer_delay <= Seconds (simulationTime opts_s2))%Q) by (vm_compute; discriminate).
  split_and!; [exact H1|exact H2|exact (BuildScenario_tracer_sender opts_s2 H1 H2)].
Defined.
