(* ===== verification/Invariant.v ===== *)
(** * The state invariant every call keeps

    Two of the process-wide facts ns-3 guards with fatal errors hold of
    every state a run goes through, whether it completes or aborts: the
    [Ipv4AddressGenerator] never holds an address twice ([NewAddress]
    aborts on a collision) and no node gets a second internet stack
    ([InternetStackHelper::Install] aborts).  Each primitive is shown to
    keep [Inv] (most of them leave both fields alone), and the
    [preserves] combinators of the prelude carry it through every
    builder and [main]. *)

From Stdlib Require Import ZArith QArith Lqa String Sorting.
From stdpp Require Import base list strings gmap.
From S2P Require Import Prelude Addr World Net Engine Wiring Options Dumbbell Traffic Run Scenarios Cellular Main.

(** Every cwnd tracer the driver schedules fires at [tracer_delay]. *)
Definition tracers_at_delay (w : World) : Prop :=
  forall t n f, (t, EvInstallCwndTracer n f) ∈ w_events w -> t = tracer_delay.

Definition Inv (w : World) : Prop :=
  NoDup (w_allocated w) /\ NoDup (w_stacks w) /\ tracers_at_delay w.

(** ** The primitives *)

Lemma preserves_frame {A} (m : Sim A) :
  (forall w, w_allocated (final (m w)) = w_allocated w /\ w_stacks (final (m w)) = w_stacks w /\
             w_events (final (m w)) = w_events w) ->
  preserves Inv m.
Proof.
  intros Hm w (Ha & Hs & Ht). destruct (Hm w) as (E1 & E2 & E3).
  unfold Inv, tracers_at_delay. rewrite E1, E2, E3. split_and!; assumption.
Qed.

Lemma NoDup_snoc {A} (l : list A) x : x ∉ l -> NoDup l -> NoDup (l ++ [x]).
Proof.
  intros Hx Hl. apply NoDup_app. split_and!; [exact Hl| |apply NoDup_singleton].
  intros y Hy Hy'. apply list_elem_of_singleton in Hy'. subst. contradiction.
Qed.

(** A primitive that leaves the allocated addresses, the stacks and
    the scheduled events as they are. *)
Ltac frame :=
  apply preserves_frame; intros w;
  repeat match goal with
  | |- context [match ?x with _ => _ end] => destruct x
  end; split_and!; reflexivity.

Lemma InstallStack_inv n : preserves Inv (InstallStack n).
Proof.
  intros w (Ha & Hs & Ht). unfold InstallStack, has_stack.
  case_bool_decide as Hn; split_and!; simpl; try assumption. apply NoDup_snoc; assumption.
Qed.

Lemma NewAddress_final h w :
  final (NewAddress h w) = w \/
  ((next_address h ∉ w_allocated w) /\ final (NewAddress h w) = upd_allocated w (w_allocated w ++ [next_address h])).
Proof.
  unfold NewAddress. destruct (negb _); [left; reflexivity|].
  case_bool_decide as Hn; [left; reflexivity|right; split; [exact Hn|reflexivity]].
Qed.

Lemma NewAddress_inv h : preserves Inv (NewAddress h).
Proof.
  intros w (Ha & Hs & Ht). destruct (NewAddress_final h w) as [->|[Hn ->]]; [split_and!; assumption|].
  split_and!; simpl; [apply NoDup_snoc| |]; assumption.
Qed.

Lemma AssignOne_inv h dev : preserves Inv (AssignOne h dev).
Proof.
  intros w Hw. unfold AssignOne.
  destruct (w_devices w !! dev) as [d|]; [|exact Hw]. destruct (negb _); [exact Hw|].
  set (p := match iface_for_device w (dev_node d) dev with
            | Some k => (k, w)
            | None => (length (node_ifaces w (dev_node d)),
                       upd_ifaces w (w_ifaces w ++ [mkIface (dev_node d) (Some dev) []]))
            end).
  assert (Hp : Inv p.2) by (subst p; destruct (iface_for_device _ _ _); exact Hw).
  destruct p as [k w1]. simpl in Hp. pose proof (NewAddress_inv h w1 Hp) as Hn.
  destruct (NewAddress h w1) as [[a h'] w2|e w2]; [|exact Hn]. exact Hn.
Qed.

#[export] Hint Resolve InstallStack_inv NewAddress_inv AssignOne_inv : ns3.

Lemma Get_inv c i : preserves Inv (Get c i).
Proof. unfold Get. frame. Qed.
Lemma CreateNodes_inv n : preserves Inv (CreateNodes n).
Proof. unfold CreateNodes. frame. Qed.
Lemma P2PInstall_inv h a b : preserves Inv (P2PInstall h a b).
Proof. unfold P2PInstall. frame. Qed.
Lemma SetReceiveErrorModel_inv dev r : preserves Inv (SetReceiveErrorModel dev r).
Proof. unfold SetReceiveErrorModel. frame. Qed.
Lemma GetAddress_inv c i : preserves Inv (GetAddress c i).
Proof. unfold GetAddress. frame. Qed.
Lemma emit_inv e : preserves Inv (emit e).
Proof. unfold emit, smodify. frame. Qed.
Lemma AddRoute_inv r : preserves Inv (AddRoute r).
Proof. unfold AddRoute. frame. Qed.
Lemma InstallApp_inv n p k : preserves Inv (InstallApp n p k).
Proof. unfold InstallApp. frame. Qed.
(** Scheduling keeps the invariant when a tracer is scheduled at
    [tracer_delay]. *)
Lemma Schedule_inv t ev :
  (forall n f, ev = EvInstallCwndTracer n f -> t = tracer_delay) -> preserves Inv (Schedule t ev).
Proof.
  intros Hev w (Ha & Hs & Ht). unfold Schedule. destruct (Qltb t 0); [split_and!; assumption|].
  split_and!; simpl; try assumption. intros t' n f Hin.
  apply elem_of_app in Hin as [Hin|Hin]; [exact (Ht _ _ _ Hin)|].
  apply list_elem_of_singleton in Hin. injection Hin as E1 E2. subst. exact (Hev n f eq_refl).
Qed.
Lemma SetDefault_inv k v : preserves Inv (SetDefault k v).
Proof. unfold SetDefault. frame. Qed.
Lemma MakeDirectories_inv p : preserves Inv (MakeDirectories p).
Proof. unfold MakeDirectories. frame. Qed.
Lemma CreateFileStream_inv p : preserves Inv (CreateFileStream p).
Proof. unfold CreateFileStream. frame. Qed.
Lemma SerializeToXmlFile_inv p : preserves Inv (SerializeToXmlFile p).
Proof. unfold SerializeToXmlFile. frame. Qed.
Lemma AddLteDevice_inv n k : preserves Inv (AddLteDevice n k).
Proof. unfold AddLteDevice. frame. Qed.
Lemma SetOnOffRate_inv a r : preserves Inv (SetOnOffRate a r).
Proof. unfold SetOnOffRate, smodify. frame. Qed.
Lemma AsOnOff_inv id : preserves Inv ((fun w => ROk (AsOnOff w id) w) : Sim (option nat)).
Proof. frame. Qed.
Lemma AppsStart_inv c t : preserves Inv (AppsStart c t).
Proof. unfold AppsStart. apply preserves_sfor. intros id. frame. Qed.
Lemma AppsStop_inv c t : preserves Inv (AppsStop c t).
Proof. unfold AppsStop. apply preserves_sfor. intros id. frame. Qed.

#[export] Hint Resolve Get_inv CreateNodes_inv P2PInstall_inv SetReceiveErrorModel_inv
  GetAddress_inv emit_inv AddRoute_inv InstallApp_inv SetDefault_inv
  MakeDirectories_inv CreateFileStream_inv SerializeToXmlFile_inv AddLteDevice_inv
  SetOnOffRate_inv AsOnOff_inv AppsStart_inv AppsStop_inv : ns3.

(** [preserves_auto], also through the pattern-matching binds and the
    [let]s of the builders. *)
Ltac inv_auto :=
  repeat first
    [ progress cbv zeta
    | solve [eauto 2 with ns3]
    | apply preserves_bind; [| intros ?]
    | apply preserves_sfor; intros ?
    | apply preserves_smap; intros ?
    | apply preserves_if
    | apply preserves_ret
    | apply preserves_fail
    | match goal with |- preserves _ (match ?x with _ => _ end) => destruct x end ].

(** ** Topology, applications, simulator, files *)

Lemma Assign_inv h devs : preserves Inv (Assign h devs).
Proof. revert h. induction devs as [|d devs IH]; intros h; simpl; inv_auto. Qed.
#[export] Hint Resolve Assign_inv : ns3.

Lemma InstallStacksOn_inv c : preserves Inv (InstallStacksOn c).
Proof. unfold InstallStacksOn. inv_auto. Qed.
Lemma PopulateRoutingTables_inv : preserves Inv PopulateRoutingTables.
Proof. unfold PopulateRoutingTables. inv_auto. Qed.
Lemma SinkInstall_inv h n : preserves Inv (SinkInstall h n).
Proof. unfold SinkInstall. inv_auto. Qed.
Lemma BulkInstall_inv h n : preserves Inv (BulkInstall h n).
Proof. unfold BulkInstall. inv_auto. Qed.
Lemma OnOffInstall_inv h n : preserves Inv (OnOffInstall h n).
Proof. unfold OnOffInstall. inv_auto. Qed.
Lemma SimulatorStop_inv t : preserves Inv (SimulatorStop t).
Proof. unfold SimulatorStop. apply Schedule_inv. discriminate. Qed.
Lemma SimulatorRun_inv : preserves Inv SimulatorRun.
Proof. unfold SimulatorRun. frame. Qed.
Lemma SimulatorDestroy_inv : preserves Inv SimulatorDestroy.
Proof. unfold SimulatorDestroy. inv_auto. Qed.
Lemma InstallAll_inv : preserves Inv InstallAll.
Proof. unfold InstallAll. inv_auto. Qed.
Lemma SetSeed_inv n : preserves Inv (SetSeed n).
Proof. unfold SetSeed. inv_auto. Qed.
Lemma SetRun_inv n : preserves Inv (SetRun n).
Proof. unfold SetRun. inv_auto. Qed.
Lemma SetQueue_inv h q : preserves Inv (SetQueue h q).
Proof. intros w Hw. unfold SetQueue. destruct (QueueSizeValid q); exact Hw. Qed.

#[export] Hint Resolve SetQueue_inv InstallStacksOn_inv PopulateRoutingTables_inv SinkInstall_inv
  BulkInstall_inv OnOffInstall_inv SimulatorStop_inv SimulatorRun_inv SimulatorDestroy_inv
  InstallAll_inv SetSeed_inv SetRun_inv : ns3.

(** ** The driver's components *)

Lemma ConfigureTcp_inv `{TypeIdRegistry} t : preserves Inv (ConfigureTcp t).
Proof. unfold ConfigureTcp. inv_auto. Qed.
Lemma CreateOutputDir_inv opts : preserves Inv (CreateOutputDir opts).
Proof. unfold CreateOutputDir. inv_auto. Qed.
Lemma SerializeFlowMonitor_inv m p : preserves Inv (SerializeFlowMonitor m p).
Proof. unfold SerializeFlowMonitor. inv_auto. Qed.
Lemma helper_or_abort_inv r : preserves Inv (helper_or_abort r).
Proof. unfold helper_or_abort. inv_auto. Qed.
#[export] Hint Resolve ConfigureTcp_inv CreateOutputDir_inv SerializeFlowMonitor_inv
  helper_or_abort_inv : ns3.

Lemma assign_side_inv h lds rds : preserves Inv (assign_side h lds rds).
Proof.
  revert h rds. induction lds as [|ld lds IH]; intros h [|rd rds]; simpl; inv_auto.
Qed.
#[export] Hint Resolve assign_side_inv : ns3.

Lemma MakeDumbbell_inv nl lh nr rh bh : preserves Inv (MakeDumbbell nl lh nr rh bh).
Proof. unfold MakeDumbbell, leaf_link. inv_auto. Qed.
Lemma DumbbellAssign_inv d l r b : preserves Inv (DumbbellAssign d l r b).
Proof. unfold DumbbellAssign. inv_auto. Qed.
#[export] Hint Resolve DumbbellAssign_inv : ns3.
Lemma AssignIpv4Addresses_inv d : preserves Inv (AssignIpv4Addresses d).
Proof. unfold AssignIpv4Addresses. inv_auto. Qed.
Lemma InstallStacks_inv d : preserves Inv (InstallStacks d).
Proof. unfold InstallStacks, DumbbellInstallStack. inv_auto. Qed.
Lemma GetLeft_inv d i : preserves Inv (GetLeft d i).
Proof. unfold GetLeft. inv_auto. Qed.
Lemma GetRight_inv d i : preserves Inv (GetRight d i).
Proof. unfold GetRight. inv_auto. Qed.
Lemma GetRightIpv4Address_inv d i : preserves Inv (GetRightIpv4Address d i).
Proof. unfold GetRightIpv4Address. inv_auto. Qed.
#[export] Hint Resolve MakeDumbbell_inv AssignIpv4Addresses_inv InstallStacks_inv
  GetLeft_inv GetRight_inv GetRightIpv4Address_inv : ns3.

Lemma InstallBulkTransfers_inv d a b : preserves Inv (InstallBulkTransfers d a b).
Proof. unfold InstallBulkTransfers, bulk_transfer. inv_auto. Qed.
Lemma InstallShortWebTraffic_inv c s a t1 t2 : preserves Inv (InstallShortWebTraffic c s a t1 t2).
Proof. unfold InstallShortWebTraffic. inv_auto. Qed.
#[export] Hint Resolve InstallBulkTransfers_inv InstallShortWebTraffic_inv : ns3.

(** ** The scenarios and [main] *)

Lemma InstallCwndTracing_inv opts n : preserves Inv (InstallCwndTracing opts n).
Proof.
  unfold InstallCwndTracing. inv_auto. apply Schedule_inv. intros; reflexivity.
Qed.
Lemma RunAndCollect_inv opts d : preserves Inv (RunAndCollect opts d).
Proof. unfold RunAndCollect. inv_auto. Qed.
#[export] Hint Resolve InstallCwndTracing_inv RunAndCollect_inv : ns3.

Lemma BuildScenarioS1_inv opts : preserves Inv (BuildScenarioS1 opts).
Proof. unfold BuildScenarioS1, SetupS1. inv_auto. Qed.
Lemma BuildScenarioS5_inv opts : preserves Inv (BuildScenarioS5 opts).
Proof. unfold BuildScenarioS5, SetupS5. inv_auto. Qed.
Lemma BuildScenarioS2_inv opts : preserves Inv (BuildScenarioS2 opts).
Proof. unfold BuildScenarioS2, SetupS2, s2_bulk. inv_auto. Qed.
Lemma BuildScenarioS3_inv opts : preserves Inv (BuildScenarioS3 opts).
Proof. unfold BuildScenarioS3, SetupS3. inv_auto. Qed.

Lemma MakeEpcHelper_inv : preserves Inv MakeEpcHelper.
Proof. unfold MakeEpcHelper. inv_auto. Qed.
Lemma InstallEnbDevice_inv epc c : preserves Inv (InstallEnbDevice epc c).
Proof.
  revert epc. induction c as [|n c IH]; intros epc; simpl; [inv_auto|].
  unfold enb_device. inv_auto.
Qed.
#[export] Hint Resolve MakeEpcHelper_inv InstallEnbDevice_inv : ns3.

Lemma ScheduleBlockage_inv opts v : preserves Inv (ScheduleBlockage opts v).
Proof. unfold ScheduleBlockage. inv_auto; apply Schedule_inv; discriminate. Qed.
#[export] Hint Resolve ScheduleBlockage_inv : ns3.

Lemma BuildScenarioS4_inv opts : preserves Inv (BuildScenarioS4 opts).
Proof. unfold BuildScenarioS4, SetupS4, InstallUeDevice, AssignUeIpv4Address, Attach. inv_auto. Qed.
#[export] Hint Resolve BuildScenarioS1_inv BuildScenarioS2_inv BuildScenarioS3_inv
  BuildScenarioS4_inv BuildScenarioS5_inv : ns3.

Lemma main_inv `{TypeIdRegistry} opts : preserves Inv (main opts).
Proof. unfold main, BuildScenario. inv_auto. Qed.

Lemma Inv_empty : Inv empty_world.
Proof. split_and!; [constructor|constructor|intros ? ? ? Hin; inversion Hin]. Qed.

Lemma main_final_inv `{TypeIdRegistry} opts : Inv (final (main opts empty_world)).
Proof. apply main_inv, Inv_empty. Qed.

(** C17: whatever the options and whatever window changes the TCP
    machines make during the run, the lines the cwnd tracers write
    ([CwndTracer]: time, old and new window) come in non-decreasing time
    order, and none is stamped before [tracer_delay] (0.1 s). *)
Theorem main_trace_records `{TypeIdRegistry} opts env :
  StronglySorted (fun a b => (rec_time a <= rec_time b)%Q)
    (rs_records (Run_env (final (main opts empty_world)) env)) /\
  Forall (fun r => (tracer_delay <= rec_time r)%Q)
    (rs_records (Run_env (final (main opts empty_world)) env)).
Proof.
  apply Run_env_records. intros t n f Hin.
  destruct (main_final_inv opts) as (_ & _ & Hd). rewrite (Hd _ _ _ Hin). apply Qle_refl.
Qed.
